(** * Country Trivia: the refresh pipeline

    A shallow embedding of the data processor (dataProcessor.js), the
    external fetchers (externalApi.js), the snapshot store operations
    (countryService.js), the refresh handler (countryController.js) and the
    error middleware (errorHandler.js), with the properties of the refresh
    pipeline stated over them. *)

From Stdlib Require Import QArith Qround Qabs Qpower Lqa.
From stdpp Require Import gmap strings list fin_maps.

Close Scope Q_scope.
Open Scope string_scope.
Set Warnings "-register-all".

(** ** JavaScript values

    The values flowing through the pipeline are parsed JSON documents, and
    the built-in functions an object inherits from [Object.prototype], which
    a lookup in the rate table can find.  A number is a binary64: NaN, an
    infinity, or a rational (the sign of zero is not modelled); the
    arithmetic below rounds every result to binary64. *)

Inductive number : Type :=
| NaN
| PInf
| NInf
| Fin (q : Q).

Inductive value : Type :=
| VUndefined
| VNull
| VBool (b : bool)
| VNum (n : number)
| VStr (s : string)
| VArr (l : list value)
| VObj (o : gmap string value)
| VBuiltin (f : string).

Definition Qzero (q : Q) : bool := (Qnum q =? 0)%Z.

(** ToBoolean: undefined, null, false, 0, NaN and the empty string are
    falsy, everything else (arrays, objects and functions included) is
    truthy. *)
Definition truthy (v : value) : bool :=
  match v with
  | VUndefined | VNull => false
  | VBool b => b
  | VNum NaN => false
  | VNum (Fin q) => negb (Qzero q)
  | VNum _ => true
  | VStr s => negb (String.eqb s "")
  | VArr _ | VObj _ | VBuiltin _ => true
  end.

(** [a || b] *)
Definition js_or (a b : value) : value := if truthy a then a else b.

(** ** Errors and property reads

    Reading a property of undefined or null raises a TypeError.  An object
    answers with its own entry or undefined, a built-in function with its
    name.  The other values answer undefined: [get] serves the reads of
    name, capital, region, population, currencies, flag and code, none of
    which is a property of [Object.prototype] or a built-in property of a
    number, boolean, string or array.  (The read with a computed key, in the
    rate table, is [get_inherited] below.) *)

Record js_error : Type := mkError {
  err_name : string;
  err_message : string;
  err_code : value;
  err_statusCode : option nat;
  err_details : value
}.

(** [new Error(message)] *)
Definition Error (message : string) : js_error :=
  mkError "Error" message VUndefined None VUndefined.

Definition TypeError (message : string) : js_error :=
  mkError "TypeError" message VUndefined None VUndefined.

Inductive outcome (A : Type) : Type :=
| Ok (a : A)
| Throw (e : js_error).
Arguments Ok {A} a.
Arguments Throw {A} e.

Definition get (v : value) (k : string) : outcome value :=
  match v with
  | VUndefined =>
      Throw (TypeError ("Cannot read properties of undefined (reading '" ++ k ++ "')"))
  | VNull =>
      Throw (TypeError ("Cannot read properties of null (reading '" ++ k ++ "')"))
  | VObj o => Ok (default VUndefined (o !! k))
  | VBuiltin f => Ok (if String.eqb k "name" then VStr f else VUndefined)
  | _ => Ok VUndefined
  end.

Definition Array_isArray (v : value) : bool :=
  match v with VArr _ => true | _ => false end.

Definition elements (v : value) : list value :=
  match v with VArr l => l | _ => [] end.

(** What every object inherits from [Object.prototype]: its functions, and
    under [__proto__] the prototype itself, an object without enumerable
    properties that the pipeline cannot tell from [{}]. *)
Definition Object_prototype : gmap string value :=
  list_to_map
    [ ("constructor", VBuiltin "Object");
      ("toString", VBuiltin "toString");
      ("toLocaleString", VBuiltin "toLocaleString");
      ("valueOf", VBuiltin "valueOf");
      ("hasOwnProperty", VBuiltin "hasOwnProperty");
      ("isPrototypeOf", VBuiltin "isPrototypeOf");
      ("propertyIsEnumerable", VBuiltin "propertyIsEnumerable");
      ("__defineGetter__", VBuiltin "__defineGetter__");
      ("__defineSetter__", VBuiltin "__defineSetter__");
      ("__lookupGetter__", VBuiltin "__lookupGetter__");
      ("__lookupSetter__", VBuiltin "__lookupSetter__");
      ("__proto__", VObj ∅) ].

(** [o[k]] on an object: the own entry, else the inherited one, else
    undefined. *)
Definition get_inherited (o : gmap string value) (k : string) : value :=
  match o !! k with
  | Some v => v
  | None => default VUndefined (Object_prototype !! k)
  end.

(** ** Arithmetic

    The result of an operation on finite numbers is the exact result
    rounded to the nearest binary64, a tie going to the even significand:
    53 significant bits, the last bit worth at least 2^-1074, and infinity
    once the rounded magnitude reaches 2^1024. *)

Definition Qneg (q : Q) : bool := (Qnum q <? 0)%Z.

Definition inf (negative : bool) : number := if negative then NInf else PInf.

Definition pow2 (e : Z) : Q := Qpower 2 e.

(** The exponent [e] of a positive rational: [2^e <= q < 2^(e+1)]. *)
Definition Qlog2 (q : Q) : Z :=
  let k := (Z.log2 (Qnum q) - Z.log2 (Zpos (Qden q)))%Z in
  if Qle_bool (pow2 k) q then k else (k - 1)%Z.

(** The nearest integer, a tie going to the even one. *)
Definition round_half_even (t : Q) : Z :=
  let f := Qfloor t in
  match (t - inject_Z f ?= 1 # 2)%Q with
  | Lt => f
  | Gt => (f + 1)%Z
  | Eq => if Z.even f then f else (f + 1)%Z
  end.

(** The exponent of the binade a positive rational is rounded in: that of
    the rational, or -1022 below the normal range. *)
Definition exponent (q : Q) : Z := Z.max (Qlog2 q) (-1022).

(** The multiple of the last bit's worth nearest to a positive rational. *)
Definition round64_pos (q : Q) : Q :=
  let c := (exponent q - 52)%Z in
  Qred (inject_Z (round_half_even (q / pow2 c)) * pow2 c).

Definition round64 (q : Q) : number :=
  if Qzero q then Fin 0
  else
    let r := round64_pos (Qabs q) in
    if Qle_bool (pow2 1024) r then inf (Qneg q)
    else Fin (if Qneg q then - r else r)%Q.

Definition js_add (a b : number) : number :=
  match a, b with
  | NaN, _ | _, NaN => NaN
  | Fin x, Fin y => round64 (x + y)
  | PInf, NInf | NInf, PInf => NaN
  | PInf, _ | _, PInf => PInf
  | NInf, _ | _, NInf => NInf
  end.

Definition js_sub (a b : number) : number :=
  match a, b with
  | NaN, _ | _, NaN => NaN
  | Fin x, Fin y => round64 (x - y)
  | PInf, PInf | NInf, NInf => NaN
  | PInf, _ | _, NInf => PInf
  | NInf, _ | _, PInf => NInf
  end.

Definition js_mul (a b : number) : number :=
  match a, b with
  | NaN, _ | _, NaN => NaN
  | Fin x, Fin y => round64 (x * y)
  | PInf, PInf | NInf, NInf => PInf
  | PInf, NInf | NInf, PInf => NInf
  | PInf, Fin y | Fin y, PInf => if Qzero y then NaN else inf (Qneg y)
  | NInf, Fin y | Fin y, NInf => if Qzero y then NaN else inf (negb (Qneg y))
  end.

Definition js_div (a b : number) : number :=
  match a, b with
  | NaN, _ | _, NaN => NaN
  | Fin x, Fin y =>
      if Qzero y then (if Qzero x then NaN else inf (Qneg x))
      else round64 (x / y)
  | Fin _, _ => Fin 0
  | PInf, Fin y => inf (Qneg y)
  | NInf, Fin y => inf (negb (Qneg y))
  | _, _ => NaN
  end.

(** [x.toFixed(2)] read as a rational: the multiple of 1/100 nearest to
    [x], a tie going away from zero (toFixed formats the magnitude and picks
    the larger candidate). *)
Definition toFixed2 (x : Q) : Q :=
  let n := Qfloor (Qabs x * 100 + (1 # 2))%Q in
  ((if Qneg x then - n else n)%Z # 100)%Q.

(** [parseFloat(x.toFixed(2))]: below 10^21 toFixed prints the two
    decimals and parseFloat reads them back as the nearest binary64; from
    10^21 on, and for NaN and the infinities, toFixed prints the number as
    ToString does and parseFloat reads the number back. *)
Definition parseFloat_toFixed2 (x : number) : number :=
  match x with
  | Fin q =>
      if Qle_bool (inject_Z (10 ^ 21)) (Qabs q) then Fin q
      else round64 (toFixed2 q)
  | other => other
  end.

(** ** Conversions

    ToString and ToNumber.  The numeric value of a string and the decimal
    form of a number are the runtime's, total functions both.  An array
    prints as its elements joined by commas, null and undefined as the
    empty string.  An object prints as "[object Object]" through the
    inherited [toString]; when it has an own [toString], which in parsed
    JSON is not a function, nothing it offers returns a primitive (the own
    or inherited [valueOf] included) and the conversion raises a
    TypeError. *)

Definition cannot_convert : js_error :=
  TypeError "Cannot convert object to primitive value".

(** [parts.join(",")] over the printed elements; the first element that
    cannot be printed ends it. *)
Fixpoint join (parts : list (outcome string)) : outcome string :=
  match parts with
  | [] => Ok ""
  | [part] => part
  | part :: rest =>
      match part with
      | Ok s =>
          match join rest with
          | Ok r => Ok (s ++ "," ++ r)
          | Throw e => Throw e
          end
      | Throw e => Throw e
      end
  end.

Section Conversions.

Variable StringToNumber : string -> number.
Variable Number_toString : number -> string.

Fixpoint ToString (v : value) : outcome string :=
  match v with
  | VUndefined => Ok "undefined"
  | VNull => Ok "null"
  | VBool b => Ok (if b then "true" else "false")
  | VNum n => Ok (Number_toString n)
  | VStr s => Ok s
  | VArr l =>
      join (map (fun element =>
                   match element with
                   | VUndefined | VNull => Ok ""
                   | _ => ToString element
                   end) l)
  | VObj o =>
      match o !! "toString" with
      | None => Ok "[object Object]"
      | Some _ => Throw cannot_convert
      end
  | VBuiltin f => Ok ("function " ++ f ++ "() { [native code] }")
  end.

(** An object that prints prints as "[object Object]" and a function as
    its source text, neither of which is a numeric literal. *)
Definition ToNumber (v : value) : outcome number :=
  match v with
  | VUndefined => Ok NaN
  | VNull => Ok (Fin 0)
  | VBool b => Ok (Fin (if b then 1 else 0))
  | VNum n => Ok n
  | VStr s => Ok (StringToNumber s)
  | VArr _ =>
      match ToString v with
      | Ok s => Ok (StringToNumber s)
      | Throw e => Throw e
      end
  | VObj _ | VBuiltin _ =>
      match ToString v with
      | Ok _ => Ok NaN
      | Throw e => Throw e
      end
  end.

Definition ToPropertyKey (v : value) : outcome string := ToString v.

End Conversions.

(** ** Computations over a state that may throw

    A computation takes the state and returns an outcome together with the
    state it leaves: what was done before an exception stays done.  The data
    processor runs over the number of [Math.random()] draws made so far (the
    numbers handed out are a parameter of the model), the store over the
    database, a request handler over the world. *)

Definition ST (S A : Type) : Type := S -> outcome A * S.

Definition st_ret {S A} (a : A) : ST S A := fun s => (Ok a, s).

Definition st_bind {S A B} (m : ST S A) (k : A -> ST S B) : ST S B :=
  fun s => match m s with
           | (Ok a, s') => k a s'
           | (Throw e, s') => (Throw e, s')
           end.

Definition st_throw {S A} (e : js_error) : ST S A := fun s => (Throw e, s).

(** A computation that does not touch the state. *)
Definition st_lift {S A} (r : outcome A) : ST S A := fun s => (r, s).

(** [try { body } catch (error) { handler }] *)
Definition st_try_catch {S A} (body : ST S A) (handler : js_error -> ST S A)
  : ST S A :=
  fun s => match body s with
           | (Ok a, s') => (Ok a, s')
           | (Throw e, s') => handler e s'
           end.

#[export] Instance ST_ret {S} : MRet (ST S) := @st_ret S.
#[export] Instance ST_bind {S} : MBind (ST S) := fun A B k m => st_bind m k.

(** [xs.map(f)]: the callback runs on the elements from left to right; an
    exception in one call ends the whole map. *)
Fixpoint map_M {S A B} (f : A -> ST S B) (xs : list A) : ST S (list B) :=
  match xs with
  | [] => st_ret []
  | x :: rest =>
      y ← f x;
      ys ← map_M f rest;
      st_ret (y :: ys)
  end.

(** [for (const x of xs) { await f(x) }] *)
Fixpoint for_of {S A} (xs : list A) (f : A -> ST S unit) : ST S unit :=
  match xs with
  | [] => st_ret tt
  | x :: rest => _ ← f x; for_of rest f
  end.

Abbreviation M := (ST nat).

(** ** The data processor (dataProcessor.js) *)

Record CountryDraft : Type := mkDraft {
  name : value;
  capital : value;
  region : value;
  population : value;
  currency_code : value;
  exchange_rate : value;
  estimated_gdp : value;
  flag_url : value
}.

Section DataProcessor.

(** The runtime's reading of a string as a number (in [*] and [/]) and its
    printing of a number (in [exchangeRates[currencyCode]]), and the values
    [Math.random()] returns, call after call. *)
Variable StringToNumber : string -> number.
Variable Number_toString : number -> string.
Variable random : nat -> Q.

Definition Math_random : M number := fun s => (Ok (Fin (random s)), S s).

Definition extractCurrencyCode (currencies : value) : outcome value :=
  if negb (truthy currencies) || negb (Array_isArray currencies)
     || (length (elements currencies) =? 0)%nat
  then Ok VNull
  else
    let firstCurrency := default VUndefined (elements currencies !! 0%nat) in
    match get firstCurrency "code" with
    | Ok code => Ok (js_or code VNull)
    | Throw e => Throw e
    end.

Definition generateRandomMultiplier : M number :=
  u ← Math_random;
  st_ret (js_add (js_mul u (js_sub (Fin 2000) (Fin 1000))) (Fin 1000)).

Definition calculateEstimatedGDP (population exchangeRate : value) : M value :=
  if negb (truthy population) || negb (truthy exchangeRate)
  then st_ret VNull
  else
    multiplier ← generateRandomMultiplier;
    population_number ←
      st_lift (ToNumber StringToNumber Number_toString population);
    exchangeRate_number ←
      st_lift (ToNumber StringToNumber Number_toString exchangeRate);
    let gdp := js_div (js_mul population_number multiplier)
                      exchangeRate_number in
    st_ret (VNum (parseFloat_toFixed2 gdp)).

(** [exchangeRates[currencyCode]] on the rate table, an object. *)
Definition rate_of (exchangeRates : gmap string value) (currencyCode : value)
  : outcome value :=
  match ToPropertyKey Number_toString currencyCode with
  | Ok key => Ok (get_inherited exchangeRates key)
  | Throw e => Throw e
  end.

(** The callback [processCountryData] maps over the countries.  The
    condition [currencyCode && exchangeRates[currencyCode]] is the code when
    that is falsy and the entry of the table otherwise; the entry is read
    again in the branch. *)
Definition processCountry (exchangeRates : gmap string value) (country : value)
  : M CountryDraft :=
  currencies ← st_lift (get country "currencies");
  currencyCode ← st_lift (extractCurrencyCode currencies);
  condition ←
    (if truthy currencyCode
     then st_lift (rate_of exchangeRates currencyCode)
     else st_ret currencyCode);
  '(exchangeRate, estimatedGdp) ←
    (if truthy condition
     then
       exchangeRate ← st_lift (rate_of exchangeRates currencyCode);
       country_population ← st_lift (get country "population");
       estimatedGdp ← calculateEstimatedGDP country_population exchangeRate;
       st_ret (exchangeRate, estimatedGdp)
     else if truthy currencyCode
     then st_ret (VNull, VNull)
     else st_ret (VNull, VNum (Fin 0)));
  country_name ← st_lift (get country "name");
  country_capital ← st_lift (get country "capital");
  country_region ← st_lift (get country "region");
  country_population ← st_lift (get country "population");
  country_flag ← st_lift (get country "flag");
  st_ret {| name := js_or country_name (VStr "");
         capital := js_or country_capital VNull;
         region := js_or country_region VNull;
         population := js_or country_population (VNum (Fin 0));
         currency_code := currencyCode;
         exchange_rate := exchangeRate;
         estimated_gdp :=
           match estimatedGdp with VNull => VNull | other => other end;
         flag_url := js_or country_flag VNull |}.

Definition processCountryData (countries : list value)
    (exchangeRates : gmap string value) : M (list CountryDraft) :=
  map_M (processCountry exchangeRates) countries.

End DataProcessor.

(** ** The external fetchers (externalApi.js)

    [axios.get] is the environment: it resolves with the parsed body of the
    response or rejects with an error; a request cut off by the 30 s timeout
    rejects with code ECONNABORTED. *)

Definition try_catch {A} (body : outcome A) (handler : js_error -> outcome A)
  : outcome A :=
  match body with
  | Ok a => Ok a
  | Throw e => handler e
  end.

(** [v === 'literal'] *)
Definition is_string (v : value) (literal : string) : bool :=
  match v with
  | VStr s => String.eqb s literal
  | _ => false
  end.

Definition fetchCountries (axios_get : outcome value) : outcome value :=
  try_catch
    (match axios_get with
     | Ok response_data => Ok response_data
     | Throw e => Throw e
     end)
    (fun error =>
       if is_string (err_code error) "ECONNABORTED"
       then Throw (Error "Countries API request timed out")
       else Throw (Error ("Could not fetch data from Countries API: "
                          ++ err_message error))).

Definition fetchExchangeRates (axios_get : outcome value) : outcome value :=
  try_catch
    (match axios_get with
     | Ok response_data =>
         match (if truthy response_data then get response_data "rates"
                else Ok response_data) with
         | Ok rates =>
             if truthy rates then Ok rates
             else Throw (Error "Invalid response format from Exchange Rate API")
         | Throw e => Throw e
         end
     | Throw e => Throw e
     end)
    (fun error =>
       if is_string (err_code error) "ECONNABORTED"
       then Throw (Error "Exchange Rate API request timed out")
       else Throw (Error ("Could not fetch data from Exchange Rate API: "
                          ++ err_message error))).

(** ** The error middleware (errorHandler.js) *)

Record http_response : Type := mkResponse {
  status : nat;
  body : value
}.

(** [haystack.includes(needle)] *)
Fixpoint includes (haystack needle : string) : bool :=
  String.prefix needle haystack
  || match haystack with
     | EmptyString => false
     | String _ rest => includes rest needle
     end.

(** [new AppError(message, statusCode, details = null)] *)
Definition AppError (message : string) (statusCode : nat) (details : value)
  : js_error :=
  mkError "Error" message VUndefined (Some statusCode) details.

Definition errorHandler (err : js_error) : http_response :=
  match err_statusCode err with
  | Some (S _ as statusCode) =>
      let errorResponse : gmap string value :=
        {[ "error" := VStr (err_message err) ]} in
      mkResponse statusCode
        (VObj (if truthy (err_details err)
               then <[ "details" := err_details err ]> errorResponse
               else errorResponse))
  | _ =>
      if String.eqb (err_name err) "ValidationError"
      then mkResponse 400
             (VObj (<[ "details" := js_or (err_details err) (VObj ∅) ]>
                      {[ "error" := VStr "Validation failed" ]}))
      else if truthy (VStr (err_message err))
              && includes (err_message err) "Could not fetch data from"
      then mkResponse 503
             (VObj (<[ "details" := VStr (err_message err) ]>
                      {[ "error" := VStr "External data source unavailable" ]}))
      else mkResponse 500 (VObj {[ "error" := VStr "Internal server error" ]})
  end.

(** ** The snapshot store (countryService.js over MySQL/InnoDB)

    The two tables of database.js.  A connection inside a transaction keeps
    the tables as they were when the transaction began; ROLLBACK puts them
    back and COMMIT forgets them.  The AUTO_INCREMENT counter of the
    countries table is not transactional.  Any statement may be rejected by
    the server; which ones are is given by a fault plan. *)

Record CountryRow : Type := mkRow {
  row_id : nat;
  row_data : CountryDraft;
  row_last_refreshed_at : nat;
  row_created_at : nat
}.

Record MetadataRow : Type := mkMetadataRow {
  meta_id : nat;
  meta_last_refreshed_at : nat;
  meta_total_countries : nat
}.

Record Tables : Type := mkTables {
  countries : list CountryRow;
  refresh_metadata : list MetadataRow
}.

Record Database : Type := mkDatabase {
  tables : Tables;
  transaction : option Tables;
  auto_increment : nat;
  NOW : nat
}.

Record Faults : Type := mkFaults {
  getConnection_fault : option js_error;
  beginTransaction_fault : option js_error;
  insert_fault : list CountryRow -> CountryDraft -> option js_error;
  commit_fault : option js_error;
  count_fault : option js_error;
  update_metadata_fault : option js_error;
  select_metadata_fault : option js_error;
  select_top_fault : option js_error
}.

Abbreviation DB := (ST Database).

(** A statement the server may reject: nothing happens when it does. *)
Definition guarded (fault : option js_error) (statement : DB unit) : DB unit :=
  match fault with
  | Some e => st_throw e
  | None => statement
  end.

Definition read_db : DB Database := fun db => (Ok db, db).

Definition modify_tables (f : Tables -> Tables) : DB unit :=
  fun db => (Ok tt, mkDatabase (f (tables db)) (transaction db)
                               (auto_increment db) (NOW db)).

Definition beginTransaction : DB unit :=
  fun db => (Ok tt, mkDatabase (tables db) (Some (tables db))
                               (auto_increment db) (NOW db)).

Definition commit : DB unit :=
  fun db => (Ok tt, mkDatabase (tables db) None (auto_increment db) (NOW db)).

Definition rollback : DB unit :=
  fun db => (Ok tt, mkDatabase (default (tables db) (transaction db)) None
                               (auto_increment db) (NOW db)).

Section Store.

(** The server's view of a name under the collation of the UNIQUE index
    (utf8mb4_unicode_ci), its comparison [column = ?], its ORDER BY (by
    clause text), and the runtime's [parseFloat] on a column value. *)
Variable collate : value -> string.
Variable sql_equal : value -> value -> bool.
Variable order_by : string -> list CountryRow -> list CountryRow.
Variable parseFloat : value -> value.

Definition same_name (a b : CountryDraft) : bool :=
  String.eqb (collate (name a)) (collate (name b)).

(** INSERT ... ON DUPLICATE KEY UPDATE on the rows: a row of the same name
    gets every column but id, name and created_at overwritten; without one
    a new row is added. *)
Fixpoint on_duplicate_key_update (now : nat) (country : CountryDraft)
    (rows : list CountryRow) : option (list CountryRow) :=
  match rows with
  | [] => None
  | r :: rest =>
      if same_name (row_data r) country
      then Some (mkRow (row_id r)
                       (mkDraft (name (row_data r)) (capital country)
                                (region country) (population country)
                                (currency_code country) (exchange_rate country)
                                (estimated_gdp country) (flag_url country))
                       now (row_created_at r) :: rest)
      else option_map (cons r) (on_duplicate_key_update now country rest)
  end.

Definition insert_country (country : CountryDraft) : DB unit :=
  fun db =>
    let rows := countries (tables db) in
    let rows' :=
      match on_duplicate_key_update (NOW db) country rows with
      | Some updated => updated
      | None => (rows ++ [mkRow (auto_increment db) country (NOW db) (NOW db)])%list
      end in
    (Ok tt, mkDatabase (mkTables rows' (refresh_metadata (tables db)))
                       (transaction db) (S (auto_increment db)) (NOW db)).

Definition connection_query (faults : Faults) (country : CountryDraft)
  : DB unit :=
  fun db =>
    guarded (insert_fault faults (countries (tables db)) country)
            (insert_country country) db.

Definition bulkUpsertCountries (faults : Faults)
    (batch : list CountryDraft) : DB nat :=
  _ ← guarded (getConnection_fault faults) (st_ret tt);
  st_try_catch
    (_ ← guarded (beginTransaction_fault faults) beginTransaction;
     _ ← for_of batch (connection_query faults);
     _ ← guarded (commit_fault faults) commit;
     st_ret (length batch))
    (fun error => _ ← rollback; st_throw error).

Record Filters : Type := mkFilters {
  filter_region : value;
  filter_currency : value
}.

Definition formatCountryResponse (row : CountryRow) : value :=
  let d := row_data row in
  VObj (list_to_map
    [ ("id", VNum (Fin (inject_Z (Z.of_nat (row_id row)))));
      ("name", name d);
      ("capital", capital d);
      ("region", region d);
      ("population", population d);
      ("currency_code", currency_code d);
      ("exchange_rate",
        if truthy (exchange_rate d) then parseFloat (exchange_rate d)
        else VNull);
      ("estimated_gdp",
        if truthy (estimated_gdp d) then parseFloat (estimated_gdp d)
        else match estimated_gdp d with
             | VNum (Fin _) => VNum (Fin 0)
             | _ => VNull
             end);
      ("flag_url", flag_url d);
      ("last_refreshed_at",
        VNum (Fin (inject_Z (Z.of_nat (row_last_refreshed_at row))))) ]).

Definition sort_clause (sort : value) : string :=
  if is_string sort "gdp_desc" then "estimated_gdp DESC"
  else if is_string sort "gdp_asc" then "estimated_gdp ASC"
  else if is_string sort "population_desc" then "population DESC"
  else if is_string sort "population_asc" then "population ASC"
  else if is_string sort "name_asc" then "name ASC"
  else if is_string sort "name_desc" then "name DESC"
  else "name ASC".

Definition getAllCountries (select_fault : option js_error)
    (filters : Filters) (sort : value) : DB (list value) :=
  fun db =>
    match select_fault with
    | Some e => (Throw e, db)
    | None =>
        let by_region :=
          if truthy (filter_region filters)
          then filter (fun r => sql_equal (region (row_data r))
                                          (filter_region filters) = true)
                      (countries (tables db))
          else countries (tables db) in
        let by_currency :=
          if truthy (filter_currency filters)
          then filter (fun r => sql_equal (currency_code (row_data r))
                                          (filter_currency filters) = true)
                      by_region
          else by_region in
        (Ok (map formatCountryResponse
                 (order_by (sort_clause sort) by_currency)), db)
    end.

Definition updateRefreshMetadata (faults : Faults) : DB unit :=
  _ ← guarded (count_fault faults) (st_ret tt);
  db ← read_db;
  let totalCountries := length (countries (tables db)) in
  guarded (update_metadata_fault faults)
    (modify_tables (fun t =>
       mkTables (countries t)
         (map (fun m => if (meta_id m =? 1)%nat
                        then mkMetadataRow (meta_id m) (NOW db) totalCountries
                        else m)
              (refresh_metadata t)))).

Record Metadata : Type := mkMetadata {
  total_countries : nat;
  last_refreshed_at : option nat
}.

Definition getRefreshMetadata (faults : Faults) : DB Metadata :=
  _ ← guarded (select_metadata_fault faults) (st_ret tt);
  db ← read_db;
  match filter (fun m => meta_id m = 1%nat) (refresh_metadata (tables db)) with
  | [] => st_ret (mkMetadata 0 None)
  | row :: _ =>
      st_ret (mkMetadata (meta_total_countries row)
                         (Some (meta_last_refreshed_at row)))
  end.

Definition is_not_null (v : value) : bool :=
  match v with VNull | VUndefined => false | _ => true end.

Definition getTopCountriesByGDP (faults : Faults) (limit : nat)
  : DB (list CountryRow) :=
  _ ← guarded (select_top_fault faults) (st_ret tt);
  db ← read_db;
  st_ret (take limit
            (order_by "estimated_gdp DESC"
               (filter (fun r => is_not_null (estimated_gdp (row_data r)) = true)
                       (countries (tables db))))).

End Store.

(** ** The refresh handler (countryController.js)

    The world a request runs in: the database, the number of random draws
    made so far and the summary image in the cache directory.  The
    environment of one request: what the two HTTP calls come back with, which
    of them rejects first when both do, the faults of the database, and
    whether writing the image fails. *)

Record SummaryData : Type := mkSummary {
  summary_total_countries : nat;
  summary_top_countries : list CountryRow;
  summary_last_refreshed_at : option nat
}.

Record World : Type := mkWorld {
  database : Database;
  draws : nat;
  summary_png : option SummaryData
}.

Record Env : Type := mkEnv {
  axios_countries : outcome value;
  axios_rates : outcome value;
  rates_reject_first : bool;
  faults : Faults;
  render_fault : option js_error
}.

Abbreviation IO := (ST World).

(** The data processor and the store inside a request. *)
Definition io_random {A} (m : M A) : IO A :=
  fun w => let '(r, s) := m (draws w) in
           (r, mkWorld (database w) s (summary_png w)).

Definition io_db {A} (m : DB A) : IO A :=
  fun w => let '(r, db) := m (database w) in
           (r, mkWorld db (draws w) (summary_png w)).

(** [await Promise.all([a, b])]: both results, or the rejection that came
    first. *)
Definition Promise_all {A B} (b_rejects_first : bool)
    (a : outcome A) (b : outcome B) : outcome (A * B) :=
  match a, b with
  | Ok x, Ok y => Ok (x, y)
  | Throw e, Ok _ => Throw e
  | Ok _, Throw e => Throw e
  | Throw ea, Throw eb => Throw (if b_rejects_first then eb else ea)
  end.

(** The receiver of [countries.map(...)]: only an array has the method. *)
Definition map_receiver (countries : value) : outcome (list value) :=
  match countries with
  | VArr l => Ok l
  | VUndefined =>
      Throw (TypeError "Cannot read properties of undefined (reading 'map')")
  | VNull => Throw (TypeError "Cannot read properties of null (reading 'map')")
  | _ => Throw (TypeError "countries.map is not a function")
  end.

(** The rate table behind [exchangeRates[...]]: the entries of the object.
    (The processor is modelled on rate tables that are objects, as its
    documentation has them; a truthy rates value that is not an object, a
    string or an array say, is read as an object without entries, and its
    own index and length properties are not modelled.) *)
Definition own_properties (exchangeRates : value) : gmap string value :=
  match exchangeRates with
  | VObj o => o
  | _ => ∅
  end.

Definition timestamp (t : option nat) : value :=
  match t with
  | Some n => VNum (Fin (inject_Z (Z.of_nat n)))
  | None => VNull
  end.

(** What a handler hands to Express: [res.json(body)] or [next(error)]. *)
Inductive handled : Type :=
| Json (body : value)
| Next (error : js_error).

Definition generateSummaryImage (env : Env) (data : SummaryData) : IO unit :=
  fun w =>
    match render_fault env with
    | Some e => (Throw e, w)
    | None => (Ok tt, mkWorld (database w) (draws w) (Some data))
    end.

Section Controller.

Variable StringToNumber : string -> number.
Variable Number_toString : number -> string.
Variable random : nat -> Q.
Variable collate : value -> string.
Variable order_by : string -> list CountryRow -> list CountryRow.

Definition refresh (env : Env) : IO value :=
  '(countries, exchangeRates) ←
    st_lift (Promise_all (rates_reject_first env)
                  (fetchCountries (axios_countries env))
                  (fetchExchangeRates (axios_rates env)));
  records ← st_lift (map_receiver countries);
  processedCountries ←
    io_random (processCountryData StringToNumber Number_toString random
                 records (own_properties exchangeRates));
  count ← io_db (bulkUpsertCountries collate (faults env) processedCountries);
  _ ← io_db (updateRefreshMetadata (faults env));
  metadata ← io_db (getRefreshMetadata (faults env));
  topCountries ← io_db (getTopCountriesByGDP order_by (faults env) 5);
  _ ← generateSummaryImage env
        (mkSummary (total_countries metadata) topCountries
                   (last_refreshed_at metadata));
  st_ret (VObj (list_to_map
    [ ("message", VStr "Countries data refreshed successfully");
      ("countries_processed", VNum (Fin (inject_Z (Z.of_nat count))));
      ("last_refreshed_at", timestamp (last_refreshed_at metadata)) ])).

(** [try { ... res.json(...) } catch (error) { next(error) }] *)
Definition refreshCountries (env : Env) (w : World) : handled * World :=
  match refresh env w with
  | (Ok body, w') => (Json body, w')
  | (Throw error, w') => (Next error, w')
  end.

(** What the client receives: the JSON body with status 200, or what the
    error middleware makes of the error. *)
Definition respond (h : handled) : http_response :=
  match h with
  | Json body => mkResponse 200 body
  | Next error => errorHandler error
  end.

End Controller.

(** ** Vocabulary of the properties *)

(** The first currency code of a raw country, as the processor extracts it. *)
Definition first_currency_code (country : value) : outcome value :=
  match get country "currencies" with
  | Ok currencies => extractCurrencyCode currencies
  | Throw e => Throw e
  end.

(** The currencies of a raw country are absent or empty. *)
Definition no_currencies (currencies : value) : Prop :=
  currencies = VUndefined \/ currencies = VNull \/ currencies = VArr [].

(** A field of a raw country, undefined when it is missing. *)
Definition field (country : value) (k : string) : value :=
  match get country k with
  | Ok v => v
  | Throw _ => VUndefined
  end.

(** A value the runtime can convert to a string or a number: it is not an
    object with an own [toString], and if an array, none of its elements is
    such a value. *)
Fixpoint convertible (v : value) : bool :=
  match v with
  | VArr l => forallb convertible l
  | VObj o => bool_decide (o !! "toString" = None)
  | _ => true
  end.

(** The draft the callback builds once the code, the rate and the estimate
    are known. *)
Definition draft_of (country currencyCode exchangeRate estimatedGdp : value)
  : CountryDraft :=
  {| name := js_or (field country "name") (VStr "");
     capital := js_or (field country "capital") VNull;
     region := js_or (field country "region") VNull;
     population := js_or (field country "population") (VNum (Fin 0));
     currency_code := currencyCode;
     exchange_rate := exchangeRate;
     estimated_gdp := estimatedGdp;
     flag_url := js_or (field country "flag") VNull |}.

(** The order of the numbers; NaN is not comparable. *)
Definition num_le (a b : number) : Prop :=
  match a, b with
  | NaN, _ | _, NaN => False
  | NInf, _ | _, PInf => True
  | Fin x, Fin y => (x <= y)%Q
  | _, _ => False
  end.

(** The multiplier made of a draw: [u * (2000 - 1000) + 1000]. *)
Definition multiplier (u : Q) : number :=
  js_add (js_mul (Fin u) (js_sub (Fin 2000) (Fin 1000))) (Fin 1000).

(** The estimate the code computes from a population, a multiplier and a
    rate: [parseFloat(((P * m) / R).toFixed(2))]. *)
Definition estimate (P m R : Q) : number :=
  parseFloat_toFixed2 (js_div (js_mul (Fin P) (Fin m)) (Fin R)).

Section Reconciliation.

Variable StringToNumber : string -> number.
Variable Number_toString : number -> string.
Variable random : nat -> Q.

Local Abbreviation processCountry' :=
  (processCountry StringToNumber Number_toString random).
Local Abbreviation processCountryData' :=
  (processCountryData StringToNumber Number_toString random).

(** What the rate table holds under a code, undefined when the code cannot
    be made a key. *)
Definition looked_up (exchangeRates : gmap string value) (code : value)
  : value :=
  match rate_of Number_toString exchangeRates code with
  | Ok rate => rate
  | Throw _ => VUndefined
  end.

(** A record the processor can read.  It is not null or undefined.  If its
    currencies are a non-empty array, the first entry is not null or
    undefined, and if that entry has a truthy code, the code is
    convertible; if moreover the table holds a truthy rate under the code
    and the population is truthy, the population and the rate are
    convertible. *)
Definition readable (exchangeRates : gmap string value) (country : value)
  : bool :=
  match country with
  | VUndefined | VNull => false
  | _ =>
      match field country "currencies" with
      | VArr (first :: _) =>
          match first with
          | VUndefined | VNull => false
          | _ =>
              let code := field first "code" in
              if truthy code
              then convertible code
                   && (negb (truthy (looked_up exchangeRates code)
                             && truthy (field country "population"))
                       || (convertible (field country "population")
                           && convertible (looked_up exchangeRates code)))
              else true
          end
      | _ => true
      end
  end.

(** What a call of the callback can come to. *)
Inductive callback_result (exchangeRates : gmap string value)
    (country : value) (s : nat) : outcome CountryDraft * nat -> Prop :=
| unread (e : js_error) :
    first_currency_code country = Throw e ->
    callback_result exchangeRates country s (Throw e, s)
| without_code (code : value) :
    first_currency_code country = Ok code ->
    truthy code = false ->
    callback_result exchangeRates country s
      (Ok (draft_of country code VNull (VNum (Fin 0))), s)
| unprintable_code (code : value) :
    first_currency_code country = Ok code ->
    truthy code = true ->
    convertible code = false ->
    callback_result exchangeRates country s (Throw cannot_convert, s)
| without_rate (code : value) :
    first_currency_code country = Ok code ->
    truthy code = true ->
    convertible code = true ->
    truthy (looked_up exchangeRates code) = false ->
    callback_result exchangeRates country s
      (Ok (draft_of country code VNull VNull), s)
| with_rate (code : value) (r : outcome value) (s' : nat) :
    first_currency_code country = Ok code ->
    truthy code = true ->
    convertible code = true ->
    truthy (looked_up exchangeRates code) = true ->
    calculateEstimatedGDP StringToNumber Number_toString random
      (field country "population")
                           (looked_up exchangeRates code) s = (r, s') ->
    callback_result exchangeRates country s
      (match r with
       | Ok g => Ok (draft_of country code (looked_up exchangeRates code) g)
       | Throw e => Throw e
       end, s').

(** [always_reconciled exchangeRates country Q]: the callback returns a
    draft of [country] after any number of earlier draws, and whenever
    [processCountryData] returns for a batch, the draft at the position of
    [country] is one the callback returned; [Q] holds of these drafts. *)
Definition always_reconciled (exchangeRates : gmap string value)
    (country : value) (Q : CountryDraft -> Prop) : Prop :=
  (forall s, exists d s', processCountry' exchangeRates country s = (Ok d, s')
                          /\ Q d)
  /\ (forall (batch : list value) (i : nat) s drafts s',
        batch !! i = Some country ->
        processCountryData' batch exchangeRates s = (Ok drafts, s') ->
        exists d, drafts !! i = Some d /\ Q d).

End Reconciliation.

(** ** Sample data

    The records of the specification's examples and a few malformed ones, a
    rate table, and a runtime whose reading of strings as numbers and
    printing of numbers are never exercised by them. *)

Definition unparsed : string -> number := fun _ => NaN.
Definition unprinted : number -> string := fun _ => "".
Definition draws_of (u : Q) : nat -> Q := fun _ => u.

Definition object (entries : list (string * value)) : value :=
  VObj (list_to_map entries).

Definition sample_rates : gmap string value :=
  list_to_map [ ("NGN", VNum (Fin (160023 # 100)));
                ("NOK", VNum (Fin 3)) ].

Definition nigeria : value :=
  object [ ("name", VStr "Nigeria");
           ("population", VNum (Fin 206139589));
           ("currencies", VArr [object [("code", VStr "NGN")]]) ].

Definition atlantis : value :=
  object [ ("name", VStr "Atlantis");
           ("population", VNum (Fin 1000));
           ("currencies", VArr []) ].

Definition ruritania : value :=
  object [ ("name", VStr "Ruritania");
           ("population", VNum (Fin 5000));
           ("currencies", VArr [object [("code", VStr "RUR")]]) ].

Definition bouvet_island : value :=
  object [ ("name", VStr "Bouvet Island");
           ("population", VNum (Fin 0));
           ("currencies", VArr [object [("code", VStr "NOK")]]) ].

Definition skerry : value :=
  object [ ("name", VStr "Skerry");
           ("population", VNum (Fin 1));
           ("currencies", VArr [object [("code", VStr "NOK")]]) ].

Definition nameless_currency : value :=
  object [ ("name", VStr "Elbonia");
           ("population", VNum (Fin 700));
           ("currencies", VArr [object [("symbol", VStr "E")];
                                object [("code", VStr "NGN")]]) ].

(** A record with no field at all, and one whose fields have the wrong
    types. *)
Definition blank_record : value := object [].

Definition mistyped_record : value :=
  object [ ("name", VNum (Fin 42));
           ("capital", VBool false);
           ("population", VNull);
           ("currencies", VStr "NGN") ].

Definition null_currency : value :=
  object [ ("name", VStr "Freedonia");
           ("population", VNum (Fin 900));
           ("currencies", VArr [VNull]) ].

(** A record whose code names a function every object inherits, one whose
    currencies start with null before an entry the rate table knows, and
    two with an object that cannot be converted to a primitive, as code and
    as population. *)
Definition utopia : value :=
  object [ ("name", VStr "Utopia");
           ("population", VNum (Fin 5));
           ("currencies", VArr [object [("code", VStr "constructor")]]) ].

Definition sylvania : value :=
  object [ ("name", VStr "Sylvania");
           ("population", VNum (Fin 800));
           ("currencies", VArr [VNull; object [("code", VStr "NGN")]]) ].

Definition genovia : value :=
  object [ ("name", VStr "Genovia");
           ("population", VNum (Fin 600));
           ("currencies",
             VArr [object [("code", object [("toString", VNum (Fin 1))])]]) ].

Definition zubrowka : value :=
  object [ ("name", VStr "Zubrowka");
           ("population", object [ ("valueOf", VNum (Fin 1));
                                   ("toString", VNum (Fin 1)) ]);
           ("currencies", VArr [object [("code", VStr "NGN")]]) ].

(** The environment of a request with the outcome of the image writer
    replaced. *)
Definition with_render_fault (env : Env) (fault : option js_error) : Env :=
  mkEnv (axios_countries env) (axios_rates env) (rates_reject_first env)
        (faults env) fault.

(** A server with the byte-wise collation and no reordering, a database
    holding one stale row, and the environments of a few requests. *)
Definition collate_binary (v : value) : string :=
  match v with VStr s => s | _ => "" end.

(** A collation that ignores the case of ASCII letters. *)
Definition lower (a : Ascii.ascii) : Ascii.ascii :=
  let n := Ascii.nat_of_ascii a in
  if (65 <=? n)%nat && (n <=? 90)%nat then Ascii.ascii_of_nat (n + 32) else a.

Fixpoint lowercase (s : string) : string :=
  match s with
  | EmptyString => EmptyString
  | String a rest => String (lower a) (lowercase rest)
  end.

Definition collate_ci (v : value) : string :=
  match v with VStr s => lowercase s | _ => "" end.

Definition unordered (clause : string) (rows : list CountryRow)
  : list CountryRow := rows.

Definition no_faults : Faults :=
  mkFaults None None (fun _ _ => None) None None None None None.

(** The server rejects a row without a name. *)
Definition rejects_nameless : Faults :=
  mkFaults None None
    (fun _ country =>
       if is_string (name country) ""
       then Some (Error "Column 'name' cannot be empty")
       else None)
    None None None None None.

Definition wakanda_draft : CountryDraft :=
  mkDraft (VStr "Wakanda") (VStr "Birnin Zana") (VStr "Africa")
          (VNum (Fin 6000000)) (VStr "WKD") VNull VNull VNull.

Definition nigeria_draft : CountryDraft :=
  mkDraft (VStr "Nigeria") (VStr "Abuja") (VStr "Africa")
          (VNum (Fin 206139589)) (VStr "NGN") (VNum (Fin (160023 # 100)))
          (VNum (Fin (12881872543 # 100))) VNull.

Definition wakanda_census_draft : CountryDraft :=
  mkDraft (VStr "WAKANDA") VNull VNull (VNum (Fin 7)) VNull VNull
          (VNum (Fin 0)) VNull.

Definition nameless_draft : CountryDraft :=
  mkDraft (VStr "") VNull VNull (VNum (Fin 0)) VNull VNull (VNum (Fin 0)) VNull.

Definition sample_database : Database :=
  mkDatabase (mkTables [mkRow 1 wakanda_draft 50 50] [mkMetadataRow 1 50 1])
             None 2 100.

Definition sample_world : World := mkWorld sample_database 0 None.

Definition timeout_error : js_error :=
  mkError "AxiosError" "timeout of 30000ms exceeded" (VStr "ECONNABORTED")
          None VUndefined.

Definition network_error : js_error :=
  mkError "AxiosError" "getaddrinfo ENOTFOUND restcountries.com"
          (VStr "ENOTFOUND") None VUndefined.

Definition disk_full : js_error :=
  mkError "Error" "ENOSPC: no space left on device" (VStr "ENOSPC")
          None VUndefined.

Definition healthy_env : Env :=
  mkEnv (Ok (VArr [nigeria; atlantis]))
        (Ok (object [("result", VStr "success"); ("rates", VObj sample_rates)]))
        false no_faults None.

Definition countries_timeout_env : Env :=
  mkEnv (Throw timeout_error) (axios_rates healthy_env) false no_faults None.

Definition rates_timeout_env : Env :=
  mkEnv (axios_countries healthy_env) (Throw timeout_error) false no_faults None.

Definition countries_down_env : Env :=
  mkEnv (Throw network_error) (axios_rates healthy_env) false no_faults None.

(** ** The rest of the store (countryService.js)

    The single-record operations go through the pool, outside any
    transaction.  [LOWER(name) = LOWER(?)] is the server's comparison; it is
    a parameter like the collation. *)

Section SingleRecords.

Variable collate : value -> string.
Variable lower_equal : value -> value -> bool.
Variable parseFloat : value -> value.


Definition name_matches (wanted : value) (row : CountryRow) : bool :=
  lower_equal (name (row_data row)) wanted.

Definition getCountryByName (query_fault : option js_error) (name : value)
  : DB value :=
  _ ← guarded query_fault (st_ret tt);
  db ← read_db;
  match filter (fun row => name_matches name row = true)
               (countries (tables db)) with
  | [] => st_ret VNull
  | row :: _ => st_ret (formatCountryResponse parseFloat row)
  end.

Definition deleteCountryByName (query_fault : option js_error) (name : value)
  : DB bool :=
  _ ← guarded query_fault (st_ret tt);
  db ← read_db;
  let affectedRows :=
    length (filter (fun row => name_matches name row = true)
                   (countries (tables db))) in
  _ ← modify_tables (fun t =>
         mkTables (filter (fun row => name_matches name row = false)
                          (countries t))
                  (refresh_metadata t));
  st_ret (0 <? affectedRows)%nat.

End SingleRecords.

(** ** Creating the tables (database.js)

    A table that does not exist yet is a table without rows: [CREATE TABLE
    IF NOT EXISTS] changes nothing in either case.  The first row of the
    metadata table gets the id 1 and the current time. *)

Record SchemaFaults : Type := mkSchemaFaults {
  create_countries_fault : option js_error;
  create_metadata_fault : option js_error;
  count_metadata_fault : option js_error;
  insert_metadata_fault : option js_error
}.

Definition createTables (faults : SchemaFaults) : DB unit :=
  st_try_catch
    (_ ← guarded (create_countries_fault faults) (st_ret tt);
     _ ← guarded (create_metadata_fault faults) (st_ret tt);
     _ ← guarded (count_metadata_fault faults) (st_ret tt);
     db ← read_db;
     if (length (refresh_metadata (tables db)) =? 0)%nat
     then guarded (insert_metadata_fault faults)
            (modify_tables (fun t =>
               mkTables (countries t)
                        (refresh_metadata t ++ [mkMetadataRow 1 (NOW db) 0])))
     else st_ret tt)
    (fun error => st_throw error).

(** ** The validators (validator.js)

    [trim] and [toUpperCase] are the runtime's; calling them on a value that
    is not a string raises a TypeError. *)

Section Validators.

Variable trim : string -> string.
Variable toUpperCase : string -> string.

Definition call_trim (receiver : string) (v : value) : outcome string :=
  match v with
  | VStr s => Ok (trim s)
  | _ => Throw (TypeError (receiver ++ ".trim is not a function"))
  end.

(** [typeof v !== 'number' || v < 0] *)
Definition not_a_count (v : value) : bool :=
  match v with
  | VNum NInf => true
  | VNum (Fin q) => Qneg q
  | VNum _ => false
  | _ => true
  end.

Definition is_missing (v : value) : bool :=
  match v with VUndefined | VNull => true | _ => false end.

Definition is_undefined (v : value) : bool :=
  match v with VUndefined => true | _ => false end.

Definition validateCountryData (countryData : CountryDraft) : outcome unit :=
  let errors : gmap string value := ∅ in
  match (if truthy (name countryData)
         then match call_trim "countryData.name" (name countryData) with
              | Ok trimmed => Ok (String.eqb trimmed "")
              | Throw e => Throw e
              end
         else Ok true) with
  | Throw e => Throw e
  | Ok name_blank =>
      let errors :=
        if name_blank then <[ "name" := VStr "is required" ]> errors
        else errors in
      let errors :=
        if is_missing (population countryData)
        then <[ "population" := VStr "is required" ]> errors
        else if not_a_count (population countryData)
        then <[ "population" := VStr "must be a non-negative number" ]> errors
        else errors in
      let errors :=
        if negb (truthy (currency_code countryData))
           && negb (match currency_code countryData with
                    | VNull => true
                    | _ => false
                    end)
        then if is_undefined (currency_code countryData)
             then <[ "currency_code" := VStr "is required" ]> errors
             else errors
        else errors in
      if (0 <? size errors)%nat
      then Throw (AppError "Validation failed" 400 (VObj errors))
      else Ok tt
  end.

Definition validSorts : list string :=
  [ "gdp_desc"; "gdp_asc"; "population_desc"; "population_asc";
    "name_asc"; "name_desc" ].

(** [validSorts.includes(v)] *)
Definition is_valid_sort (v : value) : bool :=
  existsb (is_string v) validSorts.

Definition validateQueryParams (query : gmap string value)
  : outcome (gmap string value) :=
  let validatedParams : gmap string value := ∅ in
  let query_region := default VUndefined (query !! "region") in
  let query_currency := default VUndefined (query !! "currency") in
  let query_sort := default VUndefined (query !! "sort") in
  match (if truthy query_region
         then match call_trim "query.region" query_region with
              | Ok trimmed => Ok (<[ "region" := VStr trimmed ]> validatedParams)
              | Throw e => Throw e
              end
         else Ok validatedParams) with
  | Throw e => Throw e
  | Ok validatedParams =>
      match (if truthy query_currency
             then match call_trim "query.currency" query_currency with
                  | Ok trimmed =>
                      Ok (<[ "currency" := VStr (toUpperCase trimmed) ]>
                            validatedParams)
                  | Throw e => Throw e
                  end
             else Ok validatedParams) with
      | Throw e => Throw e
      | Ok validatedParams =>
          Ok (if truthy query_sort && is_valid_sort query_sort
              then <[ "sort" := query_sort ]> validatedParams
              else validatedParams)
      end
  end.

End Validators.

(** ** The other handlers (countryController.js)

    Besides [res.json] and [next], a handler may send an empty answer with a
    status, a JSON answer with a status, or a file. *)

Inductive reply : Type :=
| SendJson (status : nat) (body : value)
| SendEmpty (status : nat)
| SendFile (file : SummaryData)
| PassOn (error : js_error).

Section Handlers.

Variable trim : string -> string.
Variable toUpperCase : string -> string.
Variable sql_equal : value -> value -> bool.
Variable lower_equal : value -> value -> bool.
Variable order_by : string -> list CountryRow -> list CountryRow.
Variable parseFloat : value -> value.

Definition getCountries (select_fault : option js_error)
    (query : gmap string value) (w : World) : handled * World :=
  match
    (validatedParams ← st_lift (validateQueryParams trim toUpperCase query);
     let region := default VUndefined (validatedParams !! "region") in
     let currency := default VUndefined (validatedParams !! "currency") in
     let filters :=
       mkFilters (if truthy region then region else VUndefined)
                 (if truthy currency then currency else VUndefined) in
     countries ← io_db (getAllCountries sql_equal order_by parseFloat
                          select_fault filters
                          (default VUndefined (validatedParams !! "sort")));
     st_ret (VArr countries)) w
  with
  | (Ok body, w') => (Json body, w')
  | (Throw error, w') => (Next error, w')
  end.

(** [!name || name.trim() === ''] *)
Definition name_required (name : value) : outcome unit :=
  if truthy name
  then match call_trim trim "name" name with
       | Ok trimmed =>
           if String.eqb trimmed ""
           then Throw (AppError "Country name is required" 400 VNull)
           else Ok tt
       | Throw e => Throw e
       end
  else Throw (AppError "Country name is required" 400 VNull).

Definition getCountry (query_fault : option js_error) (name : value)
    (w : World) : handled * World :=
  match
    (_ ← st_lift (name_required name);
     country ← io_db (getCountryByName lower_equal parseFloat query_fault name);
     if truthy country then st_ret country
     else st_throw (AppError "Country not found" 404 VNull)) w
  with
  | (Ok body, w') => (Json body, w')
  | (Throw error, w') => (Next error, w')
  end.

Definition deleteCountry (query_fault : option js_error) (name : value)
    (w : World) : reply * World :=
  match
    ((_ ← st_lift (name_required name);
      deleted ← io_db (deleteCountryByName lower_equal query_fault name);
      if (deleted : bool) then st_ret tt
      else st_throw (AppError "Country not found" 404 VNull)) : IO unit) w
  with
  | (Ok _, w') => (SendEmpty 204, w')
  | (Throw error, w') => (PassOn error, w')
  end.

Definition getStatus (faults : Faults) (w : World) : handled * World :=
  match
    (metadata ← io_db (getRefreshMetadata faults);
     st_ret (object
       [ ("total_countries",
           VNum (Fin (inject_Z (Z.of_nat (total_countries metadata)))));
         ("last_refreshed_at", timestamp (last_refreshed_at metadata)) ])) w
  with
  | (Ok body, w') => (Json body, w')
  | (Throw error, w') => (Next error, w')
  end.

(** [fs.access] succeeds exactly when the image has been written. *)
Definition getSummaryImage (w : World) : reply :=
  match
    (match summary_png w with
     | Some image => Ok image
     | None => Throw (AppError "Summary image not found" 404 VNull)
     end)
  with
  | Ok image => SendFile image
  | Throw error =>
      match err_statusCode error with
      | Some 404%nat =>
          SendJson 404 (VObj {[ "error" := VStr "Summary image not found" ]})
      | _ => PassOn error
      end
  end.

End Handlers.

(** ** Escaping names for the image (imageGenerator.js)

    A string is the sequence of its UTF-8 bytes; the five characters
    replaced are ASCII, so replacing them byte by byte is replacing them
    character by character. *)

(** The characters [&], [<], [>], the double quote and ['] by their codes. *)
Definition ampersand : Ascii.ascii := Ascii.ascii_of_nat 38.
Definition less_than : Ascii.ascii := Ascii.ascii_of_nat 60.
Definition greater_than : Ascii.ascii := Ascii.ascii_of_nat 62.
Definition double_quote : Ascii.ascii := Ascii.ascii_of_nat 34.
Definition apostrophe : Ascii.ascii := Ascii.ascii_of_nat 39.

(** [s.replace(/c/g, by)] for a single character [c] *)
Fixpoint replace_all (c : Ascii.ascii) (by_ : string) (s : string) : string :=
  match s with
  | EmptyString => EmptyString
  | String a rest =>
      if Ascii.eqb a c then by_ ++ replace_all c by_ rest
      else String a (replace_all c by_ rest)
  end.

(** The five replacements, in the order of the source. *)
Definition replace_five (s : string) : string :=
  replace_all apostrophe "&apos;"
    (replace_all double_quote "&quot;"
       (replace_all greater_than "&gt;"
          (replace_all less_than "&lt;"
             (replace_all ampersand "&amp;" s)))).

Definition escapeXml (str : value) : outcome string :=
  if negb (truthy str) then Ok ""
  else match str with
       | VStr s => Ok (replace_five s)
       | _ => Throw (TypeError "str.replace is not a function")
       end.

(** What the five replacements make of one character. *)
Definition escaped (a : Ascii.ascii) : string :=
  if Ascii.eqb a ampersand then "&amp;"
  else if Ascii.eqb a less_than then "&lt;"
  else if Ascii.eqb a greater_than then "&gt;"
  else if Ascii.eqb a double_quote then "&quot;"
  else if Ascii.eqb a apostrophe then "&apos;"
  else String a EmptyString.

(** The character [c] occurs in [s]. *)
Fixpoint occurs (c : Ascii.ascii) (s : string) : bool :=
  match s with
  | EmptyString => false
  | String a rest => Ascii.eqb a c || occurs c rest
  end.

(** ** Vocabulary of the further properties *)

(** A row after [ON DUPLICATE KEY UPDATE] with the values of [country]. *)
Definition overwritten (now : nat) (country : CountryDraft) (r : CountryRow)
  : CountryRow :=
  mkRow (row_id r)
        (mkDraft (name (row_data r)) (capital country) (region country)
                 (population country) (currency_code country)
                 (exchange_rate country) (estimated_gdp country)
                 (flag_url country))
        now (row_created_at r).


(** The rows after one [INSERT ... ON DUPLICATE KEY UPDATE]. *)
Definition inserted (collate : value -> string) (now next_id : nat)
    (country : CountryDraft) (rows : list CountryRow) : list CountryRow :=
  match on_duplicate_key_update collate now country rows with
  | Some updated => updated
  | None => (rows ++ [mkRow next_id country now now])%list
  end.

(** Every row of [rows] is still there in [rows'], at its place, with its
    id, its name and its creation time. *)
Definition rows_kept (rows rows' : list CountryRow) : Prop :=
  forall i r,
    rows !! i = Some r ->
    exists r', rows' !! i = Some r'
               /\ row_id r' = row_id r
               /\ name (row_data r') = name (row_data r)
               /\ row_created_at r' = row_created_at r.

(** The world after [DELETE FROM countries WHERE LOWER(name) = LOWER(?)]. *)
Definition without_name (lower_equal : value -> value -> bool)
    (wanted : value) (w : World) : World :=
  mkWorld
    (mkDatabase
       (mkTables (filter (fun row => name_matches lower_equal wanted row = false)
                         (countries (tables (database w))))
                 (refresh_metadata (tables (database w))))
       (transaction (database w)) (auto_increment (database w))
       (NOW (database w)))
    (draws w) (summary_png w).

Definition country_not_found : js_error :=
  AppError "Country not found" 404 VNull.

Definition name_is_required : js_error :=
  AppError "Country name is required" 400 VNull.

(** No statement of the schema creation fails. *)
Definition no_schema_faults : SchemaFaults := mkSchemaFaults None None None None.

(** Two drafts of one record from two refreshes: they agree on every field
    but the estimate, and on whether there is an estimate. *)
Definition same_but_estimate (d1 d2 : CountryDraft) : Prop :=
  name d1 = name d2
  /\ capital d1 = capital d2
  /\ region d1 = region d2
  /\ population d1 = population d2
  /\ currency_code d1 = currency_code d2
  /\ exchange_rate d1 = exchange_rate d2
  /\ flag_url d1 = flag_url d2
  /\ (estimated_gdp d1 = VNull <-> estimated_gdp d2 = VNull).

(** The three shapes of a draft: no currency; a currency without a rate; a
    currency with a rate, estimated when there is a population. *)
Definition draft_shape (d : CountryDraft) : Prop :=
  (currency_code d = VNull
   /\ exchange_rate d = VNull
   /\ estimated_gdp d = VNum (Fin 0))
  \/ (truthy (currency_code d) = true
      /\ exchange_rate d = VNull
      /\ estimated_gdp d = VNull)
  \/ (truthy (currency_code d) = true
      /\ truthy (exchange_rate d) = true
      /\ ((population d = VNum (Fin 0) /\ estimated_gdp d = VNull)
          \/ (truthy (population d) = true
              /\ exists n, estimated_gdp d = VNum n))).

(** Two runs of the processor on one batch come out alike: both throw the
    same error, or both return drafts that pairwise agree. *)
Definition runs_agree (r1 r2 : outcome (list CountryDraft)) : Prop :=
  match r1, r2 with
  | Ok drafts1, Ok drafts2 => Forall2 same_but_estimate drafts1 drafts2
  | Throw e1, Throw e2 => e1 = e2
  | _, _ => False
  end.

(** ** Further sample data *)

(** A [trim] for spaces and a [toUpperCase] for ASCII letters. *)
Fixpoint drop_spaces (s : string) : string :=
  match s with
  | String a rest =>
      if Ascii.eqb a (Ascii.ascii_of_nat 32) then drop_spaces rest else s
  | EmptyString => EmptyString
  end.

Definition trim_spaces (s : string) : string :=
  String.rev (drop_spaces (String.rev (drop_spaces s))).

Definition upper (a : Ascii.ascii) : Ascii.ascii :=
  let n := Ascii.nat_of_ascii a in
  if (97 <=? n)%nat && (n <=? 122)%nat then Ascii.ascii_of_nat (n - 32) else a.

Fixpoint uppercase (s : string) : string :=
  match s with
  | EmptyString => EmptyString
  | String a rest => String (upper a) (uppercase rest)
  end.

(** The comparison of a server whose collation ignores case. *)
Definition equal_ci (a b : value) : bool :=
  String.eqb (collate_ci a) (collate_ci b).

Definition nigeria_row : CountryRow := mkRow 2 nigeria_draft 100 100.

Definition two_rows_database : Database :=
  mkDatabase
    (mkTables [mkRow 1 wakanda_draft 50 50; nigeria_row]
              [mkMetadataRow 1 50 1])
    None 3 100.

Definition two_rows_world : World := mkWorld two_rows_database 0 None.

Definition empty_database : Database :=
  mkDatabase (mkTables [] []) None 1 100.

Definition stray_metadata_database : Database :=
  mkDatabase (mkTables [nigeria_row] [mkMetadataRow 2 50 7]) None 3 100.

Definition sort_query (sort : value) : gmap string value :=
  <[ "sort" := sort ]> {[ "region" := VStr "Africa" ]}.

Definition repeated_region_query : gmap string value :=
  {[ "region" := VArr [VStr "Africa"; VStr "Asia"] ]}.

Definition blank_named_draft : CountryDraft :=
  mkDraft (VStr " ") VNull VNull VUndefined VUndefined VNull VNull VNull.

(** The row passes the filters that are set: a filter that is falsy is no
    filter. *)
Definition passes_filters (sql_equal : value -> value -> bool)
    (filters : Filters) (row : CountryRow) : bool :=
  (negb (truthy (filter_region filters))
   || sql_equal (region (row_data row)) (filter_region filters))
  && (negb (truthy (filter_currency filters))
      || sql_equal (currency_code (row_data row)) (filter_currency filters)).

(** * Properties *)

(** Unfolding of the monadic notation. *)
Ltac unfold_st :=
  unfold mbind, ST_bind, st_bind, mret, ST_ret, st_ret, st_lift.

Tactic Notation "unfold_st" "in" hyp(H) :=
  unfold mbind, ST_bind, st_bind, mret, ST_ret, st_ret, st_lift in H.

(** ** The map over the batch *)

Lemma map_M_lookup {S A B} (f : A -> ST S B) (xs : list A) :
  forall s ys s' i x,
    map_M f xs s = (Ok ys, s') -> xs !! i = Some x ->
    exists y si si', f x si = (Ok y, si') /\ ys !! i = Some y.
Proof.
  induction xs as [|x0 rest IH]; intros s ys s' i x Hrun Hi.
  - destruct i; discriminate.
  - cbn in Hrun. unfold_st in Hrun.
    destruct (f x0 s) as [[y0|] s0] eqn:Hhead; [|discriminate].
    fold (@map_M S A B) in Hrun.
    destruct (map_M f rest s0) as [[ys0|] s1] eqn:Htail; [|discriminate].
    cbn in Hrun. injection Hrun as <- <-.
    destruct i as [|i]; cbn in Hi |- *.
    + injection Hi as <-. eauto.
    + eapply IH; eauto.
Qed.

Lemma map_M_length {S A B} (f : A -> ST S B) (xs : list A) :
  forall s ys s', map_M f xs s = (Ok ys, s') -> length ys = length xs.
Proof.
  induction xs as [|x0 rest IH]; intros s ys s' Hrun; cbn in Hrun.
  - injection Hrun as <- <-. reflexivity.
  - unfold_st in Hrun.
    destruct (f x0 s) as [[y0|] s0]; [|discriminate].
    fold (@map_M S A B) in Hrun.
    destruct (map_M f rest s0) as [[ys0|] s1] eqn:Htail; [|discriminate].
    cbn in Hrun. injection Hrun as <- <-. cbn. f_equal. eauto.
Qed.

Lemma map_M_returns {S A B} (f : A -> ST S B) (xs : list A) :
  Forall (fun x => forall s, exists y s', f x s = (Ok y, s')) xs ->
  forall s, exists ys s', map_M f xs s = (Ok ys, s').
Proof.
  induction 1 as [|x0 rest Hhead _ IH]; intros s; cbn.
  - eexists _, _. reflexivity.
  - unfold mbind, ST_bind, st_bind. destruct (Hhead s) as (y0 & s0 & ->).
    fold (@map_M S A B). destruct (IH s0) as (ys & s1 & ->).
    eexists _, _. reflexivity.
Qed.

(** ** Rounding to binary64 *)

Lemma pow2_pos (e : Z) : (0 < pow2 e)%Q.
Proof. apply Qpower_0_lt. reflexivity. Qed.

Lemma pow2_add (a b : Z) : (pow2 (a + b) == pow2 a * pow2 b)%Q.
Proof. apply Qpower_plus. intros H. discriminate H. Qed.

Lemma pow2_succ (a : Z) : (pow2 (a + 1) == 2 * pow2 a)%Q.
Proof. rewrite pow2_add. change (pow2 1) with 2%Q. ring. Qed.

Lemma pow2_le (a b : Z) : (a <= b)%Z -> (pow2 a <= pow2 b)%Q.
Proof. intros H. apply Qpower_le_compat_l; [exact H|]. discriminate. Qed.

Lemma pow2_Z (n : Z) : (0 <= n)%Z -> (pow2 n == inject_Z (2 ^ n))%Q.
Proof. intros H. symmetry. apply (Zpower_Qpower 2 n H). Qed.

Lemma Qlog2_spec (q : Q) :
  (0 < q)%Q -> (pow2 (Qlog2 q) <= q /\ q < pow2 (Qlog2 q + 1))%Q.
Proof.
  intros Hq. destruct q as [a b]. unfold Qlog2. cbn [Qnum Qden].
  assert (Ha : (0 < a)%Z) by (unfold Qlt in Hq; cbn in Hq; lia).
  pose proof (Z.log2_spec a Ha) as [Ha1 Ha2].
  pose proof (Z.log2_spec (Zpos b) (Pos2Z.is_pos b)) as [Hb1 Hb2].
  pose proof (Z.log2_nonneg a) as Hla.
  pose proof (Z.log2_nonneg (Zpos b)) as Hlb.
  set (la := Z.log2 a) in *. set (lb := Z.log2 (Zpos b)) in *.
  assert (HA1 : (pow2 la <= inject_Z a)%Q).
  { rewrite (pow2_Z la Hla). rewrite <- Zle_Qle. exact Ha1. }
  assert (HA2 : (inject_Z a < 2 * pow2 la)%Q).
  { rewrite <- pow2_succ, pow2_Z by lia. rewrite <- Zlt_Qlt.
    unfold Z.succ in Ha2. exact Ha2. }
  assert (HB1 : (pow2 lb <= inject_Z (Zpos b))%Q).
  { rewrite (pow2_Z lb Hlb). rewrite <- Zle_Qle. exact Hb1. }
  assert (HB2 : (inject_Z (Zpos b) < 2 * pow2 lb)%Q).
  { rewrite <- pow2_succ, pow2_Z by lia. rewrite <- Zlt_Qlt.
    unfold Z.succ in Hb2. exact Hb2. }
  assert (HK : (pow2 (la - lb) * pow2 lb == pow2 la)%Q).
  { rewrite <- pow2_add. now replace (la - lb + lb)%Z with la by lia. }
  pose proof (pow2_pos (la - lb)) as HKpos.
  pose proof (pow2_pos lb) as HYpos.
  assert (Hup : (pow2 (la - lb + 1) == 2 * pow2 (la - lb))%Q)
    by apply pow2_succ.
  assert (Hdown : (2 * pow2 (la - lb - 1) == pow2 (la - lb))%Q).
  { rewrite <- pow2_succ.
    now replace (la - lb - 1 + 1)%Z with (la - lb)%Z by lia. }
  assert (Hq' : (a # b == inject_Z a / inject_Z (Zpos b))%Q)
    by apply Qmake_Qdiv.
  assert (HBpos : (0 < inject_Z (Zpos b))%Q)
    by (eapply Qlt_le_trans; [exact HYpos|exact HB1]).
  assert (Hlt : (a # b < 2 * pow2 (la - lb))%Q).
  { rewrite Hq'. apply Qlt_shift_div_r; [exact HBpos|].
    generalize dependent (pow2 (la - lb)). generalize dependent (pow2 lb).
    generalize dependent (pow2 la). generalize dependent (inject_Z a).
    generalize dependent (inject_Z (Zpos b)). intros. nra. }
  assert (Hgt : (pow2 (la - lb - 1) < a # b)%Q).
  { rewrite Hq'. apply Qlt_shift_div_l; [exact HBpos|].
    generalize dependent (pow2 (la - lb - 1)).
    generalize dependent (pow2 (la - lb)). generalize dependent (pow2 lb).
    generalize dependent (pow2 la). generalize dependent (inject_Z a).
    generalize dependent (inject_Z (Zpos b)). intros. nra. }
  destruct (Qle_bool (pow2 (la - lb)) (a # b)) eqn:Htest.
  - apply Qle_bool_iff in Htest. split; [exact Htest|]. now rewrite Hup.
  - assert (Hbelow : (a # b < pow2 (la - lb))%Q).
    { apply Qnot_le_lt. intros H. apply Qle_bool_iff in H. congruence. }
    split; [now apply Qlt_le_weak|].
    now replace (la - lb - 1 + 1)%Z with (la - lb)%Z by lia.
Qed.

Lemma Qlog2_unique (q : Q) (e : Z) :
  (pow2 e <= q)%Q -> (q < pow2 (e + 1))%Q -> Qlog2 q = e.
Proof.
  intros Hlo Hhi.
  assert (Hq : (0 < q)%Q) by (eapply Qlt_le_trans; [apply pow2_pos|exact Hlo]).
  destruct (Qlog2_spec q Hq) as [Hlo' Hhi'].
  destruct (Z.lt_trichotomy (Qlog2 q) e) as [Hlt | [Heq | Hgt]];
    [exfalso | exact Heq | exfalso].
  - pose proof (pow2_le (Qlog2 q + 1) e ltac:(lia)) as Hle.
    apply (Qlt_irrefl q). eapply Qlt_le_trans; [exact Hhi'|].
    eapply Qle_trans; [exact Hle|exact Hlo].
  - pose proof (pow2_le (e + 1) (Qlog2 q) ltac:(lia)) as Hle.
    apply (Qlt_irrefl q). eapply Qlt_le_trans; [exact Hhi|].
    eapply Qle_trans; [exact Hle|exact Hlo'].
Qed.

Lemma Qlog2_mono (x y : Q) :
  (0 < x)%Q -> (x <= y)%Q -> (Qlog2 x <= Qlog2 y)%Z.
Proof.
  intros Hx Hxy.
  assert (Hy : (0 < y)%Q) by (eapply Qlt_le_trans; eauto).
  destruct (Qlog2_spec x Hx) as [Hlo _].
  destruct (Qlog2_spec y Hy) as [_ Hhi].
  destruct (Z_le_gt_dec (Qlog2 x) (Qlog2 y)) as [H|H]; [exact H|exfalso].
  pose proof (pow2_le (Qlog2 y + 1) (Qlog2 x) ltac:(lia)) as Hle.
  apply (Qlt_irrefl y). eapply Qlt_le_trans; [exact Hhi|].
  eapply Qle_trans; [exact Hle|]. eapply Qle_trans; [exact Hlo|exact Hxy].
Qed.

Lemma round_half_even_bounds (t : Q) :
  (Qfloor t <= round_half_even t <= Qfloor t + 1)%Z.
Proof.
  unfold round_half_even.
  destruct (t - inject_Z (Qfloor t) ?= 1 # 2)%Q; [|lia|lia].
  destruct (Z.even (Qfloor t)); lia.
Qed.

Lemma round_half_even_Z (k : Z) : round_half_even (inject_Z k) = k.
Proof.
  unfold round_half_even. rewrite Qfloor_Z.
  destruct (Qcompare_spec (inject_Z k - inject_Z k) (1 # 2)) as [H'|H'|H'];
    [|reflexivity|]; exfalso; lra.
Qed.

Lemma round_half_even_mono (t1 t2 : Q) :
  (t1 <= t2)%Q -> (round_half_even t1 <= round_half_even t2)%Z.
Proof.
  intros Hle.
  pose proof (Qfloor_resp_le _ _ Hle) as Hfloor.
  pose proof (round_half_even_bounds t1) as [_ Hup].
  pose proof (round_half_even_bounds t2) as [Hdown _].
  destruct (Z.eq_dec (Qfloor t1) (Qfloor t2)) as [Heq|Hne]; [|lia].
  unfold round_half_even. rewrite <- Heq.
  destruct (Qcompare_spec (t1 - inject_Z (Qfloor t1)) (1 # 2)) as [H1|H1|H1];
    destruct (Qcompare_spec (t2 - inject_Z (Qfloor t1)) (1 # 2)) as [H2|H2|H2];
    try lia; try (destruct (Z.even (Qfloor t1)); lia);
    exfalso; lra.
Qed.

Lemma round_half_even_close (t : Q) :
  (t - (1 # 2) <= inject_Z (round_half_even t) <= t + (1 # 2))%Q.
Proof.
  pose proof (Qfloor_le t) as Hlo. pose proof (Qlt_floor t) as Hhi.
  rewrite inject_Z_plus in Hhi. change (inject_Z 1) with 1%Q in Hhi.
  unfold round_half_even.
  destruct (Qcompare_spec (t - inject_Z (Qfloor t)) (1 # 2)) as [H|H|H].
  - destruct (Z.even (Qfloor t)).
    + split; lra.
    + rewrite inject_Z_plus. change (inject_Z 1) with 1%Q. split; lra.
  - split; lra.
  - rewrite inject_Z_plus. change (inject_Z 1) with 1%Q. split; lra.
Qed.

Lemma round64_pos_eq (q : Q) :
  (round64_pos q
   == inject_Z (round_half_even (q / pow2 (exponent q - 52)))
      * pow2 (exponent q - 52))%Q.
Proof. unfold round64_pos. apply Qred_correct. Qed.

Lemma below_next_binade (q : Q) : (0 < q)%Q -> (q < pow2 (exponent q + 1))%Q.
Proof.
  intros Hq. destruct (Qlog2_spec q Hq) as [_ Hhi].
  eapply Qlt_le_trans; [exact Hhi|]. apply pow2_le. unfold exponent. lia.
Qed.

Lemma above_binade (q : Q) :
  (0 < q)%Q -> (-1022 < exponent q)%Z -> (pow2 (exponent q) <= q)%Q.
Proof.
  intros Hq He. destruct (Qlog2_spec q Hq) as [Hlo _].
  unfold exponent in *.
  now replace (Z.max (Qlog2 q) (-1022)) with (Qlog2 q) by lia.
Qed.

Lemma round64_pos_le_next (q : Q) :
  (0 < q)%Q -> (round64_pos q <= pow2 (exponent q + 1))%Q.
Proof.
  intros Hq. rewrite round64_pos_eq.
  set (e := exponent q).
  assert (Hscale : (q / pow2 (e - 52) <= inject_Z (2 ^ 53))%Q).
  { rewrite <- (pow2_Z 53) by lia.
    apply Qle_shift_div_r; [apply pow2_pos|].
    rewrite <- pow2_add. replace (53 + (e - 52))%Z with (e + 1)%Z by lia.
    apply Qlt_le_weak, below_next_binade, Hq. }
  apply round_half_even_mono in Hscale. rewrite round_half_even_Z in Hscale.
  rewrite Zle_Qle in Hscale.
  assert (Hsplit : (pow2 (e + 1) == inject_Z (2 ^ 53) * pow2 (e - 52))%Q).
  { rewrite <- (pow2_Z 53) by lia. rewrite <- !pow2_add.
    now replace (53 + (e - 52))%Z with (e + 1)%Z by lia. }
  rewrite Hsplit. apply Qmult_le_compat_r; [exact Hscale|].
  apply Qlt_le_weak, pow2_pos.
Qed.

Lemma round64_pos_ge_binade (q : Q) :
  (0 < q)%Q -> (-1022 < exponent q)%Z -> (pow2 (exponent q) <= round64_pos q)%Q.
Proof.
  intros Hq He. rewrite round64_pos_eq.
  pose proof (above_binade q Hq He) as Hlo.
  set (e := exponent q) in *.
  assert (Hscale : (inject_Z (2 ^ 52) <= q / pow2 (e - 52))%Q).
  { rewrite <- (pow2_Z 52) by lia.
    apply Qle_shift_div_l; [apply pow2_pos|].
    rewrite <- pow2_add. now replace (52 + (e - 52))%Z with e by lia. }
  apply round_half_even_mono in Hscale. rewrite round_half_even_Z in Hscale.
  rewrite Zle_Qle in Hscale.
  assert (Hsplit : (pow2 e == inject_Z (2 ^ 52) * pow2 (e - 52))%Q).
  { rewrite <- (pow2_Z 52) by lia. rewrite <- !pow2_add.
    now replace (52 + (e - 52))%Z with e by lia. }
  rewrite Hsplit. apply Qmult_le_compat_r; [exact Hscale|].
  apply Qlt_le_weak, pow2_pos.
Qed.

Lemma round64_pos_nonneg (q : Q) : (0 < q)%Q -> (0 <= round64_pos q)%Q.
Proof.
  intros Hq. rewrite round64_pos_eq.
  apply Qmult_le_0_compat; [|apply Qlt_le_weak, pow2_pos].
  change 0%Q with (inject_Z 0). rewrite <- Zle_Qle.
  pose proof (round_half_even_bounds (q / pow2 (exponent q - 52))) as [Hb _].
  etransitivity; [|exact Hb].
  change 0%Z with (Qfloor 0). apply Qfloor_resp_le.
  apply Qle_shift_div_l; [apply pow2_pos|]. lra.
Qed.

Lemma round64_pos_mono (x y : Q) :
  (0 < x)%Q -> (x <= y)%Q -> (round64_pos x <= round64_pos y)%Q.
Proof.
  intros Hx Hxy.
  assert (Hy : (0 < y)%Q) by (eapply Qlt_le_trans; eauto).
  assert (He : (exponent x <= exponent y)%Z).
  { pose proof (Qlog2_mono x y Hx Hxy). unfold exponent. lia. }
  destruct (Z.eq_dec (exponent x) (exponent y)) as [Heq|Hne].
  - rewrite !round64_pos_eq, Heq.
    apply Qmult_le_compat_r; [|apply Qlt_le_weak, pow2_pos].
    rewrite <- Zle_Qle. apply round_half_even_mono.
    unfold Qdiv. apply Qmult_le_compat_r; [exact Hxy|].
    apply Qinv_le_0_compat, Qlt_le_weak, pow2_pos.
  - eapply Qle_trans; [apply round64_pos_le_next, Hx|].
    eapply Qle_trans; [|apply round64_pos_ge_binade; [exact Hy|]].
    + apply pow2_le. lia.
    + unfold exponent in *. lia.
Qed.

Lemma Qneg_nonneg (x : Q) : (0 <= x)%Q -> Qneg x = false.
Proof. unfold Qle, Qneg. cbn. intros H. apply Z.ltb_ge. lia. Qed.

Lemma Qzero_pos (x : Q) : (0 < x)%Q -> Qzero x = false.
Proof. unfold Qlt, Qzero. cbn. intros H. apply Z.eqb_neq. lia. Qed.

Lemma Qzero_spec (x : Q) : Qzero x = true <-> (x == 0)%Q.
Proof. unfold Qzero, Qeq. cbn. rewrite Z.eqb_eq. lia. Qed.

Lemma Qabs_nonneg_eq (x : Q) : (0 <= x)%Q -> Qabs x = x.
Proof.
  destruct x as [n d]. unfold Qle. cbn. intros H. f_equal.
  apply Z.abs_eq. lia.
Qed.

Lemma round64_positive (q : Q) :
  (0 < q)%Q ->
  round64 q = if Qle_bool (pow2 1024) (round64_pos q) then PInf
              else Fin (round64_pos q).
Proof.
  intros Hq. unfold round64.
  rewrite (Qzero_pos q Hq), (Qneg_nonneg q (Qlt_le_weak _ _ Hq)).
  rewrite (Qabs_nonneg_eq q (Qlt_le_weak _ _ Hq)). reflexivity.
Qed.

Lemma num_le_refl (a : number) : a <> NaN -> num_le a a.
Proof. destruct a; cbn; try easy. intros _. apply Qle_refl. Qed.

Lemma num_le_trans (a b c : number) : num_le a b -> num_le b c -> num_le a c.
Proof.
  destruct a, b, c; cbn; try easy. intros. eapply Qle_trans; eauto.
Qed.

Lemma num_le_between (a : number) (lo hi : Q) :
  num_le (Fin lo) a -> num_le a (Fin hi) ->
  exists x, a = Fin x /\ (lo <= x <= hi)%Q.
Proof. destruct a; cbn; try easy. eauto. Qed.

Lemma round64_nonneg (x : Q) : (0 <= x)%Q -> num_le (Fin 0) (round64 x).
Proof.
  intros Hx. destruct (Qzero x) eqn:Hz.
  - unfold round64. rewrite Hz. cbn. apply Qle_refl.
  - assert (Hpos : (0 < x)%Q).
    { apply Qle_lt_or_eq in Hx. destruct Hx as [H|H]; [exact H|].
      symmetry in H. apply Qzero_spec in H. congruence. }
    rewrite (round64_positive x Hpos).
    destruct (Qle_bool _ _); cbn; [exact I|].
    now apply round64_pos_nonneg.
Qed.

(** Rounding to binary64 keeps the order. *)
Lemma round64_mono (x y : Q) :
  (0 <= x)%Q -> (x <= y)%Q -> num_le (round64 x) (round64 y).
Proof.
  intros Hx Hxy. destruct (Qzero x) eqn:Hz.
  - unfold round64 at 1. rewrite Hz.
    apply round64_nonneg. eapply Qle_trans; eauto.
  - assert (Hpos : (0 < x)%Q).
    { apply Qle_lt_or_eq in Hx. destruct Hx as [H|H]; [exact H|].
      symmetry in H. apply Qzero_spec in H. congruence. }
    assert (Hy : (0 < y)%Q) by (eapply Qlt_le_trans; eauto).
    rewrite (round64_positive x Hpos), (round64_positive y Hy).
    pose proof (round64_pos_mono x y Hpos Hxy) as Hmono.
    destruct (Qle_bool (pow2 1024) (round64_pos x)) eqn:Hox;
      destruct (Qle_bool (pow2 1024) (round64_pos y)) eqn:Hoy; cbn; try easy.
    apply Qle_bool_iff in Hox.
    assert (Hcontra : Qle_bool (pow2 1024) (round64_pos y) = true).
    { apply Qle_bool_iff. eapply Qle_trans; eauto. }
    congruence.
Qed.

(** ** Rounding to two decimals *)

Lemma toFixed2_nonneg_eq (x : Q) :
  (0 <= x)%Q -> toFixed2 x = (Qfloor (x * 100 + (1 # 2)) # 100)%Q.
Proof.
  intros Hx. unfold toFixed2.
  now rewrite (Qneg_nonneg x Hx), (Qabs_nonneg_eq x Hx).
Qed.

Lemma Qmake_100 (n : Z) : (n # 100 == inject_Z n * (1 # 100))%Q.
Proof. unfold Qeq. cbn. lia. Qed.

Lemma toFixed2_close (x : Q) :
  (0 <= x)%Q -> (x - (1 # 200) <= toFixed2 x <= x + (1 # 200))%Q.
Proof.
  intros Hx. rewrite (toFixed2_nonneg_eq x Hx).
  pose proof (Qfloor_le (x * 100 + (1 # 2))) as Hlo.
  pose proof (Qlt_floor (x * 100 + (1 # 2))) as Hhi.
  rewrite inject_Z_plus in Hhi. change (inject_Z 1) with 1%Q in Hhi.
  rewrite Qmake_100.
  generalize dependent (inject_Z (Qfloor (x * 100 + (1 # 2)))).
  intros n Hlo Hhi. split; lra.
Qed.

Lemma toFixed2_mono (x y : Q) :
  (0 <= x)%Q -> (x <= y)%Q -> (toFixed2 x <= toFixed2 y)%Q.
Proof.
  intros Hx Hxy.
  rewrite (toFixed2_nonneg_eq x Hx),
          (toFixed2_nonneg_eq y (Qle_trans _ _ _ Hx Hxy)).
  assert (Hfloor : (Qfloor (x * 100 + (1 # 2)) <= Qfloor (y * 100 + (1 # 2)))%Z).
  { apply Qfloor_resp_le. lra. }
  revert Hfloor.
  generalize (Qfloor (x * 100 + (1 # 2))), (Qfloor (y * 100 + (1 # 2))).
  intros a b Hab. unfold Qle. cbn. lia.
Qed.

Lemma toFixed2_nonneg (x : Q) : (0 <= x)%Q -> (0 <= toFixed2 x)%Q.
Proof.
  intros Hx. rewrite (toFixed2_nonneg_eq x Hx).
  assert (Hfloor : (0 <= Qfloor (x * 100 + (1 # 2)))%Z).
  { change 0%Z with (Qfloor 0). apply Qfloor_resp_le. lra. }
  revert Hfloor. generalize (Qfloor (x * 100 + (1 # 2))).
  intros a Ha. unfold Qle. cbn. lia.
Qed.

(** [parseFloat(x.toFixed(2))] keeps the order of the numbers from 0 up. *)
Lemma parseFloat_toFixed2_mono (a b : number) :
  num_le (Fin 0) a -> num_le a b ->
  num_le (parseFloat_toFixed2 a) (parseFloat_toFixed2 b).
Proof.
  destruct a as [| | |x], b as [| | |y]; cbn; try easy.
  - intros Hx _. destruct (Qle_bool _ (Qabs x)); [exact I|].
    destruct (round64 (toFixed2 x)) eqn:Hr; try exact I.
    pose proof (round64_nonneg (toFixed2 x) (toFixed2_nonneg x Hx)) as Hn.
    now rewrite Hr in Hn.
  - intros Hx Hxy.
    assert (Hy : (0 <= y)%Q) by (eapply Qle_trans; eauto).
    rewrite (Qabs_nonneg_eq x Hx), (Qabs_nonneg_eq y Hy).
    destruct (Qle_bool (inject_Z (10 ^ 21)) x) eqn:Hbx;
      destruct (Qle_bool (inject_Z (10 ^ 21)) y) eqn:Hby.
    + exact Hxy.
    + apply Qle_bool_iff in Hbx.
      assert (Hcontra : Qle_bool (inject_Z (10 ^ 21)) y = true).
      { apply Qle_bool_iff. eapply Qle_trans; eauto. }
      congruence.
    + apply Qle_bool_iff in Hby.
      assert (Hbelow : (x <= inject_Z (10 ^ 21))%Q).
      { apply Qlt_le_weak, Qnot_le_lt. intros H.
        apply Qle_bool_iff in H. congruence. }
      eapply num_le_trans.
      * apply round64_mono; [apply toFixed2_nonneg, Hx|].
        apply (toFixed2_mono x (inject_Z (10 ^ 21)) Hx Hbelow).
      * replace (round64 (toFixed2 (inject_Z (10 ^ 21))))
          with (Fin (inject_Z (10 ^ 21))) by (vm_compute; reflexivity).
        exact Hby.
    + apply round64_mono; [apply toFixed2_nonneg, Hx|].
      now apply toFixed2_mono.
Qed.

(** The multiplier made of a draw in [0, 1) lies between 1000 and 2000. *)
Lemma multiplier_range (u : Q) :
  (0 <= u < 1)%Q ->
  exists m, multiplier u = Fin m /\ (1000 <= m <= 2000)%Q.
Proof.
  intros [Hlo Hhi]. unfold multiplier.
  replace (js_sub (Fin 2000) (Fin 1000)) with (Fin 1000)
    by (vm_compute; reflexivity).
  cbn [js_mul].
  destruct (num_le_between (round64 (u * 1000)) 0 1000) as (t & Ht & Ht0 & Ht1).
  { apply round64_nonneg. lra. }
  { replace (Fin 1000) with (round64 1000) by (vm_compute; reflexivity).
    apply round64_mono; lra. }
  rewrite Ht. cbn [js_add].
  apply num_le_between.
  - replace (Fin 1000) with (round64 1000) by (vm_compute; reflexivity).
    apply round64_mono; lra.
  - replace (Fin 2000) with (round64 2000) by (vm_compute; reflexivity).
    apply round64_mono; lra.
Qed.

(** A larger multiplier gives no smaller estimate. *)
Lemma estimate_mono (P R m1 m2 : Q) :
  (0 < P)%Q -> (0 < R)%Q -> (0 <= m1)%Q -> (m1 <= m2)%Q ->
  num_le (estimate P m1 R) (estimate P m2 R).
Proof.
  intros HP HR Hm1 Hm. unfold estimate. cbn [js_mul].
  assert (Hmul : num_le (round64 (P * m1)) (round64 (P * m2))).
  { apply round64_mono; nra. }
  assert (Hmul0 : num_le (Fin 0) (round64 (P * m1))).
  { apply round64_nonneg. nra. }
  assert (Hinv : (0 <= / R)%Q) by (apply Qinv_le_0_compat; lra).
  destruct (round64 (P * m1)) as [| | |x] eqn:Hx; cbn in Hmul0; try easy;
    destruct (round64 (P * m2)) as [| | |y] eqn:Hy; cbn in Hmul; try easy;
    cbn [js_div]; rewrite ?(Qzero_pos R HR), ?(Qneg_nonneg R (Qlt_le_weak _ _ HR));
    cbn [inf].
  - apply parseFloat_toFixed2_mono; [exact I|exact I].
  - apply parseFloat_toFixed2_mono.
    + apply round64_nonneg. unfold Qdiv. now apply Qmult_le_0_compat.
    + destruct (round64 (x / R)) eqn:Hr; cbn; try easy.
      pose proof (round64_nonneg (x / R)) as Hn. rewrite Hr in Hn.
      apply Hn. unfold Qdiv. now apply Qmult_le_0_compat.
  - apply parseFloat_toFixed2_mono.
    + apply round64_nonneg. unfold Qdiv. now apply Qmult_le_0_compat.
    + apply round64_mono.
      * unfold Qdiv. now apply Qmult_le_0_compat.
      * unfold Qdiv. now apply Qmult_le_compat_r.
Qed.

(** ** The rounding error *)

Lemma round64_pos_error (q : Q) :
  (0 < q)%Q ->
  (q - pow2 (exponent q - 53) <= round64_pos q
   <= q + pow2 (exponent q - 53))%Q.
Proof.
  intros Hq. rewrite round64_pos_eq.
  set (c := (exponent q - 52)%Z).
  pose proof (round_half_even_close (q / pow2 c)) as [Hlo Hhi].
  pose proof (pow2_pos c) as Hc.
  assert (Hhalf : (pow2 (exponent q - 53) == pow2 c * (1 # 2))%Q).
  { replace (exponent q - 53)%Z with (c + -1)%Z by (unfold c; lia).
    rewrite pow2_add. reflexivity. }
  assert (Hq' : (q / pow2 c * pow2 c == q)%Q).
  { field. intros H. rewrite H in Hc. now apply Qlt_irrefl in Hc. }
  rewrite Hhalf.
  generalize dependent (inject_Z (round_half_even (q / pow2 c))).
  generalize dependent (q / pow2 c)%Q. generalize dependent (pow2 c).
  intros u Hu _ t Ht n Hlo Hhi. split; nra.
Qed.

Lemma half_ulp_bound (q : Q) :
  (0 < q)%Q ->
  (pow2 (exponent q - 53) <= q * pow2 (-53) + pow2 (-1075))%Q.
Proof.
  intros Hq. destruct (Qlog2_spec q Hq) as [Hlo _].
  pose proof (pow2_pos (-53)) as H53. pose proof (pow2_pos (-1075)) as H1075.
  unfold exponent. destruct (Z.max_spec (Qlog2 q) (-1022)) as [[_ ->] | [_ ->]].
  - change (pow2 (-1022 - 53)) with (pow2 (-1075)). nra.
  - replace (Qlog2 q - 53)%Z with (Qlog2 q + -53)%Z by lia.
    rewrite pow2_add.
    generalize dependent (pow2 (Qlog2 q)). generalize dependent (pow2 (-53)).
    generalize dependent (pow2 (-1075)). intros. nra.
Qed.

Lemma half_ulp_normal (q : Q) :
  (pow2 (-1022) <= q)%Q -> (pow2 (exponent q - 53) <= q * pow2 (-53))%Q.
Proof.
  intros Hq.
  assert (Hpos : (0 < q)%Q) by (eapply Qlt_le_trans; [apply pow2_pos|exact Hq]).
  destruct (Qlog2_spec q Hpos) as [Hlo Hhi].
  assert (He : (-1022 <= Qlog2 q)%Z).
  { destruct (Z_le_gt_dec (-1022) (Qlog2 q)) as [H|H]; [exact H|exfalso].
    pose proof (pow2_le (Qlog2 q + 1) (-1022) ltac:(lia)) as Hle.
    apply (Qlt_irrefl q). eapply Qlt_le_trans; [exact Hhi|].
    eapply Qle_trans; [exact Hle|exact Hq]. }
  unfold exponent. replace (Z.max (Qlog2 q) (-1022)) with (Qlog2 q) by lia.
  replace (Qlog2 q - 53)%Z with (Qlog2 q + -53)%Z by lia.
  rewrite pow2_add. pose proof (pow2_pos (-53)) as H53.
  generalize dependent (pow2 (Qlog2 q)). generalize dependent (pow2 (-53)).
  intros. nra.
Qed.

(** A result that is finite is within half a unit in the last place of the
    exact one: a relative error of 2^-53, or 2^-1075 below the normal
    range. *)
Lemma round64_error (x r : Q) :
  (0 <= x)%Q -> round64 x = Fin r ->
  (x - (x * pow2 (-53) + pow2 (-1075)) <= r
   <= x + (x * pow2 (-53) + pow2 (-1075)))%Q.
Proof.
  intros Hx Hr.
  pose proof (pow2_pos (-53)) as H53. pose proof (pow2_pos (-1075)) as H1075.
  destruct (Qzero x) eqn:Hz.
  - unfold round64 in Hr. rewrite Hz in Hr. injection Hr as <-.
    apply Qzero_spec in Hz. rewrite Hz. split; nra.
  - assert (Hpos : (0 < x)%Q).
    { apply Qle_lt_or_eq in Hx. destruct Hx as [H|H]; [exact H|].
      symmetry in H. apply Qzero_spec in H. congruence. }
    rewrite (round64_positive x Hpos) in Hr.
    destruct (Qle_bool _ _); [discriminate|]. injection Hr as <-.
    pose proof (round64_pos_error x Hpos) as [Hlo Hhi].
    pose proof (half_ulp_bound x Hpos) as Hulp.
    split; lra.
Qed.

Lemma round64_error_normal (x r : Q) :
  (pow2 (-1022) <= x)%Q -> round64 x = Fin r ->
  (x - x * pow2 (-53) <= r <= x + x * pow2 (-53))%Q.
Proof.
  intros Hx Hr.
  assert (Hpos : (0 < x)%Q) by (eapply Qlt_le_trans; [apply pow2_pos|exact Hx]).
  rewrite (round64_positive x Hpos) in Hr.
  destruct (Qle_bool _ _); [discriminate|]. injection Hr as <-.
  pose proof (round64_pos_error x Hpos) as [Hlo Hhi].
  pose proof (half_ulp_normal x Hx) as Hulp.
  split; lra.
Qed.

(** An estimate that is finite is the exact quotient up to its rounding to
    two decimals and the three roundings to binary64. *)
Lemma estimate_close (P R m g : Q) :
  (1 <= P)%Q -> (0 < R)%Q -> (1 <= m)%Q ->
  estimate P m R = Fin g ->
  (P * m / R * (1 - pow2 (-51)) - (51 # 10000) <= g
   <= P * m / R * (1 + pow2 (-51)) + (51 # 10000))%Q.
Proof.
  intros HP HR Hm. unfold estimate. cbn [js_mul].
  assert (Hprod : (pow2 (-1022) <= P * m)%Q).
  { apply Qle_trans with 1%Q; [now vm_compute|]. nra. }
  pose proof (round64_nonneg (P * m) ltac:(nra)) as Ha0.
  destruct (round64 (P * m)) as [| | |a] eqn:Ha; cbn in Ha0; try easy.
  { cbn. rewrite (Qneg_nonneg R (Qlt_le_weak _ _ HR)). discriminate. }
  pose proof (round64_error_normal _ _ Hprod Ha) as [Ha1 Ha2].
  cbn [js_div]. rewrite (Qzero_pos R HR).
  assert (Hinv : (0 < / R)%Q) by now apply Qinv_lt_0_compat.
  assert (Hq0 : (0 <= a / R)%Q).
  { unfold Qdiv. apply Qmult_le_0_compat; [exact Ha0|now apply Qlt_le_weak]. }
  pose proof (round64_nonneg (a / R) Hq0) as Hb0.
  destruct (round64 (a / R)) as [| | |b] eqn:Hb; cbn in Hb0; try easy;
    try discriminate.
  pose proof (round64_error _ _ Hq0 Hb) as [Hb1 Hb2].
  cbn [parseFloat_toFixed2].
  assert (Heps : (pow2 (-51) == 4 * pow2 (-53))%Q) by now vm_compute.
  assert (Heps' : (0 < pow2 (-53) <= 1 # 1000000)%Q) by now vm_compute.
  assert (Heta : (0 < pow2 (-1075) <= 1 # 1000000)%Q) by now vm_compute.
  pose proof round64_error as Hround.
  unfold Qdiv in *. rewrite Heps.
  remember (pow2 (-53)) as eps eqn:Ee. remember (pow2 (-1075)) as eta eqn:Et.
  remember (/ R)%Q as i eqn:Ei. clear Ee Et Ei Heps Hprod Ha Hb.
  assert (Hlo : (P * m * i * (1 - eps) <= a * i)%Q) by nra.
  assert (Hhi : (a * i <= P * m * i * (1 + eps))%Q) by nra.
  assert (HX0 : (0 <= P * m * i)%Q) by nra.
  remember (a * i)%Q as q eqn:Eq. remember (P * m * i)%Q as X eqn:EX.
  clear Eq EX Ha1 Ha2.
  assert (Hb_lo : (X * (1 - eps) * (1 - eps) - eta <= b)%Q) by nra.
  assert (Hb_hi : (b <= X * (1 + eps) * (1 + eps) + eta)%Q) by nra.
  clear Hb1 Hb2 Hlo Hhi Hq0.
  destruct (Qle_bool (inject_Z (10 ^ 21)) (Qabs b)).
  - intros [= <-]. clear Hround. split; nra.
  - intros Hg.
    pose proof (toFixed2_close b Hb0) as [Ht1 Ht2].
    pose proof (Hround _ _ (toFixed2_nonneg b Hb0) Hg) as [Hg1 Hg2].
    pose proof (toFixed2_nonneg b Hb0) as Ht0.
    remember (toFixed2 b) as t eqn:Et2. clear Et2 Hg Hround.
    assert (Ht_lo : (X * (1 - eps) * (1 - eps) - eta - (1 # 200) <= t)%Q) by lra.
    assert (Ht_hi : (t <= X * (1 + eps) * (1 + eps) + eta + (1 # 200))%Q) by lra.
    split; nra.
Qed.

(** ** Conversions *)

(** Induction over values that reaches the elements of an array. *)
Lemma value_nested_ind (P : value -> Prop) :
  P VUndefined -> P VNull -> (forall b, P (VBool b)) -> (forall n, P (VNum n)) ->
  (forall s, P (VStr s)) -> (forall l, Forall P l -> P (VArr l)) ->
  (forall o, P (VObj o)) -> (forall f, P (VBuiltin f)) ->
  forall v, P v.
Proof.
  intros Hu Hn Hb Hnum Hs Ha Ho Hf. fix IH 1.
  intros [| |b|n|s|l|o|f];
    [exact Hu|exact Hn|apply Hb|apply Hnum|apply Hs| |apply Ho|apply Hf].
  apply Ha. induction l as [|x l IHl]; constructor; [apply IH|exact IHl].
Qed.

Lemma join_cons (part : outcome string) (next : outcome string)
    (rest : list (outcome string)) :
  join (part :: next :: rest)
  = match part with
    | Ok s => match join (next :: rest) with
              | Ok r => Ok (s ++ "," ++ r)
              | Throw e => Throw e
              end
    | Throw e => Throw e
    end.
Proof. reflexivity. Qed.

Lemma join_printed (print : value -> outcome string) (l : list value) :
  Forall (fun x => (convertible x = true /\ exists s, print x = Ok s)
                   \/ (convertible x = false
                       /\ print x = Throw cannot_convert)) l ->
  (forallb convertible l = true /\ exists s, join (map print l) = Ok s)
  \/ (forallb convertible l = false
      /\ join (map print l) = Throw cannot_convert).
Proof.
  induction 1 as [|x rest Hx _ IH].
  - left. split; [reflexivity|]. eexists. reflexivity.
  - cbn [forallb map]. destruct rest as [|y rest].
    + cbn [forallb map join]. rewrite andb_true_r. exact Hx.
    + cbn [map] in IH |- *. rewrite join_cons.
      destruct Hx as [(-> & s & ->) | (-> & ->)]; [|right; auto].
      cbn [andb].
      destruct IH as [(-> & r & ->) | (-> & ->)]; [left|right]; eauto.
Qed.

Section ConversionProperties.

Variable StringToNumber : string -> number.
Variable Number_toString : number -> string.

Local Abbreviation ToString' := (ToString Number_toString).
Local Abbreviation ToNumber' := (ToNumber StringToNumber Number_toString).

(** A conversion to a string returns exactly on the convertible values, and
    raises the TypeError of ToPrimitive on the others. *)
Lemma ToString_cases (v : value) :
  (convertible v = true /\ exists s, ToString' v = Ok s)
  \/ (convertible v = false /\ ToString' v = Throw cannot_convert).
Proof.
  induction v as [| |b|n|s|l IH|o|f] using value_nested_ind;
    try (left; split; [reflexivity|eexists; reflexivity]).
  - change (ToString' (VArr l))
      with (join (map (fun element : value =>
                         match element with
                         | VUndefined | VNull => Ok ""
                         | _ => ToString' element
                         end) l)).
    change (convertible (VArr l)) with (forallb convertible l).
    apply join_printed.
    eapply Forall_impl; [exact IH|]. intros x Hx.
    destruct x; try exact Hx; left; split; try reflexivity;
      eexists; reflexivity.
  - cbn [ToString convertible]. destruct (o !! "toString") eqn:Hown.
    + right. split; [|reflexivity]. now apply bool_decide_eq_false.
    + left. split; [|eexists; reflexivity]. now apply bool_decide_eq_true.
Qed.

Lemma ToNumber_cases (v : value) :
  (convertible v = true /\ exists n, ToNumber' v = Ok n)
  \/ (convertible v = false /\ ToNumber' v = Throw cannot_convert).
Proof.
  destruct (ToString_cases v) as [(Hc & s & Hs) | (Hc & Hs)].
  - left. split; [exact Hc|].
    destruct v; cbn [ToNumber]; try rewrite Hs; eexists; reflexivity.
  - right. split; [exact Hc|].
    destruct v; try discriminate; cbn [ToNumber]; now rewrite Hs.
Qed.

Lemma ToNumber_convertible (v : value) (n : number) :
  ToNumber' v = Ok n -> convertible v = true.
Proof.
  intros Hn. destruct (ToNumber_cases v) as [(Hc & _) | (_ & Hv)];
    [exact Hc|congruence].
Qed.

End ConversionProperties.

(** ** The data processor *)

Lemma get_field (country : value) (k0 : string) (v0 : value) :
  get country k0 = Ok v0 -> forall k, get country k = Ok (field country k).
Proof.
  intros Hread k. unfold field.
  destruct country; cbn in Hread |- *; try discriminate; reflexivity.
Qed.

(** Running the callback on a record whose currencies and code are known. *)
Ltac run_callback Hcur Hcode :=
  unfold processCountry; unfold_st;
  rewrite !(get_field _ _ _ Hcur);
  rewrite (get_field _ _ _ Hcur) in Hcur;
  injection Hcur as Hcur;
  rewrite Hcur, Hcode.

Lemma js_or_truthy (a b : value) : truthy a = true -> js_or a b = a.
Proof. unfold js_or. now intros ->. Qed.

Lemma js_or_falsy (a b : value) : truthy a = false -> js_or a b = b.
Proof. unfold js_or. now intros ->. Qed.

Lemma extractCurrencyCode_absent (currencies : value) :
  no_currencies currencies -> extractCurrencyCode currencies = Ok VNull.
Proof. intros [-> | [-> | ->]]; reflexivity. Qed.

Lemma extractCurrencyCode_first (first : value) (rest : list value) (code : value) :
  get first "code" = Ok code ->
  extractCurrencyCode (VArr (first :: rest)) = Ok (js_or code VNull).
Proof. intros Hcode. unfold extractCurrencyCode. cbn. now rewrite Hcode. Qed.

Lemma extractCurrencyCode_truthy (currencies code : value) :
  extractCurrencyCode currencies = Ok code -> code <> VNull ->
  truthy code = true.
Proof.
  unfold extractCurrencyCode. intros Hrun Hcode.
  destruct (negb (truthy currencies) || negb (Array_isArray currencies)
            || (length (elements currencies) =? 0)%nat).
  - congruence.
  - destruct (get _ "code") as [c|]; [|discriminate].
    injection Hrun as <-. unfold js_or in *.
    destruct (truthy c) eqn:Hc; congruence.
Qed.

Section ReconcilerProperties.

Variable StringToNumber : string -> number.
Variable Number_toString : number -> string.
Variable random : nat -> Q.

Local Abbreviation ToNumber' := (ToNumber StringToNumber Number_toString).
Local Abbreviation ToPropertyKey' := (ToPropertyKey Number_toString).
Local Abbreviation rate_of' := (rate_of Number_toString).
Local Abbreviation looked_up' := (looked_up Number_toString).
Local Abbreviation readable' := (readable Number_toString).
Local Abbreviation calculateEstimatedGDP' :=
  (calculateEstimatedGDP StringToNumber Number_toString random).
Local Abbreviation processCountry' :=
  (processCountry StringToNumber Number_toString random).
Local Abbreviation processCountryData' :=
  (processCountryData StringToNumber Number_toString random).
Local Abbreviation always_reconciled' :=
  (always_reconciled StringToNumber Number_toString random).
Local Abbreviation callback_result' :=
  (callback_result StringToNumber Number_toString random).

Lemma always_reconciled_intro (exchangeRates : gmap string value)
    (country : value) (Q : CountryDraft -> Prop) :
  (forall s, exists d s', processCountry' exchangeRates country s = (Ok d, s')
                          /\ Q d) ->
  always_reconciled' exchangeRates country Q.
Proof.
  intros Hcall. split; [exact Hcall|].
  intros batch i s drafts s' Hi Hrun.
  destruct (map_M_lookup _ _ _ _ _ _ _ Hrun Hi) as (d & si & si' & Hd & Hlookup).
  destruct (Hcall si) as (d' & s'' & Hd' & HQ).
  rewrite Hd in Hd'. injection Hd' as -> _. eauto.
Qed.

Lemma rate_of_key (exchangeRates : gmap string value) (code : value)
    (key : string) :
  ToPropertyKey' code = Ok key ->
  rate_of' exchangeRates code = Ok (get_inherited exchangeRates key).
Proof. unfold rate_of. now intros ->. Qed.

(** What the estimate comes to: null behind the guard, with no draw; else
    one draw, and a number unless the population or the rate cannot be
    converted. *)
Lemma calculateEstimatedGDP_cases (population exchangeRate : value) (s : nat) :
  (truthy population && truthy exchangeRate = false
   /\ calculateEstimatedGDP' population exchangeRate s = (Ok VNull, s))
  \/ (truthy population = true
      /\ truthy exchangeRate = true
      /\ ((convertible population && convertible exchangeRate = false
           /\ calculateEstimatedGDP' population exchangeRate s
              = (Throw cannot_convert, S s))
          \/ (exists p r,
                ToNumber' population = Ok p
                /\ ToNumber' exchangeRate = Ok r
                /\ calculateEstimatedGDP' population exchangeRate s
                   = (Ok (VNum (parseFloat_toFixed2
                                  (js_div (js_mul p (multiplier (random s))) r))),
                      S s)))).
Proof.
  unfold calculateEstimatedGDP.
  destruct (truthy population), (truthy exchangeRate); cbn [negb orb andb];
    try (left; split; reflexivity).
  right. split; [reflexivity|]. split; [reflexivity|].
  unfold generateRandomMultiplier, Math_random. unfold_st.
  destruct (ToNumber_cases StringToNumber Number_toString population)
    as [(Hcp & p & Hp) | (Hcp & Hp)]; rewrite Hp, Hcp.
  - destruct (ToNumber_cases StringToNumber Number_toString exchangeRate)
      as [(Hcr & r & Hr) | (Hcr & Hr)]; rewrite Hr, Hcr.
    + right. exists p, r. auto.
    + left. auto.
  - left. auto.
Qed.

Lemma processCountry_no_code (exchangeRates : gmap string value)
    (country currencies code : value) (s : nat) :
  get country "currencies" = Ok currencies ->
  extractCurrencyCode currencies = Ok code ->
  truthy code = false ->
  processCountry' exchangeRates country s
  = (Ok (draft_of country code VNull (VNum (Fin 0))), s).
Proof.
  intros Hcur Hcode Hfalsy.
  run_callback Hcur Hcode. now rewrite !Hfalsy.
Qed.

Lemma processCountry_unprintable (exchangeRates : gmap string value)
    (country currencies code : value) (e : js_error) (s : nat) :
  get country "currencies" = Ok currencies ->
  extractCurrencyCode currencies = Ok code ->
  truthy code = true ->
  rate_of' exchangeRates code = Throw e ->
  processCountry' exchangeRates country s = (Throw e, s).
Proof.
  intros Hcur Hcode Htruthy Hrate.
  run_callback Hcur Hcode. now rewrite Htruthy, Hrate.
Qed.

Lemma processCountry_unresolved (exchangeRates : gmap string value)
    (country currencies code rate : value) (s : nat) :
  get country "currencies" = Ok currencies ->
  extractCurrencyCode currencies = Ok code ->
  truthy code = true ->
  rate_of' exchangeRates code = Ok rate ->
  truthy rate = false ->
  processCountry' exchangeRates country s
  = (Ok (draft_of country code VNull VNull), s).
Proof.
  intros Hcur Hcode Htruthy Hrate Hfalsy.
  run_callback Hcur Hcode. now rewrite Htruthy, Hrate, Hfalsy.
Qed.

Lemma processCountry_resolved (exchangeRates : gmap string value)
    (country currencies code rate : value) (s : nat) :
  get country "currencies" = Ok currencies ->
  extractCurrencyCode currencies = Ok code ->
  truthy code = true ->
  rate_of' exchangeRates code = Ok rate ->
  truthy rate = true ->
  processCountry' exchangeRates country s
  = match calculateEstimatedGDP' (field country "population") rate s with
    | (Ok g, s') => (Ok (draft_of country code rate g), s')
    | (Throw e, s') => (Throw e, s')
    end.
Proof.
  intros Hcur Hcode Htruthy Hrate Hrate_truthy.
  run_callback Hcur Hcode. rewrite Htruthy, Hrate, Hrate_truthy.
  destruct (calculateEstimatedGDP' (field country "population") rate s)
    as [[g|e] s']; [|reflexivity].
  unfold draft_of. now destruct g.
Qed.

Lemma processCountry_cases (exchangeRates : gmap string value)
    (country : value) (s : nat) :
  callback_result' exchangeRates country s
    (processCountry' exchangeRates country s).
Proof.
  unfold first_currency_code.
  destruct (get country "currencies") as [currencies|e] eqn:Hcur.
  2:{ replace (processCountry' exchangeRates country s) with
        (@Throw CountryDraft e, s).
      - apply unread. unfold first_currency_code. now rewrite Hcur.
      - unfold processCountry. unfold_st. now rewrite Hcur. }
  destruct (extractCurrencyCode currencies) as [code|e] eqn:Hcode.
  2:{ replace (processCountry' exchangeRates country s) with
        (@Throw CountryDraft e, s).
      - apply unread. unfold first_currency_code. now rewrite Hcur.
      - unfold processCountry. unfold_st. now rewrite Hcur, Hcode. }
  assert (Hfirst : first_currency_code country = Ok code).
  { unfold first_currency_code. now rewrite Hcur. }
  destruct (truthy code) eqn:Htruthy.
  2:{ rewrite (processCountry_no_code _ _ _ _ s Hcur Hcode Htruthy).
      now apply without_code. }
  destruct (ToString_cases Number_toString code) as [(Hc & key & Hkey) | (Hc & Hkey)].
  2:{ rewrite (processCountry_unprintable _ _ _ _ cannot_convert s Hcur Hcode
                 Htruthy).
      - now apply unprintable_code with code.
      - unfold rate_of, ToPropertyKey. now rewrite Hkey. }
  pose proof (rate_of_key exchangeRates code key Hkey) as Hrate.
  assert (Hlooked : looked_up' exchangeRates code = get_inherited exchangeRates key).
  { unfold looked_up. now rewrite Hrate. }
  rewrite <- Hlooked in Hrate.
  destruct (truthy (looked_up' exchangeRates code)) eqn:Hrate_truthy.
  - rewrite (processCountry_resolved _ _ _ _ _ s Hcur Hcode Htruthy Hrate
               Hrate_truthy).
    destruct (calculateEstimatedGDP' (field country "population")
                (looked_up' exchangeRates code) s) as [r s'] eqn:Hg.
    replace (match r with
             | Ok g =>
                 (Ok (draft_of country code (looked_up' exchangeRates code) g),
                  s')
             | Throw e => (Throw e, s')
             end)
      with (match r with
            | Ok g => Ok (draft_of country code (looked_up' exchangeRates code) g)
            | Throw e => Throw e
            end, s') by now destruct r.
    now apply with_rate.
  - rewrite (processCountry_unresolved _ _ _ _ _ s Hcur Hcode Htruthy Hrate
               Hrate_truthy).
    now apply without_rate.
Qed.

(** C2: a raw country whose currencies are absent or empty is reconciled to
    a draft with currency_code null, exchange_rate null and estimated_gdp
    exactly 0. *)
Theorem no_currencies_zero_gdp (exchangeRates : gmap string value)
    (country currencies : value) :
  get country "currencies" = Ok currencies ->
  no_currencies currencies ->
  always_reconciled' exchangeRates country
    (fun d => currency_code d = VNull
              /\ exchange_rate d = VNull
              /\ estimated_gdp d = VNum (Fin 0)).
Proof.
  intros Hcur Hnone. apply always_reconciled_intro. intros s.
  rewrite (processCountry_no_code exchangeRates _ _ VNull s Hcur
             (extractCurrencyCode_absent _ Hnone) eq_refl).
  eexists _, _. split; [reflexivity|]. cbn. auto.
Qed.

(** C4, as the code has it: a raw country whose first currency code is not
    null, can be made a property key, and names neither an entry of the rate
    table nor a property the table inherits from Object.prototype is
    reconciled to a draft with exchange_rate null and estimated_gdp null,
    both together. *)
Theorem unknown_code_both_null (exchangeRates : gmap string value)
    (country code : value) (key : string) :
  first_currency_code country = Ok code ->
  code <> VNull ->
  ToPropertyKey' code = Ok key ->
  exchangeRates !! key = None ->
  Object_prototype !! key = None ->
  always_reconciled' exchangeRates country
    (fun d => currency_code d = code
              /\ exchange_rate d = VNull
              /\ estimated_gdp d = VNull).
Proof.
  intros Hfirst Hcode Hkey Hown Hinherited.
  apply always_reconciled_intro. intros s.
  unfold first_currency_code in Hfirst.
  destruct (get country "currencies") as [currencies|] eqn:Hcur; [|discriminate].
  rewrite (processCountry_unresolved exchangeRates _ _ code VUndefined s Hcur
             Hfirst).
  - eexists _, _. split; [reflexivity|]. cbn. auto.
  - eapply extractCurrencyCode_truthy; eauto.
  - rewrite (rate_of_key _ _ _ Hkey). unfold get_inherited.
    now rewrite Hown, Hinherited.
  - reflexivity.
Qed.

Lemma inherited_truthy (key : string) (inherited : value) :
  Object_prototype !! key = Some inherited ->
  truthy inherited = true /\ ToNumber' inherited = Ok NaN.
Proof.
  intros H. unfold Object_prototype in H.
  apply elem_of_list_to_map_2 in H.
  repeat (apply elem_of_cons in H as [[= -> ->]|H]; [split; reflexivity|]).
  now apply elem_of_nil in H.
Qed.

(** What the code does on a code that names a property the rate table
    inherits: when the first currency code is not a key of the rate table
    but names a property of Object.prototype, and the population is truthy
    and convertible, the draft has the inherited value (a function, or the
    prototype) as exchange_rate and NaN as estimated_gdp. *)
Lemma inherited_code_resolves (exchangeRates : gmap string value)
    (country code inherited : value) (key : string) :
  first_currency_code country = Ok code ->
  code <> VNull ->
  ToPropertyKey' code = Ok key ->
  exchangeRates !! key = None ->
  Object_prototype !! key = Some inherited ->
  truthy (field country "population") = true ->
  convertible (field country "population") = true ->
  always_reconciled' exchangeRates country
    (fun d => currency_code d = code
              /\ exchange_rate d = inherited
              /\ exchange_rate d <> VNull
              /\ estimated_gdp d = VNum NaN).
Proof.
  intros Hfirst Hcode Hkey Hown Hinherited Hpop Hconv.
  apply always_reconciled_intro. intros s.
  destruct (inherited_truthy key inherited Hinherited) as [Htruthy_rate Hnan].
  unfold first_currency_code in Hfirst.
  destruct (get country "currencies") as [currencies|] eqn:Hcur; [|discriminate].
  pose proof (extractCurrencyCode_truthy _ _ Hfirst Hcode) as Htruthy.
  assert (Hrate : rate_of' exchangeRates code = Ok inherited).
  { rewrite (rate_of_key _ _ _ Hkey). unfold get_inherited.
    now rewrite Hown, Hinherited. }
  rewrite (processCountry_resolved exchangeRates _ _ _ _ s Hcur Hfirst Htruthy
             Hrate Htruthy_rate).
  destruct (calculateEstimatedGDP_cases (field country "population") inherited s)
    as [[Hguard _] | (_ & _ & [[Hbad _] | (p & r & Hp & Hr & ->)])].
  - rewrite Hpop, Htruthy_rate in Hguard. discriminate.
  - rewrite Hconv in Hbad. cbn [andb] in Hbad.
    rewrite (ToNumber_convertible StringToNumber Number_toString _ _ Hnan) in Hbad.
    discriminate.
  - rewrite Hnan in Hr. injection Hr as <-.
    eexists _, _. split; [reflexivity|].
    cbn [currency_code exchange_rate estimated_gdp draft_of].
    split; [reflexivity|]. split; [reflexivity|]. split.
    + intros ->. discriminate.
    + destruct (js_mul p (multiplier (random s))); reflexivity.
Qed.

(** C10, as the code has it: a raw country whose currencies start with an
    entry that is not null or undefined and has no code (or a falsy one) is
    reconciled like a country without currencies, whatever the later entries
    are: currency_code null, exchange_rate null, estimated_gdp 0. *)
Theorem first_entry_without_code (exchangeRates : gmap string value)
    (country first code : value) (rest : list value) :
  get country "currencies" = Ok (VArr (first :: rest)) ->
  get first "code" = Ok code ->
  truthy code = false ->
  always_reconciled' exchangeRates country
    (fun d => currency_code d = VNull
              /\ exchange_rate d = VNull
              /\ estimated_gdp d = VNum (Fin 0)).
Proof.
  intros Hcur Hread Hfalsy. apply always_reconciled_intro. intros s.
  pose proof (extractCurrencyCode_first first rest code Hread) as Hcode.
  rewrite (js_or_falsy _ _ Hfalsy) in Hcode.
  rewrite (processCountry_no_code exchangeRates _ _ VNull s Hcur Hcode eq_refl).
  eexists _, _. split; [reflexivity|]. cbn. auto.
Qed.

(** C1, as the code has it: a raw country whose first currency code is a key
    of the rate table and whose population is 0 is reconciled to a draft with
    population 0, the table's rate as exchange_rate (null if that rate is
    falsy) and estimated_gdp null. *)
Theorem zero_population_null_gdp (exchangeRates : gmap string value)
    (country code rate : value) (key : string) :
  first_currency_code country = Ok code ->
  code <> VNull ->
  ToPropertyKey' code = Ok key ->
  exchangeRates !! key = Some rate ->
  field country "population" = VNum (Fin 0) ->
  always_reconciled' exchangeRates country
    (fun d => currency_code d = code
              /\ population d = VNum (Fin 0)
              /\ exchange_rate d = js_or rate VNull
              /\ estimated_gdp d = VNull).
Proof.
  intros Hfirst Hcode Hkey Hown Hpop. apply always_reconciled_intro. intros s.
  assert (Hrate_of : rate_of' exchangeRates code = Ok rate).
  { rewrite (rate_of_key _ _ _ Hkey). unfold get_inherited. now rewrite Hown. }
  unfold first_currency_code in Hfirst.
  destruct (get country "currencies") as [currencies|] eqn:Hcur; [|discriminate].
  pose proof (extractCurrencyCode_truthy _ _ Hfirst Hcode) as Htruthy.
  destruct (truthy rate) eqn:Hrate.
  - rewrite (processCountry_resolved exchangeRates _ _ _ _ s Hcur Hfirst
               Htruthy Hrate_of Hrate).
    rewrite Hpop. unfold calculateEstimatedGDP. cbn.
    eexists _, _. split; [reflexivity|]. cbn. rewrite Hpop.
    rewrite (js_or_truthy _ _ Hrate). auto.
  - rewrite (processCountry_unresolved exchangeRates _ _ _ _ s Hcur Hfirst
               Htruthy Hrate_of Hrate).
    eexists _, _. split; [reflexivity|]. cbn. rewrite Hpop.
    rewrite (js_or_falsy _ _ Hrate). auto.
Qed.

(** Readability in terms of the first currency code. *)
Lemma readable_first_code (exchangeRates : gmap string value)
    (country : value) :
  readable' exchangeRates country
  = match first_currency_code country with
    | Throw _ => false
    | Ok code =>
        if truthy code
        then convertible code
             && (negb (truthy (looked_up' exchangeRates code)
                       && truthy (field country "population"))
                 || (convertible (field country "population")
                     && convertible (looked_up' exchangeRates code)))
        else true
    end.
Proof.
  unfold readable, first_currency_code.
  destruct country as [| |b|n|t|l|o|f]; try reflexivity.
  change (field (VObj o) "currencies") with (default VUndefined (o !! "currencies")).
  change (get (VObj o) "currencies") with (Ok (default VUndefined (o !! "currencies"))).
  generalize (field (VObj o) "population"). intros pop.
  destruct (default VUndefined (o !! "currencies")) as [| |b|n|t|l|o'|f];
    try reflexivity;
    try (unfold extractCurrencyCode; cbn [Array_isArray negb];
         rewrite orb_true_r; reflexivity).
  destruct l as [|first rest]; [reflexivity|].
  unfold extractCurrencyCode.
  cbn [truthy Array_isArray negb orb elements length Nat.eqb default].
  change ((first :: rest) !! 0%nat) with (Some first). cbn [default].
  destruct first as [| |b|n|t|l|o'|f]; try reflexivity.
  unfold id.
  change (get (VObj o') "code") with (Ok (field (VObj o') "code")).
  cbv iota. unfold js_or.
  destruct (truthy (field (VObj o') "code")) eqn:Hcode; [|reflexivity].
  now rewrite Hcode.
Qed.

Lemma first_currency_code_error (country : value) (e : js_error) :
  first_currency_code country = Throw e -> err_name e = "TypeError".
Proof.
  unfold first_currency_code, extractCurrencyCode.
  destruct country as [| |b|n|t|l|o|f]; cbn [get];
    try (intros [= <-]; reflexivity);
    destruct (negb _ || _ || _); try discriminate;
    match goal with
    | |- context [get ?v "code"] =>
        destruct v; cbn [get]; try discriminate; intros [= <-]; reflexivity
    end.
Qed.

(** The callback returns a draft exactly on the readable records, and
    raises a TypeError on the others. *)
Lemma processCountry_readable (exchangeRates : gmap string value)
    (country : value) (s : nat) :
  readable' exchangeRates country = true ->
  exists code rate g s',
    processCountry' exchangeRates country s
    = (Ok (draft_of country code rate g), s').
Proof.
  rewrite readable_first_code.
  destruct (processCountry_cases exchangeRates country s)
    as [e Hfirst | code Hfirst Hfalsy | code Hfirst Htruthy Hc
        | code Hfirst Htruthy Hc Hrate
        | code r s' Hfirst Htruthy Hc Hrate Hg];
    rewrite Hfirst; try discriminate; eauto.
  - rewrite Htruthy, Hc. discriminate.
  - rewrite Htruthy, Hc, Hrate. cbn [andb].
    destruct (calculateEstimatedGDP_cases (field country "population")
                (looked_up' exchangeRates code) s)
      as [[_ Hrun] | (Hpop & _ & [[Hconv Hrun] | (p & r' & _ & _ & Hrun)])];
      rewrite Hrun in Hg; injection Hg as <- <-; eauto.
    rewrite Hpop, Hconv. discriminate.
Qed.

Lemma processCountry_unreadable (exchangeRates : gmap string value)
    (country : value) (s : nat) :
  readable' exchangeRates country = false ->
  exists e s',
    processCountry' exchangeRates country s = (Throw e, s')
    /\ err_name e = "TypeError".
Proof.
  rewrite readable_first_code.
  destruct (processCountry_cases exchangeRates country s)
    as [e Hfirst | code Hfirst Hfalsy | code Hfirst Htruthy Hc
        | code Hfirst Htruthy Hc Hrate
        | code r s' Hfirst Htruthy Hc Hrate Hg];
    rewrite Hfirst.
  - intros _. eexists _, _. split; [reflexivity|].
    eapply first_currency_code_error; eauto.
  - rewrite Hfalsy. discriminate.
  - intros _. eexists _, _. split; reflexivity.
  - rewrite Htruthy, Hc, Hrate. discriminate.
  - rewrite Htruthy, Hc, Hrate. cbn [andb].
    destruct (calculateEstimatedGDP_cases (field country "population")
                (looked_up' exchangeRates code) s)
      as [[Hguard Hrun] | (Hpop & _ & [[Hconv Hrun] | (p & r' & Hp & Hr & Hrun)])];
      rewrite Hrun in Hg; injection Hg as <- <-.
    + rewrite Hrate, andb_true_r in Hguard. rewrite Hguard. discriminate.
    + intros _. eexists _, _. split; reflexivity.
    + rewrite Hpop. cbn [negb orb].
      destruct (ToNumber_cases StringToNumber Number_toString
                  (field country "population")) as [(Hcp & _) | (_ & Hp')];
        [|congruence].
      destruct (ToNumber_cases StringToNumber Number_toString
                  (looked_up' exchangeRates code)) as [(Hcr & _) | (_ & Hr')];
        [|congruence].
      rewrite Hcp, Hcr. discriminate.
Qed.

(** C9, as the code has it: on a batch of readable records the processor
    raises nothing and returns one draft per record, in order; a missing (or
    falsy) capital, region or flag becomes null and a missing population
    becomes 0.  On a batch with a record that is not readable it raises a
    TypeError and returns no draft at all. *)
Theorem readable_batch_reconciled (countries : list value)
    (exchangeRates : gmap string value) (s : nat) :
  (Forall (fun country => readable' exchangeRates country = true) countries ->
   exists drafts s',
     processCountryData' countries exchangeRates s = (Ok drafts, s')
     /\ length drafts = length countries
     /\ forall i country d,
          countries !! i = Some country -> drafts !! i = Some d ->
          capital d = js_or (field country "capital") VNull
          /\ region d = js_or (field country "region") VNull
          /\ flag_url d = js_or (field country "flag") VNull
          /\ population d = js_or (field country "population") (VNum (Fin 0)))
  /\ (Exists (fun country => readable' exchangeRates country = false) countries ->
      exists e s',
        processCountryData' countries exchangeRates s = (Throw e, s')
        /\ err_name e = "TypeError").
Proof.
  split.
  - intros Hreadable. unfold processCountryData.
    destruct (map_M_returns (processCountry' exchangeRates) countries)
      with (s := s) as (drafts & s' & Hrun).
    { eapply Forall_impl; [exact Hreadable|]. cbn. intros country Hc s0.
      destruct (processCountry_readable exchangeRates country s0 Hc)
        as (code & rate & g & s1 & ->).
      eauto. }
    exists drafts, s'. split; [exact Hrun|]. split.
    { eapply map_M_length; eauto. }
    intros i country d Hi Hd.
    destruct (map_M_lookup _ _ _ _ _ _ _ Hrun Hi) as (d' & si & si' & Hcall & Hd').
    rewrite Hd in Hd'. injection Hd' as <-.
    assert (Hc : readable' exchangeRates country = true).
    { rewrite Forall_forall in Hreadable. apply Hreadable.
      eapply list_elem_of_lookup_2; eauto. }
    destruct (processCountry_readable exchangeRates country si Hc)
      as (code & rate & g & s1 & Hcall').
    rewrite Hcall in Hcall'. injection Hcall' as -> _. cbn. auto.
  - unfold processCountryData. revert s.
    induction countries as [|country rest IH]; intros s Hsome.
    + inversion Hsome.
    + cbn [map_M]. unfold mbind, ST_bind, st_bind.
      destruct (readable' exchangeRates country) eqn:Hc.
      * destruct (processCountry_readable exchangeRates country s Hc)
          as (code & rate & g & s1 & ->).
        fold (@map_M nat value CountryDraft).
        destruct (IH s1) as (e & s' & -> & He).
        { inversion Hsome; subst; [congruence|assumption]. }
        eauto.
      * destruct (processCountry_unreadable exchangeRates country s Hc)
          as (e & s' & -> & He).
        eauto.
Qed.

(** [Math.random()] returns a number in [0, 1). *)
Hypothesis random_range : forall n, (0 <= random n < 1)%Q.

(** C3, as the code has it: a raw country whose first currency code is a key
    of the rate table with a rate R > 0 is reconciled to a draft with
    exchange_rate R.  With population 0 its estimated_gdp is null.  With a
    population P > 0 its estimated_gdp is parseFloat(((P * m) / R).toFixed(2))
    in binary64 arithmetic for a multiplier 1000 <= m <= 2000; it lies
    between the estimates computed in the same way for the multipliers 1000
    and 2000, and when P >= 1 and the estimate is finite, between
    P * 1000 / R * (1 - 2^-51) - 0.0051 and P * 2000 / R * (1 + 2^-51)
    + 0.0051. *)
Theorem resolved_code_estimate (exchangeRates : gmap string value)
    (country code : value) (key : string) (P R : Q) :
  first_currency_code country = Ok code ->
  code <> VNull ->
  ToPropertyKey' code = Ok key ->
  exchangeRates !! key = Some (VNum (Fin R)) ->
  (0 < R)%Q ->
  field country "population" = VNum (Fin P) ->
  (0 <= P)%Q ->
  always_reconciled' exchangeRates country
    (fun d => exchange_rate d = VNum (Fin R)
              /\ ((P == 0)%Q -> estimated_gdp d = VNull)
              /\ ((0 < P)%Q ->
                  exists m,
                    (1000 <= m <= 2000)%Q
                    /\ estimated_gdp d = VNum (estimate P m R)
                    /\ num_le (estimate P 1000 R) (estimate P m R)
                    /\ num_le (estimate P m R) (estimate P 2000 R)
                    /\ forall g,
                         (1 <= P)%Q -> estimate P m R = Fin g ->
                         (P * 1000 / R * (1 - pow2 (-51)) - (51 # 10000) <= g
                          <= P * 2000 / R * (1 + pow2 (-51)) + (51 # 10000))%Q)).
Proof.
  intros Hfirst Hcode Hkey Hown HR Hpop HP. apply always_reconciled_intro.
  intros s.
  unfold first_currency_code in Hfirst.
  destruct (get country "currencies") as [currencies|] eqn:Hcur; [|discriminate].
  pose proof (extractCurrencyCode_truthy _ _ Hfirst Hcode) as Htruthy.
  assert (Hrate : rate_of' exchangeRates code = Ok (VNum (Fin R))).
  { rewrite (rate_of_key _ _ _ Hkey). unfold get_inherited. now rewrite Hown. }
  assert (Hrate_truthy : truthy (VNum (Fin R)) = true).
  { cbn. now rewrite (Qzero_pos R HR). }
  rewrite (processCountry_resolved exchangeRates _ _ _ _ s Hcur Hfirst Htruthy
             Hrate Hrate_truthy).
  rewrite Hpop.
  destruct (calculateEstimatedGDP_cases (VNum (Fin P)) (VNum (Fin R)) s)
    as [[Hguard ->] | (Hpos & _ & [[Hconv _] | (p & r & Hp & Hr & ->)])].
  - eexists _, _. split; [reflexivity|]. cbn [exchange_rate estimated_gdp draft_of].
    split; [reflexivity|]. split; [reflexivity|].
    intros HPpos. rewrite Hrate_truthy, andb_true_r in Hguard.
    cbn in Hguard. rewrite (Qzero_pos P HPpos) in Hguard. discriminate.
  - discriminate.
  - injection Hp as <-. injection Hr as <-.
    eexists _, _. split; [reflexivity|]. cbn [exchange_rate estimated_gdp draft_of].
    split; [reflexivity|]. split.
    + intros Hzero. apply Qzero_spec in Hzero. cbn in Hpos.
      rewrite Hzero in Hpos. discriminate.
    + intros HPpos.
      destruct (multiplier_range _ (random_range s)) as (m & Hm & Hlo & Hhi).
      exists m. rewrite Hm. split; [auto|]. split; [reflexivity|].
      split; [apply estimate_mono; auto; lra|].
      split; [apply estimate_mono; auto; lra|].
      intros g HP1 Hg.
      pose proof (estimate_close P R m g HP1 HR ltac:(lra) Hg) as [Hglo Hghi].
      assert (Hdelta : (0 < pow2 (-51) <= 1 # 2)%Q) by now vm_compute.
      assert (Hinv : (0 < / R)%Q) by now apply Qinv_lt_0_compat.
      unfold Qdiv in *. remember (pow2 (-51)) as delta eqn:Ed.
      remember (/ R)%Q as i eqn:Ei. clear Ed Ei Hg.
      assert (HPi : (0 <= P * i)%Q) by nra.
      assert (HL : (P * 1000 * i <= P * m * i)%Q) by nra.
      assert (HU : (P * m * i <= P * 2000 * i)%Q) by nra.
      remember (P * 1000 * i)%Q as L eqn:EL.
      remember (P * 2000 * i)%Q as U eqn:EU.
      remember (P * m * i)%Q as X eqn:EX. clear EL EU EX.
      split; nra.
Qed.

End ReconcilerProperties.

(** ** The data processor on the sample data *)

(** The arithmetic is the runtime's: 201 * 1000 / 200000 is the binary64
    below 1.005 and prints as 1.00; 1e308 * 1000 overflows; the largest
    draw below 1 gives the multiplier 2000; 1000 / 3 prints as 333.33. *)
Example binary64_examples :
  estimate 201 1000 200000 = Fin 1
  /\ js_mul (Fin (inject_Z (10 ^ 308))) (Fin 1000) = PInf
  /\ multiplier (1 - pow2 (-53)) = Fin 2000
  /\ js_div (Fin 1000) (Fin 3)
     = Fin (5864062014805333 # 17592186044416)
  /\ estimate 1 1000 3 = round64 (33333 # 100).
Proof. vm_compute. repeat split; reflexivity. Qed.

Lemma no_currencies_zero_gdp_witness :
  get atlantis "currencies" = Ok (VArr [])
  /\ always_reconciled unparsed unprinted (draws_of 0) sample_rates atlantis
       (fun d => currency_code d = VNull
                 /\ exchange_rate d = VNull
                 /\ estimated_gdp d = VNum (Fin 0)).
Proof.
  split; [vm_compute; reflexivity|].
  apply (no_currencies_zero_gdp unparsed unprinted (draws_of 0) sample_rates
           atlantis (VArr [])).
  - vm_compute; reflexivity.
  - right; right; reflexivity.
Defined.

Lemma unknown_code_both_null_witness :
  first_currency_code ruritania = Ok (VStr "RUR")
  /\ always_reconciled unparsed unprinted (draws_of 0) sample_rates ruritania
       (fun d => currency_code d = VStr "RUR"
                 /\ exchange_rate d = VNull
                 /\ estimated_gdp d = VNull).
Proof.
  split; [vm_compute; reflexivity|].
  apply (unknown_code_both_null unparsed unprinted (draws_of 0) sample_rates
           ruritania (VStr "RUR") "RUR").
  - vm_compute; reflexivity.
  - discriminate.
  - reflexivity.
  - vm_compute; reflexivity.
  - vm_compute; reflexivity.
Defined.

(** C4 fails on the code in two ways.  The code "constructor" is not a key
    of the rate table, but the lookup finds the function every object
    inherits: the exchange_rate is that function and the estimate, made with
    one draw, is NaN.  A code that is an object with an own toString is not
    a key either, and the lookup raises a TypeError: there is no draft. *)
Lemma absent_code_resolved_or_raised :
  (first_currency_code utopia = Ok (VStr "constructor")
   /\ sample_rates !! "constructor" = None
   /\ exists d,
        processCountryData unparsed unprinted (draws_of 0)
          [utopia] sample_rates 0 = (Ok [d], 1%nat)
        /\ exchange_rate d = VBuiltin "Object"
        /\ estimated_gdp d = VNum NaN)
  /\ (first_currency_code genovia = Ok (object [("toString", VNum (Fin 1))])
      /\ processCountryData unparsed unprinted (draws_of 0)
           [genovia] sample_rates 0
         = (Throw cannot_convert, 0%nat)).
Proof.
  split; [|split; vm_compute; reflexivity].
  repeat split; try (vm_compute; reflexivity).
  eexists. split; [vm_compute; reflexivity|]. split; reflexivity.
Qed.

(** The same for every record with that code and a population. *)
Example inherited_code_example :
  always_reconciled unparsed unprinted (draws_of 0) sample_rates utopia
    (fun d => currency_code d = VStr "constructor"
              /\ exchange_rate d = VBuiltin "Object"
              /\ exchange_rate d <> VNull
              /\ estimated_gdp d = VNum NaN).
Proof.
  apply (inherited_code_resolves unparsed unprinted (draws_of 0) sample_rates
           utopia (VStr "constructor") (VBuiltin "Object") "constructor");
    try (vm_compute; reflexivity).
  discriminate.
Qed.

Lemma first_entry_without_code_witness :
  always_reconciled unparsed unprinted (draws_of 0) sample_rates
    nameless_currency
    (fun d => currency_code d = VNull
              /\ exchange_rate d = VNull
              /\ estimated_gdp d = VNum (Fin 0)).
Proof.
  apply (first_entry_without_code unparsed unprinted (draws_of 0) sample_rates
           nameless_currency (object [("symbol", VStr "E")]) VUndefined
           [object [("code", VStr "NGN")]]).
  - vm_compute; reflexivity.
  - vm_compute; reflexivity.
  - reflexivity.
Defined.

(** C10 fails on the code: when the first entry of the currencies is null,
    it has no code, and a later entry has one the rate table knows; the
    processor raises a TypeError instead of returning a draft without
    currency. *)
Lemma null_first_entry_raises :
  get sylvania "currencies"
  = Ok (VArr [VNull; object [("code", VStr "NGN")]])
  /\ processCountryData unparsed unprinted (draws_of 0)
       [sylvania] sample_rates 0
     = (Throw (TypeError "Cannot read properties of null (reading 'code')"),
        0%nat).
Proof. split; vm_compute; reflexivity. Qed.

Lemma zero_population_null_gdp_witness :
  always_reconciled unparsed unprinted (draws_of 0) sample_rates bouvet_island
    (fun d => currency_code d = VStr "NOK"
              /\ population d = VNum (Fin 0)
              /\ exchange_rate d = js_or (VNum (Fin 3)) VNull
              /\ estimated_gdp d = VNull).
Proof.
  apply (zero_population_null_gdp unparsed unprinted (draws_of 0) sample_rates
           bouvet_island (VStr "NOK") (VNum (Fin 3)) "NOK").
  - vm_compute; reflexivity.
  - discriminate.
  - reflexivity.
  - vm_compute; reflexivity.
  - vm_compute; reflexivity.
Defined.

(** The two examples of the specification, with the draw 0 (multiplier
    1000): Nigeria gets 206139589 * 1000 / 1600.23 rounded to cents, Atlantis
    the defined zero. *)
Example specification_examples :
  processCountryData unparsed unprinted (draws_of 0)
    [nigeria; atlantis] sample_rates 0
  = (Ok [ mkDraft (VStr "Nigeria") VNull VNull (VNum (Fin 206139589))
                  (VStr "NGN") (VNum (Fin (160023 # 100)))
                  (VNum (round64 (12881872543 # 100))) VNull;
          mkDraft (VStr "Atlantis") VNull VNull (VNum (Fin 1000))
                  VNull VNull (VNum (Fin 0)) VNull ],
     1%nat).
Proof. vm_compute; reflexivity. Qed.

(** C1 fails on the code: Bouvet Island has population 0 and the currency
    NOK, which the rate table knows; its estimated_gdp is null, not 0. *)
Lemma zero_population_gdp_is_null :
  first_currency_code bouvet_island = Ok (VStr "NOK")
  /\ sample_rates !! "NOK" = Some (VNum (Fin 3))
  /\ field bouvet_island "population" = VNum (Fin 0)
  /\ exists d,
       processCountryData unparsed unprinted (draws_of 0)
         [bouvet_island] sample_rates 0 = (Ok [d], 0%nat)
       /\ estimated_gdp d = VNull
       /\ estimated_gdp d <> VNum (Fin 0).
Proof.
  repeat split; try (vm_compute; reflexivity).
  eexists. split; [vm_compute; reflexivity|]. split; [reflexivity|discriminate].
Qed.

Lemma resolved_code_estimate_witness :
  always_reconciled unparsed unprinted (draws_of (1 # 2)) sample_rates nigeria
    (fun d => exchange_rate d = VNum (Fin (160023 # 100))
              /\ ((206139589 == 0)%Q -> estimated_gdp d = VNull)
              /\ ((0 < 206139589)%Q ->
                  exists m,
                    (1000 <= m <= 2000)%Q
                    /\ estimated_gdp d
                       = VNum (estimate 206139589 m (160023 # 100))
                    /\ num_le (estimate 206139589 1000 (160023 # 100))
                              (estimate 206139589 m (160023 # 100))
                    /\ num_le (estimate 206139589 m (160023 # 100))
                              (estimate 206139589 2000 (160023 # 100))
                    /\ forall g,
                         (1 <= 206139589)%Q ->
                         estimate 206139589 m (160023 # 100) = Fin g ->
                         (206139589 * 1000 / (160023 # 100) * (1 - pow2 (-51))
                          - (51 # 10000) <= g
                          <= 206139589 * 2000 / (160023 # 100)
                             * (1 + pow2 (-51)) + (51 # 10000))%Q)).
Proof.
  refine (resolved_code_estimate unparsed unprinted (draws_of (1 # 2)) _
            sample_rates nigeria (VStr "NGN") "NGN" 206139589 (160023 # 100)
            _ _ _ _ _ _ _).
  - intros n. unfold draws_of. split; lra.
  - vm_compute; reflexivity.
  - discriminate.
  - reflexivity.
  - vm_compute; reflexivity.
  - reflexivity.
  - vm_compute; reflexivity.
  - discriminate.
Defined.

(** C3 fails on the code in two ways.  With population 0 the estimate is
    null, not a number.  With population 1, rate 3 and the draw 0 the
    multiplier is 1000 and the estimate the binary64 of 333.33, below
    1 * 1000 / 3. *)
Lemma estimate_outside_interval :
  (exists d,
     processCountryData unparsed unprinted (draws_of 0)
       [bouvet_island] sample_rates 0 = (Ok [d], 0%nat)
     /\ exchange_rate d = VNum (Fin 3)
     /\ estimated_gdp d = VNull)
  /\ (exists d g,
        processCountryData unparsed unprinted (draws_of 0)
          [skerry] sample_rates 0 = (Ok [d], 1%nat)
        /\ exchange_rate d = VNum (Fin 3)
        /\ estimated_gdp d = VNum (Fin g)
        /\ ~ (1 * 1000 / 3 <= g)%Q).
Proof.
  split.
  - eexists. split; [vm_compute; reflexivity|]. split; reflexivity.
  - eexists _, _. split; [vm_compute; reflexivity|].
    split; [reflexivity|]. split; [reflexivity|]. intros H. now vm_compute in H.
Qed.

Lemma readable_batch_reconciled_witness :
  (exists drafts s',
     processCountryData unparsed unprinted (draws_of 0)
       [nigeria; blank_record; mistyped_record] sample_rates 0
     = (Ok drafts, s')
     /\ length drafts = 3%nat
     /\ forall i country d,
          [nigeria; blank_record; mistyped_record] !! i = Some country ->
          drafts !! i = Some d ->
          capital d = js_or (field country "capital") VNull
          /\ region d = js_or (field country "region") VNull
          /\ flag_url d = js_or (field country "flag") VNull
          /\ population d = js_or (field country "population") (VNum (Fin 0)))
  /\ (exists e s',
        processCountryData unparsed unprinted (draws_of 0)
          [nigeria; genovia; atlantis] sample_rates 0 = (Throw e, s')
        /\ err_name e = "TypeError").
Proof.
  split.
  - apply (readable_batch_reconciled unparsed unprinted (draws_of 0)
             [nigeria; blank_record; mistyped_record] sample_rates 0).
    repeat constructor.
  - apply (readable_batch_reconciled unparsed unprinted (draws_of 0)
             [nigeria; genovia; atlantis] sample_rates 0).
    apply Exists_cons_tl, Exists_cons_hd. vm_compute. reflexivity.
Defined.

(** The blank and the mistyped record degrade to defaults. *)
Example malformed_records_degrade :
  processCountryData unparsed unprinted (draws_of 0)
    [blank_record; mistyped_record] sample_rates 0
  = (Ok [ mkDraft (VStr "") VNull VNull (VNum (Fin 0)) VNull VNull
                  (VNum (Fin 0)) VNull;
          mkDraft (VNum (Fin 42)) VNull VNull (VNum (Fin 0)) VNull VNull
                  (VNum (Fin 0)) VNull ],
     0%nat).
Proof. vm_compute; reflexivity. Qed.

(** A code or a population that cannot be converted ends the batch, the
    population after the draw. *)
Example unconvertible_records_raise :
  processCountryData unparsed unprinted (draws_of 0)
    [nigeria; genovia; atlantis] sample_rates 0
  = (Throw cannot_convert, 1%nat)
  /\ processCountryData unparsed unprinted (draws_of 0)
       [zubrowka] sample_rates 0
     = (Throw cannot_convert, 1%nat).
Proof. split; vm_compute; reflexivity. Qed.

(** C9 fails on the code: a record whose currencies start with null makes
    the processor raise a TypeError, and the well-formed record after it is
    not reconciled. *)
Lemma null_currency_aborts_batch :
  processCountryData unparsed unprinted (draws_of 0)
    [null_currency; nigeria] sample_rates 0
  = (Throw (TypeError "Cannot read properties of null (reading 'code')"),
     0%nat).
Proof. vm_compute; reflexivity. Qed.

(** ** The snapshot store *)

Section StoreProperties.

Variable collate : value -> string.
Variable sql_equal : value -> value -> bool.
Variable order_by : string -> list CountryRow -> list CountryRow.
Variable parseFloat : value -> value.
Variable faults : Faults.

Local Abbreviation connection_query' := (connection_query collate faults).
Local Abbreviation bulkUpsertCountries' := (bulkUpsertCountries collate faults).
Local Abbreviation getAllCountries' :=
  (getAllCountries sql_equal order_by parseFloat).

Lemma connection_query_transaction (country : CountryDraft) (db : Database) :
  transaction (snd (connection_query' country db)) = transaction db.
Proof.
  unfold connection_query, guarded.
  destruct (insert_fault faults (countries (tables db)) country); reflexivity.
Qed.

Lemma for_of_transaction (batch : list CountryDraft) :
  forall db, transaction (snd (for_of batch connection_query' db)) = transaction db.
Proof.
  induction batch as [|country rest IH]; intros db; cbn; [reflexivity|].
  unfold mbind, ST_bind, st_bind.
  pose proof (connection_query_transaction country db) as Hhead.
  destruct (connection_query' country db) as [[[]|e] db0]; cbn in Hhead |- *.
  - fold (@for_of CountryDraft). now rewrite IH.
  - exact Hhead.
Qed.

Lemma for_of_rejected (batch : list CountryDraft) :
  Exists (fun country => forall rows, is_Some (insert_fault faults rows country))
         batch ->
  forall db, exists e db', for_of batch connection_query' db = (Throw e, db').
Proof.
  induction 1 as [country rest Hrej|country rest _ IH]; intros db; cbn;
    unfold mbind, ST_bind, st_bind.
  - unfold connection_query at 1, guarded.
    destruct (Hrej (countries (tables db))) as (e & ->). cbn. eauto.
  - destruct (connection_query' country db) as [[[]|e] db0]; [|eauto].
    fold (@for_of CountryDraft). apply IH.
Qed.

(** Whatever makes the bulk upsert throw, the tables are those from before
    the call. *)
Lemma bulkUpsertCountries_throw (batch : list CountryDraft) (db db' : Database)
    (e : js_error) :
  transaction db = None ->
  bulkUpsertCountries' batch db = (Throw e, db') ->
  tables db' = tables db /\ transaction db' = None.
Proof.
  intros Hfresh. unfold bulkUpsertCountries, mbind, ST_bind, st_bind, guarded.
  destruct (getConnection_fault faults) as [e0|]; cbn.
  { intros [= _ <-]. auto. }
  unfold st_try_catch, st_bind, st_throw, rollback.
  destruct (beginTransaction_fault faults) as [e1|]; cbn.
  { rewrite Hfresh. cbn. intros [= _ <-]. auto. }
  set (db1 := mkDatabase (tables db) (Some (tables db)) (auto_increment db) (NOW db)).
  pose proof (for_of_transaction batch db1) as Htxn.
  destruct (for_of batch connection_query' db1) as [[[]|e2] db2]; cbn in Htxn |- *.
  - destruct (commit_fault faults) as [e3|]; cbn.
    + rewrite Htxn. cbn. intros [= _ <-]. auto.
    + discriminate.
  - rewrite Htxn. cbn. intros [= _ <-]. auto.
Qed.

Lemma getAllCountries_tables (select_fault : option js_error)
    (filters : Filters) (sort : value) (db db' : Database) :
  tables db' = tables db ->
  fst (getAllCountries' select_fault filters sort db')
  = fst (getAllCountries' select_fault filters sort db).
Proof.
  intros Htables. unfold getAllCountries.
  destruct select_fault; [reflexivity|]. cbn. now rewrite Htables.
Qed.

(** C5: when the server rejects a record of the batch, the bulk upsert
    throws, the tables are those from before the call, and every later
    getAllCountries answers as it would have before the call. *)
Theorem bulkUpsert_all_or_nothing (batch : list CountryDraft) (db : Database) :
  transaction db = None ->
  Exists (fun country => forall rows, is_Some (insert_fault faults rows country))
         batch ->
  exists e db',
    bulkUpsertCountries' batch db = (Throw e, db')
    /\ tables db' = tables db
    /\ forall select_fault filters sort,
         fst (getAllCountries' select_fault filters sort db')
         = fst (getAllCountries' select_fault filters sort db).
Proof.
  intros Hfresh Hrej.
  destruct (bulkUpsertCountries' batch db) as [[n|e] db'] eqn:Hrun.
  - exfalso. revert Hrun.
    unfold bulkUpsertCountries, mbind, ST_bind, st_bind, guarded.
    destruct (getConnection_fault faults) as [e0|]; cbn; [discriminate|].
    unfold st_try_catch, st_bind, st_throw, rollback.
    destruct (beginTransaction_fault faults) as [e1|]; cbn; [discriminate|].
    destruct (for_of_rejected batch Hrej
                (mkDatabase (tables db) (Some (tables db)) (auto_increment db)
                            (NOW db))) as (e2 & db2 & ->).
    cbn. discriminate.
  - destruct (bulkUpsertCountries_throw batch db db' e Hfresh Hrun) as [Ht _].
    exists e, db'. split; [reflexivity|]. split; [exact Ht|].
    intros. now apply getAllCountries_tables.
Qed.

End StoreProperties.

Lemma bulkUpsert_all_or_nothing_witness :
  exists e db',
    bulkUpsertCountries collate_binary rejects_nameless
      [nigeria_draft; nameless_draft] sample_database = (Throw e, db')
    /\ tables db' = tables sample_database
    /\ forall select_fault filters sort,
         fst (getAllCountries (fun _ _ => true) unordered (fun v => v)
                select_fault filters sort db')
         = fst (getAllCountries (fun _ _ => true) unordered (fun v => v)
                  select_fault filters sort sample_database).
Proof.
  apply (bulkUpsert_all_or_nothing collate_binary (fun _ _ => true) unordered
           (fun v => v) rejects_nameless [nigeria_draft; nameless_draft]
           sample_database).
  - reflexivity.
  - apply Exists_cons_tl, Exists_cons_hd. intros rows. eexists. reflexivity.
Defined.

(** Without a fault the batch is committed: the row of the same name (up to
    case) is overwritten in place, keeping its id, name and created_at, and
    the new name gets a new row. *)
Example bulkUpsert_committed_example :
  bulkUpsertCountries collate_ci no_faults
    [nigeria_draft; wakanda_census_draft] sample_database
  = (Ok 2%nat,
     mkDatabase
       (mkTables
          [ mkRow 1 (mkDraft (VStr "Wakanda") VNull VNull (VNum (Fin 7)) VNull
                             VNull (VNum (Fin 0)) VNull) 100 50;
            mkRow 2 nigeria_draft 100 100 ]
          [mkMetadataRow 1 50 1])
       None 4 100).
Proof. vm_compute; reflexivity. Qed.

(** The rejected second record undoes the first: the row added for Nigeria is
    gone after the rollback and only the AUTO_INCREMENT counter has moved. *)
Lemma bulkUpsert_rolled_back_example :
  bulkUpsertCountries collate_binary rejects_nameless
    [nigeria_draft; nameless_draft] sample_database
  = (Throw (Error "Column 'name' cannot be empty"),
     mkDatabase (tables sample_database) None 3 100).
Proof. vm_compute; reflexivity. Qed.

(** ** The refresh handler and the error middleware *)

Lemma prefix_append (needle rest : string) :
  String.prefix needle (needle ++ rest) = true.
Proof.
  induction needle as [|a needle IH].
  - now destruct rest.
  - change (String a needle ++ rest) with (String a (needle ++ rest)). cbn.
    destruct (Ascii.ascii_dec a a) as [_|Hne]; [exact IH|congruence].
Qed.

Lemma includes_prefix (needle rest : string) :
  includes (needle ++ rest) needle = true.
Proof.
  destruct (needle ++ rest) eqn:Happ; cbn -[String.prefix];
    rewrite <- Happ, prefix_append; reflexivity.
Qed.

(** A failure of a fetch other than a timeout is answered with 503. *)
Lemma fetch_failure_503 (api message : string) :
  errorHandler (Error ("Could not fetch data from " ++ api ++ message))
  = mkResponse 503
      (VObj (<[ "details" := VStr ("Could not fetch data from " ++ api ++ message) ]>
               {[ "error" := VStr "External data source unavailable" ]})).
Proof.
  unfold errorHandler.
  change (err_statusCode (Error _)) with (@None nat).
  change (err_name (Error _)) with "Error".
  change (err_message (Error ?m)) with m.
  cbn [String.eqb Ascii.eqb Bool.eqb].
  replace (includes _ _) with true.
  - reflexivity.
  - symmetry.
    change ("Could not fetch data from " ++ api ++ message)
      with ("Could not fetch data from" ++ (" " ++ api ++ message)).
    apply includes_prefix.
Qed.

Lemma st_lift_png {A} (r : outcome A) (w w' : World) (x : outcome A) :
  st_lift r w = (x, w') -> summary_png w' = summary_png w.
Proof. unfold st_lift. now intros [= _ <-]. Qed.

Lemma io_random_png {A} (m : M A) (w w' : World) (x : outcome A) :
  io_random m w = (x, w') -> summary_png w' = summary_png w.
Proof.
  unfold io_random. destruct (m (draws w)) as [r s]. now intros [= _ <-].
Qed.

Lemma io_db_png {A} (m : DB A) (w w' : World) (x : outcome A) :
  io_db m w = (x, w') -> summary_png w' = summary_png w.
Proof.
  unfold io_db. destruct (m (database w)) as [r db]. now intros [= _ <-].
Qed.

Section ControllerProperties.

Variable StringToNumber : string -> number.
Variable Number_toString : number -> string.
Variable random : nat -> Q.
Variable collate : value -> string.
Variable order_by : string -> list CountryRow -> list CountryRow.

Local Abbreviation refreshCountries' :=
  (refreshCountries StringToNumber Number_toString random collate order_by).

(** C6: when either fetch fails, the handler passes the fetch error on and
    leaves the world as it was: no row, no metadata, no image is written. *)
Theorem fetch_failure_no_persistence (env : Env) (w : World) :
  (exists e, fetchCountries (axios_countries env) = Throw e)
  \/ (exists e, fetchExchangeRates (axios_rates env) = Throw e) ->
  exists error,
    refreshCountries' env w = (Next error, w)
    /\ (fetchCountries (axios_countries env) = Throw error
        \/ fetchExchangeRates (axios_rates env) = Throw error).
Proof.
  intros Hfail. unfold refreshCountries, refresh, mbind, ST_bind, st_bind.
  unfold st_lift at 1.
  destruct (fetchCountries (axios_countries env)) as [cs|ec] eqn:Hc;
    destruct (fetchExchangeRates (axios_rates env)) as [rs|er] eqn:Hr; cbn.
  - destruct Hfail as [[e He]|[e He]]; discriminate.
  - eauto.
  - eauto.
  - destruct (rates_reject_first env); eauto.
Qed.

(** C7, what the code does on a timeout: when the countries request times
    out (and the rates request succeeds), the handler passes on an error
    whose message is "Countries API request timed out", and the error
    middleware answers it with 500 "Internal server error", not with 503. *)
Theorem countries_timeout_answered_500 (env : Env) (w : World)
    (e : js_error) (rates : value) :
  axios_countries env = Throw e ->
  is_string (err_code e) "ECONNABORTED" = true ->
  fetchExchangeRates (axios_rates env) = Ok rates ->
  refreshCountries' env w
  = (Next (Error "Countries API request timed out"), w)
  /\ respond (Next (Error "Countries API request timed out"))
     = mkResponse 500 (VObj {[ "error" := VStr "Internal server error" ]}).
Proof.
  intros Hcountries Hcode Hrates. split; [|reflexivity].
  unfold refreshCountries, refresh, mbind, ST_bind, st_bind.
  unfold st_lift at 1. rewrite Hrates, Hcountries.
  unfold fetchCountries, try_catch. now rewrite Hcode.
Qed.

(** C8, as the code has it: when the refresh would succeed but writing the
    summary image fails, the handler passes the image error on instead of
    reporting success; the database is the one the successful refresh
    leaves (batch committed, metadata updated) and no image is written. *)
Theorem render_failure_forwarded (env : Env) (w w1 : World) (body : value)
    (e : js_error) :
  refreshCountries' (with_render_fault env None) w = (Json body, w1) ->
  refreshCountries' (with_render_fault env (Some e)) w
  = (Next e, mkWorld (database w1) (draws w1) (summary_png w)).
Proof.
  unfold refreshCountries, refresh, mbind, ST_bind, st_bind.
  cbn [with_render_fault axios_countries axios_rates rates_reject_first faults].
  match goal with
  | |- context [st_lift ?m ?x] =>
      destruct (st_lift m x) as [[[cs rs]|?] ?] eqn:Hfetch; [|discriminate]
  end.
  apply st_lift_png in Hfetch.
  repeat match goal with
         | |- context [st_lift ?m ?x] =>
             let H := fresh "Hstep" in
             destruct (st_lift m x) as [[?|?] ?] eqn:H; [|discriminate];
             apply st_lift_png in H
         | |- context [io_random ?m ?x] =>
             let H := fresh "Hstep" in
             destruct (io_random m x) as [[?|?] ?] eqn:H; [|discriminate];
             apply io_random_png in H
         | |- context [io_db ?m ?x] =>
             let H := fresh "Hstep" in
             destruct (io_db m x) as [[?|?] ?] eqn:H; [|discriminate];
             apply io_db_png in H
         end.
  unfold generateSummaryImage. cbn.
  intros [= _ <-]. cbn. f_equal.
  match goal with |- ?x = _ => destruct x as [db n png] end. cbn in *.
  f_equal. congruence.
Qed.

End ControllerProperties.

Lemma fetch_failure_no_persistence_witness :
  exists error,
    refreshCountries unparsed unprinted (draws_of 0) collate_binary unordered
      countries_down_env sample_world = (Next error, sample_world)
    /\ (fetchCountries (axios_countries countries_down_env) = Throw error
        \/ fetchExchangeRates (axios_rates countries_down_env) = Throw error).
Proof.
  apply (fetch_failure_no_persistence unparsed unprinted (draws_of 0)
           collate_binary unordered countries_down_env sample_world).
  left. eexists. vm_compute. reflexivity.
Defined.

Lemma countries_timeout_answered_500_witness :
  refreshCountries unparsed unprinted (draws_of 0) collate_binary unordered
    countries_timeout_env sample_world
  = (Next (Error "Countries API request timed out"), sample_world)
  /\ respond (Next (Error "Countries API request timed out"))
     = mkResponse 500 (VObj {[ "error" := VStr "Internal server error" ]}).
Proof.
  apply (countries_timeout_answered_500 unparsed unprinted (draws_of 0)
           collate_binary unordered countries_timeout_env sample_world
           timeout_error (VObj sample_rates)).
  - reflexivity.
  - reflexivity.
  - vm_compute. reflexivity.
Defined.

(** A timeout of the exchange-rate request is answered with 500 as well. *)
Example rates_timeout_answered_500 :
  refreshCountries unparsed unprinted (draws_of 0) collate_binary unordered
    rates_timeout_env sample_world
  = (Next (Error "Exchange Rate API request timed out"), sample_world)
  /\ respond (Next (Error "Exchange Rate API request timed out"))
     = mkResponse 500 (VObj {[ "error" := VStr "Internal server error" ]}).
Proof. split; vm_compute; reflexivity. Qed.

(** A refresh in which nothing fails answers 200 with the size of the batch
    and the time of the metadata update. *)
Example refresh_succeeds :
  respond (fst (refreshCountries unparsed unprinted (draws_of 0) collate_binary
                  unordered healthy_env sample_world))
  = mkResponse 200
      (object [ ("message", VStr "Countries data refreshed successfully");
                ("countries_processed", VNum (Fin 2));
                ("last_refreshed_at", VNum (Fin 100)) ]).
Proof. vm_compute; reflexivity. Qed.

(** The same request failing for another reason than a timeout is answered
    with 503. *)
Lemma countries_down_answered_503 :
  respond (fst (refreshCountries unparsed unprinted (draws_of 0) collate_binary
                  unordered countries_down_env sample_world))
  = mkResponse 503
      (VObj (<[ "details" := VStr "Could not fetch data from Countries API: getaddrinfo ENOTFOUND restcountries.com" ]>
               {[ "error" := VStr "External data source unavailable" ]})).
Proof. vm_compute. reflexivity. Qed.

Lemma render_failure_forwarded_witness :
  exists body w1,
    refreshCountries unparsed unprinted (draws_of 0) collate_binary unordered
      (with_render_fault healthy_env None) sample_world = (Json body, w1)
    /\ refreshCountries unparsed unprinted (draws_of 0) collate_binary unordered
         (with_render_fault healthy_env (Some disk_full)) sample_world
       = (Next disk_full,
          mkWorld (database w1) (draws w1) (summary_png sample_world)).
Proof.
  eexists _, _. split.
  - vm_compute. reflexivity.
  - eapply (render_failure_forwarded unparsed unprinted (draws_of 0)
              collate_binary unordered healthy_env sample_world).
    vm_compute. reflexivity.
Defined.

(** C8 fails on the code: the two fetches succeed, the batch of two is
    committed next to the stale row and the metadata is updated to three
    countries at time 100, and then writing the image fails.  The handler
    does not report success; the client is answered with 500. *)
Lemma render_failure_is_an_error :
  exists w',
    refreshCountries unparsed unprinted (draws_of 0) collate_binary unordered
      (with_render_fault healthy_env (Some disk_full)) sample_world
    = (Next disk_full, w')
    /\ length (countries (tables (database w'))) = 3%nat
    /\ refresh_metadata (tables (database w')) = [mkMetadataRow 1 100 3]
    /\ respond (Next disk_full)
       = mkResponse 500 (VObj {[ "error" := VStr "Internal server error" ]}).
Proof.
  eexists. split; [vm_compute; reflexivity|].
  split; [reflexivity|]. split; reflexivity.
Qed.

(** * Further properties *)

(** ** The data processor *)

Section ProcessorFurther.

Variable StringToNumber : string -> number.
Variable Number_toString : number -> string.
Variable random : nat -> Q.

Local Abbreviation processCountry' :=
  (processCountry StringToNumber Number_toString random).
Local Abbreviation processCountryData' :=
  (processCountryData StringToNumber Number_toString random).

Lemma calculateEstimatedGDP_draws (population exchangeRate : value)
    (s s' : nat) (r : outcome value) :
  calculateEstimatedGDP StringToNumber Number_toString random
    population exchangeRate s = (r, s') ->
  s' = s \/ s' = S s.
Proof.
  intros Hrun.
  destruct (calculateEstimatedGDP_cases StringToNumber Number_toString random
              population exchangeRate s)
    as [[_ Hc] | (_ & _ & [[_ Hc] | (p & r' & _ & _ & Hc)])];
    rewrite Hc in Hrun; injection Hrun as _ <-; auto.
Qed.

Lemma processCountry_draws (exchangeRates : gmap string value)
    (country : value) (s s' : nat) (r : outcome CountryDraft) :
  processCountry' exchangeRates country s = (r, s') -> s' = s \/ s' = S s.
Proof.
  intros Hrun.
  destruct (processCountry_cases StringToNumber Number_toString random
              exchangeRates country s)
    as [e Hfirst | code Hfirst Hfalsy | code Hfirst Htruthy Hc
        | code Hfirst Htruthy Hc Hrate
        | code r' s1 Hfirst Htruthy Hc Hrate Hg];
    injection Hrun as _ <-; auto.
  eapply calculateEstimatedGDP_draws; eauto.
Qed.

(** X1: the processor draws at most one random number per record, whether it
    returns or throws, and never gives a draw back. *)
Theorem draws_at_most_one_per_record (countries : list value)
    (exchangeRates : gmap string value) (s s' : nat)
    (r : outcome (list CountryDraft)) :
  processCountryData' countries exchangeRates s = (r, s') ->
  (s <= s' <= s + length countries)%nat.
Proof.
  unfold processCountryData. revert s s' r.
  induction countries as [|country rest IH]; intros s s' r Hrun; cbn in Hrun.
  - injection Hrun as _ <-. cbn. lia.
  - unfold_st in Hrun.
    destruct (processCountry' exchangeRates country s) as [[d|e] s0] eqn:Hhead.
    + apply processCountry_draws in Hhead.
      fold (@map_M nat value CountryDraft) in Hrun.
      destruct (map_M (processCountry' exchangeRates) rest s0)
        as [[ds|e] s1] eqn:Htail;
        apply IH in Htail; injection Hrun as _ <-; cbn; lia.
    + apply processCountry_draws in Hhead. injection Hrun as _ <-. cbn. lia.
Qed.

Lemma first_currency_code_null (country code : value) :
  first_currency_code country = Ok code -> truthy code = false -> code = VNull.
Proof.
  unfold first_currency_code, extractCurrencyCode.
  destruct (get country "currencies") as [currencies|]; [|discriminate].
  destruct (negb (truthy currencies) || negb (Array_isArray currencies)
            || (length (elements currencies) =? 0)%nat).
  - congruence.
  - destruct (get _ "code") as [c|]; [|discriminate].
    intros [= <-]. unfold js_or.
    destruct (truthy c) eqn:Hc; [congruence|reflexivity].
Qed.

Lemma draft_of_shape (exchangeRates : gmap string value) (country : value)
    (s s' : nat) (d : CountryDraft) :
  processCountry' exchangeRates country s = (Ok d, s') -> draft_shape d.
Proof.
  intros Hrun.
  destruct (processCountry_cases StringToNumber Number_toString random
              exchangeRates country s)
    as [e Hfirst | code Hfirst Hfalsy | code Hfirst Htruthy Hc
        | code Hfirst Htruthy Hc Hrate
        | code r s1 Hfirst Htruthy Hc Hrate Hg];
    try discriminate; unfold draft_shape.
  - injection Hrun as <- _. cbn. left.
    rewrite (first_currency_code_null _ _ Hfirst Hfalsy). auto.
  - injection Hrun as <- _. cbn. right. left. auto.
  - destruct r as [g|e]; [|discriminate]. injection Hrun as <- _. cbn.
    right. right. split; [exact Htruthy|]. split; [exact Hrate|].
    destruct (calculateEstimatedGDP_cases StringToNumber Number_toString random
                (field country "population")
                (looked_up Number_toString exchangeRates code) s)
      as [[Hguard Hc'] | (Hpop & _ & [[_ Hc'] | (p & r' & _ & _ & Hc')])];
      rewrite Hc' in Hg; try discriminate; injection Hg as <- _.
    + left. rewrite Hrate, andb_true_r in Hguard.
      now rewrite (js_or_falsy _ _ Hguard).
    + right. rewrite (js_or_truthy _ _ Hpop). eauto.
Qed.

(** X2: every draft the processor returns has one of three shapes: code null,
    rate null, estimate 0; a truthy code, rate null, estimate null; a truthy
    code, a truthy rate (whatever the rate table, or Object.prototype, holds
    under the code), and either population 0 with estimate null or a truthy
    population with a number as estimate (NaN and the infinities
    included). *)
Theorem drafts_have_shape (countries : list value)
    (exchangeRates : gmap string value) (s s' : nat)
    (drafts : list CountryDraft) :
  processCountryData' countries exchangeRates s = (Ok drafts, s') ->
  Forall draft_shape drafts.
Proof.
  intros Hrun. apply Forall_lookup_2. intros i d Hd.
  pose proof (map_M_length _ _ _ _ _ Hrun) as Hlen.
  destruct (lookup_lt_is_Some_2 countries i) as [country Hi].
  { rewrite <- Hlen. eapply lookup_lt_Some; eauto. }
  destruct (map_M_lookup _ _ _ _ _ _ _ Hrun Hi) as (d' & si & si' & Hcall & Hd').
  rewrite Hd in Hd'. injection Hd' as <-.
  eapply draft_of_shape; eauto.
Qed.

(** X3: whenever the processor returns, it returns one draft per record, in the
    order of the records, each with the name of its record (the empty string
    when the record has none). *)
Theorem one_draft_per_record (countries : list value)
    (exchangeRates : gmap string value) (s s' : nat)
    (drafts : list CountryDraft) :
  processCountryData' countries exchangeRates s = (Ok drafts, s') ->
  length drafts = length countries
  /\ forall i country,
       countries !! i = Some country ->
       exists d, drafts !! i = Some d
                 /\ name d = js_or (field country "name") (VStr "").
Proof.
  intros Hrun. split; [eapply map_M_length; eauto|].
  intros i country Hi.
  destruct (map_M_lookup _ _ _ _ _ _ _ Hrun Hi) as (d & si & si' & Hcall & Hd).
  exists d. split; [exact Hd|].
  destruct (processCountry_cases StringToNumber Number_toString random
              exchangeRates country si)
    as [e Hfirst | code Hfirst Hfalsy | code Hfirst Htruthy Hc
        | code Hfirst Htruthy Hc Hrate
        | code r s1 Hfirst Htruthy Hc Hrate Hg];
    try discriminate; try (injection Hcall as <- _; reflexivity).
  destruct r; [|discriminate]. injection Hcall as <- _. reflexivity.
Qed.

End ProcessorFurther.

Section TwoRefreshes.

Variable StringToNumber : string -> number.
Variable Number_toString : number -> string.
Variable random1 random2 : nat -> Q.

Local Abbreviation run1 :=
  (processCountry StringToNumber Number_toString random1).
Local Abbreviation run2 :=
  (processCountry StringToNumber Number_toString random2).

Lemma same_but_estimate_draft_of (country code rate g1 g2 : value) :
  (g1 = VNull <-> g2 = VNull) ->
  same_but_estimate (draft_of country code rate g1)
                    (draft_of country code rate g2).
Proof. intros Hnull. unfold same_but_estimate. cbn. tauto. Qed.

Lemma processCountry_two_runs (exchangeRates : gmap string value)
    (country : value) (s1 s2 : nat) :
  match fst (run1 exchangeRates country s1),
        fst (run2 exchangeRates country s2) with
  | Ok d1, Ok d2 => same_but_estimate d1 d2
  | Throw e1, Throw e2 => e1 = e2
  | _, _ => False
  end.
Proof.
  destruct (processCountry_cases StringToNumber Number_toString random1
              exchangeRates country s1)
    as [e Hfirst | code Hfirst Hfalsy | code Hfirst Htruthy Hc
        | code Hfirst Htruthy Hc Hrate
        | code r1 t1 Hfirst Htruthy Hc Hrate Hg1];
    destruct (processCountry_cases StringToNumber Number_toString random2
                exchangeRates country s2)
      as [e' Hfirst' | code' Hfirst' Hfalsy' | code' Hfirst' Htruthy' Hc'
          | code' Hfirst' Htruthy' Hc' Hrate'
          | code' r2 t2 Hfirst' Htruthy' Hc' Hrate' Hg2];
    rewrite Hfirst in Hfirst'; try discriminate;
    injection Hfirst' as <-; cbn [fst]; try congruence;
    try (now apply same_but_estimate_draft_of).
  destruct (calculateEstimatedGDP_cases StringToNumber Number_toString random1
              (field country "population")
              (looked_up Number_toString exchangeRates code) s1)
    as [[Hguard1 Hc1] | (Hpop1 & _ & [[Hconv1 Hc1] | (p1 & q1 & Hp1 & Hq1 & Hc1)])];
    destruct (calculateEstimatedGDP_cases StringToNumber Number_toString random2
                (field country "population")
                (looked_up Number_toString exchangeRates code) s2)
      as [[Hguard2 Hc2] | (Hpop2 & _ & [[Hconv2 Hc2] | (p2 & q2 & Hp2 & Hq2 & Hc2)])];
    rewrite Hc1 in Hg1; rewrite Hc2 in Hg2;
    injection Hg1 as <- _; injection Hg2 as <- _;
    try reflexivity;
    try (rewrite ?Hpop1, ?Hpop2, Hrate in *; discriminate);
    try (apply same_but_estimate_draft_of; split; congruence).
  - rewrite (ToNumber_convertible _ _ _ _ Hp2),
            (ToNumber_convertible _ _ _ _ Hq2) in Hconv1.
    discriminate.
  - rewrite (ToNumber_convertible _ _ _ _ Hp1),
            (ToNumber_convertible _ _ _ _ Hq1) in Hconv2.
    discriminate.
Qed.

(** X4: two refreshes of the same fetched data, whatever the random numbers
    drawn, fail alike or return drafts that agree pairwise on every field
    but the estimate and on which estimates are null. *)
Theorem two_refreshes_agree (countries : list value)
    (exchangeRates : gmap string value) (s1 s2 : nat) :
  runs_agree
    (fst (processCountryData StringToNumber Number_toString random1
            countries exchangeRates s1))
    (fst (processCountryData StringToNumber Number_toString random2
            countries exchangeRates s2)).
Proof.
  unfold processCountryData. revert s1 s2.
  induction countries as [|country rest IH]; intros s1 s2; cbn.
  - constructor.
  - unfold_st.
    pose proof (processCountry_two_runs exchangeRates country s1 s2) as Hhead.
    destruct (run1 exchangeRates country s1) as [[d1|e1] t1];
      destruct (run2 exchangeRates country s2) as [[d2|e2] t2];
      cbn in Hhead; try contradiction; [|exact Hhead].
    fold (@map_M nat value CountryDraft).
    specialize (IH t1 t2).
    destruct (map_M (run1 exchangeRates) rest t1) as [[ds1|e1] u1];
      destruct (map_M (run2 exchangeRates) rest t2) as [[ds2|e2] u2];
      cbn in IH |- *; try contradiction; [|exact IH].
    now constructor.
Qed.

End TwoRefreshes.

Section FirstCurrencyOnly.

Variable StringToNumber : string -> number.
Variable Number_toString : number -> string.
Variable random : nat -> Q.

Lemma map_M_replace {S A B} (f : A -> ST S B) (x1 x2 : A) :
  (forall s, f x1 s = f x2 s) ->
  forall (before after : list A) (s : S),
    map_M f (before ++ x1 :: after) s = map_M f (before ++ x2 :: after) s.
Proof.
  intros Hsame before after.
  induction before as [|x0 before IH]; intros s; cbn; unfold_st.
  - now rewrite Hsame.
  - destruct (f x0 s) as [[y0|e] s0]; [|reflexivity].
    fold (@map_M S A B). now rewrite IH.
Qed.

(** X5: only the first entry of a record's currencies counts: dropping the later
    entries of any record of the batch changes nothing in what the processor
    returns. *)
Theorem later_currencies_ignored (before after : list value)
    (o : gmap string value) (first : value) (rest : list value)
    (exchangeRates : gmap string value) (s : nat) :
  processCountryData StringToNumber Number_toString random
    (before ++ VObj (<[ "currencies" := VArr (first :: rest) ]> o) :: after)
    exchangeRates s
  = processCountryData StringToNumber Number_toString random
      (before ++ VObj (<[ "currencies" := VArr [first] ]> o) :: after)
      exchangeRates s.
Proof.
  unfold processCountryData. apply map_M_replace. clear s. intros s.
  unfold processCountry. unfold_st. cbn [get].
  rewrite !lookup_insert_eq. cbn [default].
  rewrite !lookup_insert_ne by discriminate.
  reflexivity.
Qed.

End FirstCurrencyOnly.

(** ** The store *)

Section StoreFurther.

Variable collate : value -> string.
Variable lower_equal : value -> value -> bool.
Variable parseFloat : value -> value.

Local Abbreviation same_name' := (same_name collate).
Local Abbreviation key row := (collate (name (row_data row))).
Local Open Scope list_scope.

Lemma on_duplicate_key_update_Some (now : nat) (country : CountryDraft)
    (rows rows' : list CountryRow) :
  on_duplicate_key_update collate now country rows = Some rows' ->
  exists before r after,
    rows = before ++ r :: after
    /\ Forall (fun row => same_name' (row_data row) country = false) before
    /\ same_name' (row_data r) country = true
    /\ rows' = before ++ overwritten now country r :: after.
Proof.
  revert rows'. induction rows as [|r0 rest IH]; intros rows' Hrun; cbn in Hrun.
  - discriminate.
  - destruct (same_name' (row_data r0) country) eqn:Hsame.
    + injection Hrun as <-. exists [], r0, rest. repeat split; auto.
    + destruct (on_duplicate_key_update collate now country rest)
        as [rest'|] eqn:Hrest; [|discriminate].
      injection Hrun as <-.
      destruct (IH _ eq_refl) as (before & r & after & -> & Hbefore & Hr & ->).
      exists (r0 :: before), r, after. repeat split; auto.
Qed.

Lemma on_duplicate_key_update_None (now : nat) (country : CountryDraft)
    (rows : list CountryRow) :
  on_duplicate_key_update collate now country rows = None ->
  Forall (fun row => same_name' (row_data row) country = false) rows.
Proof.
  induction rows as [|r0 rest IH]; intros Hrun; cbn in Hrun; [constructor|].
  destruct (same_name' (row_data r0) country) eqn:Hsame; [discriminate|].
  destruct (on_duplicate_key_update collate now country rest); [discriminate|].
  constructor; auto.
Qed.

Lemma filter_none {A} (P : A -> Prop) `{forall x, Decision (P x)} (l : list A) :
  Forall (fun x => ~ P x) l -> filter P l = [].
Proof.
  induction 1 as [|x l Hx _ IH]; [reflexivity|].
  rewrite filter_cons_False by exact Hx. exact IH.
Qed.


Lemma insert_country_rows (country : CountryDraft) (db : Database) :
  insert_country collate country db
  = (Ok tt,
     mkDatabase
       (mkTables (inserted collate (NOW db) (auto_increment db) country
                    (countries (tables db)))
                 (refresh_metadata (tables db)))
       (transaction db) (S (auto_increment db)) (NOW db)).
Proof. reflexivity. Qed.

(** The server compares names without regard to case, in the unique index
    as in [LOWER(name) = LOWER(?)]. *)
Hypothesis case_insensitive :
  forall a b, lower_equal a b = String.eqb (collate a) (collate b).


Lemma filter_all {A} (P : A -> Prop) `{forall x, Decision (P x)} (l : list A) :
  Forall P l -> filter P l = l.
Proof.
  induction 1 as [|x l Hx _ IH]; [reflexivity|].
  rewrite filter_cons_True by exact Hx. now rewrite IH.
Qed.

(** X7: deleting by name removes exactly the rows of that name and reports
    whether there was one; afterwards a lookup by the same name finds
    nothing, and when nothing was deleted the tables are untouched. *)
Theorem delete_then_lookup (wanted : value) (db : Database) :
  exists deleted db',
    deleteCountryByName lower_equal None wanted db = (Ok deleted, db')
    /\ (deleted = true
        <-> Exists (fun row => name_matches lower_equal wanted row = true)
                   (countries (tables db)))
    /\ countries (tables db')
       = filter (fun row => name_matches lower_equal wanted row = false)
                (countries (tables db))
    /\ refresh_metadata (tables db') = refresh_metadata (tables db)
    /\ (deleted = false -> tables db' = tables db)
    /\ getCountryByName lower_equal parseFloat None wanted db'
       = (Ok VNull, db').
Proof.
  exists (0 <? length (filter (fun row =>
                         name_matches lower_equal wanted row = true)
                       (countries (tables db))))%nat.
  exists (mkDatabase
            (mkTables (filter (fun row =>
                                 name_matches lower_equal wanted row = false)
                              (countries (tables db)))
                      (refresh_metadata (tables db)))
            (transaction db) (auto_increment db) (NOW db)).
  split; [reflexivity|]. cbn [tables countries refresh_metadata].
  set (rows := countries (tables db)).
  assert (Hnone : (0 <? length (filter (fun row =>
                      name_matches lower_equal wanted row = true) rows))%nat
                  = false ->
                  Forall (fun row => name_matches lower_equal wanted row = false)
                         rows).
  { intros Hzero. apply Nat.ltb_ge in Hzero.
    apply Forall_forall. intros row Hin.
    destruct (name_matches lower_equal wanted row) eqn:Hrow; [|reflexivity].
    assert (Hfiltered : row ∈ filter (fun row =>
                          name_matches lower_equal wanted row = true) rows).
    { apply list_elem_of_filter. auto. }
    destruct (filter _ rows); [inversion Hfiltered|cbn in Hzero; lia]. }
  split; [|split; [reflexivity|split; [reflexivity|split]]].
  - split.
    + intros Hpos. apply Nat.ltb_lt in Hpos.
      destruct (filter _ rows) as [|row rest] eqn:Hfilter; [cbn in Hpos; lia|].
      assert (Hin : row ∈ filter (fun row =>
                      name_matches lower_equal wanted row = true) rows).
      { rewrite Hfilter. left. }
      apply list_elem_of_filter in Hin as [Hrow Hin].
      apply Exists_exists. eauto.
    + intros Hex. apply Exists_exists in Hex as (row & Hin & Hrow).
      apply not_false_is_true. intros Hzero.
      specialize (Hnone Hzero). rewrite Forall_forall in Hnone.
      specialize (Hnone row Hin). congruence.
  - intros Hzero. specialize (Hnone Hzero).
    destruct db as [[rows0 meta] txn next now]. cbn in *.
    now rewrite (filter_all _ rows0 Hnone).
  - unfold getCountryByName, guarded. unfold_st. unfold read_db. cbn.
    rewrite filter_none; [reflexivity|].
    apply Forall_forall. intros row Hin.
    apply list_elem_of_filter in Hin as [Hrow _]. congruence.
Qed.

Section Invariants.

Variable P : list CountryRow -> Prop.
Hypothesis insert_keeps :
  forall now next_id country rows,
    P rows -> P (inserted collate now next_id country rows).
Variable faults : Faults.

Lemma connection_query_keeps (country : CountryDraft) (db : Database) :
  P (countries (tables db)) ->
  P (countries (tables (snd (connection_query collate faults country db)))).
Proof.
  intros HP. unfold connection_query, guarded.
  destruct (insert_fault faults (countries (tables db)) country);
    [exact HP|].
  rewrite insert_country_rows. cbn. now apply insert_keeps.
Qed.

Lemma for_of_keeps (batch : list CountryDraft) :
  forall db,
    P (countries (tables db)) ->
    P (countries (tables (snd (for_of batch (connection_query collate faults)
                                 db)))).
Proof.
  induction batch as [|country rest IH]; intros db HP; cbn; [exact HP|].
  unfold_st.
  pose proof (connection_query_keeps country db HP) as Hhead.
  destruct (connection_query collate faults country db) as [[[]|e] db0];
    cbn in Hhead |- *; [|exact Hhead].
  fold (@for_of Database CountryDraft). now apply IH.
Qed.

Lemma bulkUpsertCountries_keeps (batch : list CountryDraft) (db : Database) :
  transaction db = None ->
  P (countries (tables db)) ->
  P (countries (tables (snd (bulkUpsertCountries collate faults batch db)))).
Proof.
  intros Hfresh HP. unfold bulkUpsertCountries, guarded. unfold_st.
  destruct (getConnection_fault faults) as [e0|]; cbn; [exact HP|].
  unfold st_try_catch, st_bind, st_throw, rollback.
  destruct (beginTransaction_fault faults) as [e1|]; cbn.
  { now rewrite Hfresh. }
  set (db1 := mkDatabase (tables db) (Some (tables db)) (auto_increment db)
                         (NOW db)).
  pose proof (for_of_transaction collate faults batch db1) as Htxn.
  pose proof (for_of_keeps batch db1 HP) as Hrows.
  destruct (for_of batch (connection_query collate faults) db1)
    as [[[]|e2] db2]; cbn in Htxn, Hrows |- *.
  - destruct (commit_fault faults) as [e3|]; cbn; [|exact Hrows].
    now rewrite Htxn.
  - now rewrite Htxn.
Qed.

End Invariants.

Lemma inserted_keys (now next_id : nat) (country : CountryDraft)
    (rows updated : list CountryRow) :
  on_duplicate_key_update collate now country rows = Some updated ->
  map (fun row => key row) updated = map (fun row => key row) rows.
Proof.
  intros Hupdate.
  destruct (on_duplicate_key_update_Some _ _ _ _ Hupdate)
    as (before & r & after & -> & _ & _ & ->).
  rewrite !map_app. reflexivity.
Qed.

(** X8: the names in the table stay unique under the collation through a bulk
    upsert, whatever the batch and whatever fails. *)
Theorem bulkUpsert_keeps_names_unique (faults : Faults)
    (batch : list CountryDraft) (db : Database) :
  transaction db = None ->
  NoDup (map (fun row => key row) (countries (tables db))) ->
  NoDup (map (fun row => key row)
           (countries (tables (snd (bulkUpsertCountries collate faults batch
                                      db))))).
Proof.
  apply (bulkUpsertCountries_keeps
           (fun rows => NoDup (map (fun row => key row) rows))).
  intros now next_id country rows Hunique. unfold inserted.
  destruct (on_duplicate_key_update collate now country rows)
    as [updated|] eqn:Hupdate.
  - now rewrite (inserted_keys _ next_id _ _ _ Hupdate).
  - rewrite map_app. cbn. apply NoDup_app. split; [exact Hunique|].
    split; [|apply NoDup_singleton].
    intros k Hk Hnew. apply list_elem_of_singleton in Hnew. subst k.
    apply list_elem_of_fmap in Hk as (row & Hkey & Hin).
    pose proof (on_duplicate_key_update_None _ _ _ Hupdate) as Hnone.
    rewrite Forall_forall in Hnone. specialize (Hnone row Hin).
    unfold same_name in Hnone. apply String.eqb_neq in Hnone. congruence.
Qed.

Lemma rows_kept_refl (rows : list CountryRow) : rows_kept rows rows.
Proof. intros i r Hi. eauto. Qed.

Lemma rows_kept_inserted (now next_id : nat) (country : CountryDraft)
    (rows0 rows : list CountryRow) :
  rows_kept rows0 rows ->
  rows_kept rows0 (inserted collate now next_id country rows).
Proof.
  intros Hkept i r0 Hi.
  destruct (Hkept i r0 Hi) as (r & Hr & Hid & Hname & Hcreated).
  unfold inserted.
  destruct (on_duplicate_key_update collate now country rows)
    as [updated|] eqn:Hupdate.
  - destruct (on_duplicate_key_update_Some _ _ _ _ Hupdate)
      as (before & r1 & after & -> & _ & _ & ->).
    destruct (decide (i = length before)) as [->|Hne].
    + rewrite list_lookup_middle in Hr by reflexivity. injection Hr as <-.
      exists (overwritten now country r1).
      rewrite list_lookup_middle by reflexivity. auto.
    + exists r. split; [|auto].
      destruct (decide (i < length before)%nat).
      * rewrite lookup_app_l in Hr |- * by assumption. exact Hr.
      * rewrite lookup_app_r in Hr |- * by lia.
        destruct (i - length before)%nat as [|j] eqn:Hj; [lia|exact Hr].
  - exists r. split; [|auto]. apply lookup_app_l_Some. exact Hr.
Qed.

(** X9: a bulk upsert never removes a row: every row of the table is still
    there afterwards, at its place, with its id, its name and its creation
    time, whatever the batch and whatever fails. *)
Theorem bulkUpsert_keeps_rows (faults : Faults) (batch : list CountryDraft)
    (db : Database) :
  transaction db = None ->
  rows_kept (countries (tables db))
    (countries (tables (snd (bulkUpsertCountries collate faults batch db)))).
Proof.
  intros Hfresh.
  apply (bulkUpsertCountries_keeps (rows_kept (countries (tables db))));
    [|exact Hfresh|apply rows_kept_refl].
  intros now next_id country rows. apply rows_kept_inserted.
Qed.

End StoreFurther.

(** ** The refresh metadata *)

Lemma updateRefreshMetadata_run (faults : Faults) (db : Database) :
  count_fault faults = None ->
  update_metadata_fault faults = None ->
  updateRefreshMetadata faults db
  = (Ok tt,
     mkDatabase
       (mkTables (countries (tables db))
          (map (fun m => if (meta_id m =? 1)%nat
                         then mkMetadataRow (meta_id m) (NOW db)
                                (length (countries (tables db)))
                         else m)
               (refresh_metadata (tables db))))
       (transaction db) (auto_increment db) (NOW db)).
Proof.
  intros Hcount Hupdate. unfold updateRefreshMetadata, guarded. unfold_st.
  now rewrite Hcount, Hupdate.
Qed.

Lemma updated_metadata_row (now total : nat) (metas : list MetadataRow) :
  Exists (fun m => meta_id m = 1%nat) metas ->
  exists tail,
    filter (fun m => meta_id m = 1%nat)
      (map (fun m => if (meta_id m =? 1)%nat
                     then mkMetadataRow (meta_id m) now total
                     else m) metas)
    = mkMetadataRow 1 now total :: tail.
Proof.
  induction 1 as [m rest Hm|m rest _ IH]; cbn [map].
  - rewrite Hm. cbn [Nat.eqb]. rewrite filter_cons_True by reflexivity. eauto.
  - destruct (meta_id m =? 1)%nat eqn:Hm.
    + apply Nat.eqb_eq in Hm. rewrite Hm.
      rewrite filter_cons_True by reflexivity. eauto.
    + apply Nat.eqb_neq in Hm. rewrite filter_cons_False by exact Hm.
      exact IH.
Qed.

(** X10: when the metadata table has its row 1, an update followed by a read
    gives the number of rows of the countries table and the time of the
    update. *)
Theorem metadata_update_then_read (faults : Faults) (db : Database) :
  count_fault faults = None ->
  update_metadata_fault faults = None ->
  select_metadata_fault faults = None ->
  Exists (fun m => meta_id m = 1%nat) (refresh_metadata (tables db)) ->
  exists db1,
    updateRefreshMetadata faults db = (Ok tt, db1)
    /\ countries (tables db1) = countries (tables db)
    /\ getRefreshMetadata faults db1
       = (Ok (mkMetadata (length (countries (tables db))) (Some (NOW db))),
          db1).
Proof.
  intros Hcount Hupdate Hselect Hrow.
  rewrite (updateRefreshMetadata_run faults db Hcount Hupdate).
  eexists. split; [reflexivity|]. split; [reflexivity|].
  unfold getRefreshMetadata, guarded. unfold_st. rewrite Hselect.
  unfold read_db. cbn [tables refresh_metadata].
  destruct (updated_metadata_row (NOW db) (length (countries (tables db)))
              _ Hrow) as (tail & ->).
  reflexivity.
Qed.

(** X11: when the metadata table has no row 1, the update changes nothing and
    the read answers 0 countries and no refresh time, however many rows the
    countries table has. *)
Theorem metadata_without_row (faults : Faults) (db : Database) :
  count_fault faults = None ->
  update_metadata_fault faults = None ->
  select_metadata_fault faults = None ->
  Forall (fun m => meta_id m <> 1%nat) (refresh_metadata (tables db)) ->
  exists db1,
    updateRefreshMetadata faults db = (Ok tt, db1)
    /\ tables db1 = tables db
    /\ getRefreshMetadata faults db1 = (Ok (mkMetadata 0 None), db1).
Proof.
  intros Hcount Hupdate Hselect Hrows.
  rewrite (updateRefreshMetadata_run faults db Hcount Hupdate).
  assert (Hsame : map (fun m => if (meta_id m =? 1)%nat
                         then mkMetadataRow (meta_id m) (NOW db)
                                (length (countries (tables db)))
                         else m)
                      (refresh_metadata (tables db))
                  = refresh_metadata (tables db)).
  { induction Hrows as [|m rest Hm _ IH]; [reflexivity|]. cbn.
    apply Nat.eqb_neq in Hm. now rewrite Hm, IH. }
  rewrite Hsame. eexists. split; [reflexivity|].
  split; [now destruct db as [[rows meta] txn next now]|].
  unfold getRefreshMetadata, guarded. unfold_st. rewrite Hselect.
  unfold read_db. cbn.
  rewrite (filter_none (fun m => meta_id m = 1%nat) _ Hrows). reflexivity.
Qed.

(** ** The top countries *)

Section TopCountries.

Variable order_by : string -> list CountryRow -> list CountryRow.

(** ORDER BY only reorders. *)
Hypothesis order_by_rows :
  forall clause rows row, row ∈ order_by clause rows -> row ∈ rows.

(** X12: the top countries are at most [limit] rows of the table, each with an
    estimate that is not null; the query changes nothing. *)
Theorem top_countries_have_estimates (faults : Faults) (limit : nat)
    (db db' : Database) (top : list CountryRow) :
  getTopCountriesByGDP order_by faults limit db = (Ok top, db') ->
  db' = db
  /\ length top <= limit
  /\ Forall (fun row => row ∈ countries (tables db)
                        /\ is_not_null (estimated_gdp (row_data row)) = true)
            top.
Proof.
  unfold getTopCountriesByGDP, guarded. unfold_st.
  destruct (select_top_fault faults); [discriminate|].
  unfold read_db. cbn. intros [= <- <-].
  split; [reflexivity|]. split; [rewrite length_take; lia|].
  apply Forall_forall. intros row Hin.
  apply subseteq_take in Hin. apply order_by_rows in Hin.
  apply list_elem_of_filter in Hin as [Hgdp Hin]. auto.
Qed.

End TopCountries.

(** ** Creating the tables *)

Lemma createTables_run (db : Database) :
  createTables no_schema_faults db
  = (Ok tt,
     if (length (refresh_metadata (tables db)) =? 0)%nat
     then mkDatabase
            (mkTables (countries (tables db))
                      (refresh_metadata (tables db)
                       ++ [mkMetadataRow 1 (NOW db) 0])%list)
            (transaction db) (auto_increment db) (NOW db)
     else db).
Proof.
  unfold createTables, st_try_catch, guarded. unfold_st. unfold read_db. cbn.
  destruct (length (refresh_metadata (tables db)) =? 0)%nat; reflexivity.
Qed.

(** X13: creating the tables twice is creating them once: the metadata row is
    inserted only when the metadata table is empty, and the countries table
    is never touched. *)
Theorem createTables_idempotent (db : Database) :
  exists db1,
    createTables no_schema_faults db = (Ok tt, db1)
    /\ createTables no_schema_faults db1 = (Ok tt, db1)
    /\ countries (tables db1) = countries (tables db)
    /\ refresh_metadata (tables db1) <> [].
Proof.
  rewrite createTables_run. eexists. split; [reflexivity|].
  rewrite createTables_run.
  destruct (refresh_metadata (tables db)) as [|m rest] eqn:Hmeta; cbn.
  - repeat split. discriminate.
  - rewrite Hmeta. cbn. repeat split. congruence.
Qed.

(** X14: on a database whose metadata table is empty, creating the tables makes
    the status readable at once: 0 countries, and as refresh time the time
    of creation rather than null. *)
Theorem status_after_creation (faults : Faults) (db : Database) :
  refresh_metadata (tables db) = [] ->
  select_metadata_fault faults = None ->
  exists db1,
    createTables no_schema_faults db = (Ok tt, db1)
    /\ getRefreshMetadata faults db1
       = (Ok (mkMetadata 0 (Some (NOW db))), db1).
Proof.
  intros Hempty Hselect. rewrite createTables_run, Hempty. cbn.
  eexists. split; [reflexivity|].
  unfold getRefreshMetadata, guarded. unfold_st. rewrite Hselect.
  unfold read_db. reflexivity.
Qed.

(** ** The fetchers and the error middleware *)

(** X15: a request that fails for another reason than the timeout is answered
    with 503, "External data source unavailable" and, as details, the name
    of the source followed by the message of the failure. *)
Theorem fetch_failures_answered_503 (failure : js_error) :
  is_string (err_code failure) "ECONNABORTED" = false ->
  (exists e,
     fetchCountries (Throw failure) = Throw e
     /\ errorHandler e
        = mkResponse 503
            (VObj (<[ "details" :=
                        VStr ("Could not fetch data from Countries API: "
                              ++ err_message failure) ]>
                     {[ "error" := VStr "External data source unavailable" ]})))
  /\ (exists e,
        fetchExchangeRates (Throw failure) = Throw e
        /\ errorHandler e
           = mkResponse 503
               (VObj (<[ "details" :=
                           VStr ("Could not fetch data from Exchange Rate API: "
                                 ++ err_message failure) ]>
                        {[ "error" := VStr "External data source unavailable" ]}))).
Proof.
  intros Hcode. split; eexists; split.
  - unfold fetchCountries, try_catch. rewrite Hcode. reflexivity.
  - exact (fetch_failure_503 "Countries API: " (err_message failure)).
  - unfold fetchExchangeRates, try_catch. rewrite Hcode. reflexivity.
  - exact (fetch_failure_503 "Exchange Rate API: " (err_message failure)).
Qed.

(** X16: the rates come back truthy or not at all: a response without a truthy
    [rates] is a fetch failure, answered with 503 like a network failure. *)
Theorem rates_truthy_or_503 (response_data : value) :
  match fetchExchangeRates (Ok response_data) with
  | Ok rates =>
      truthy rates = true /\ get response_data "rates" = Ok rates
  | Throw e =>
      e = Error ("Could not fetch data from Exchange Rate API: "
                 ++ "Invalid response format from Exchange Rate API")
      /\ status (errorHandler e) = 503%nat
  end.
Proof.
  unfold fetchExchangeRates, try_catch.
  destruct (truthy response_data) eqn:Hdata.
  - destruct (get response_data "rates") as [rates|e] eqn:Hrates.
    + destruct (truthy rates) eqn:Htruthy; [auto|].
      split; [reflexivity|]. vm_compute. reflexivity.
    + destruct response_data; cbn in Hdata, Hrates; discriminate.
  - rewrite Hdata. split; [reflexivity|]. vm_compute. reflexivity.
Qed.

(** ** The validators *)

Section ValidatorsFurther.

Variable trim : string -> string.

Lemma size_insert_positive (k : string) (v : value) (m : gmap string value) :
  (0 <? size (<[ k := v ]> m))%nat = true.
Proof.
  apply Nat.ltb_lt.
  destruct (size (<[ k := v ]> m)) eqn:Hsize; [|lia].
  apply map_size_empty_inv in Hsize.
  pose proof (lookup_insert_eq m k v) as Hlookup.
  rewrite Hsize, lookup_empty in Hlookup. discriminate.
Qed.

Lemma population_is_count (v : value) :
  is_missing v = false /\ not_a_count v = false
  <-> exists n, v = VNum n /\ n <> NInf
                /\ forall q, n = Fin q -> Qneg q = false.
Proof.
  split.
  - destruct v as [| |b|[| | |q]|t|l|o|f]; cbn; intros [Hmissing Hcount];
      try discriminate; eexists; repeat split; try discriminate.
    intros q' [= <-]. exact Hcount.
  - intros (n & -> & Hinf & Hneg). destruct n as [| | |q]; cbn; auto.
    congruence.
Qed.

Lemma validateCountryData_text (countryData : CountryDraft) (s : string) :
  name countryData = VStr s ->
  exists errors,
    validateCountryData trim countryData
    = if (String.eqb s "" || String.eqb (trim s) "")
         || (is_missing (population countryData)
             || not_a_count (population countryData))
         || is_undefined (currency_code countryData)
      then Throw (AppError "Validation failed" 400 (VObj errors))
      else Ok tt.
Proof.
  intros Hname. unfold validateCountryData. rewrite Hname.
  cbn [truthy call_trim].
  assert (Hblank : (if negb (String.eqb s "")
                    then Ok (String.eqb (trim s) "") else Ok true)
                   = Ok (String.eqb s "" || String.eqb (trim s) "")).
  { destruct (String.eqb s ""); reflexivity. }
  rewrite Hblank.
  assert (Hcode : negb (truthy (currency_code countryData))
                  && negb (match currency_code countryData with
                           | VNull => true
                           | _ => false
                           end)
                  = true
                  \/ is_undefined (currency_code countryData) = false).
  { destruct (currency_code countryData); cbn; auto. }
  destruct (String.eqb s "" || String.eqb (trim s) "");
    destruct (is_missing (population countryData));
    destruct (not_a_count (population countryData));
    destruct (is_undefined (currency_code countryData)) eqn:Hundefined;
    cbn [orb];
    try (destruct Hcode as [-> | Hcode]; [|discriminate]);
    try (destruct (negb (truthy (currency_code countryData))
                   && negb (match currency_code countryData with
                            | VNull => true
                            | _ => false
                            end)));
    rewrite ?size_insert_positive, ?map_size_empty;
    first [ exists ∅; reflexivity | eexists; reflexivity ].
Qed.

(** X17: country data whose name is a string passes validation exactly when the
    name is not blank, the population is a number that is not negative (NaN
    and Infinity pass), and the currency code is not undefined (null and
    the empty string pass). *)
Theorem validateCountryData_accepts (countryData : CountryDraft) (s : string) :
  name countryData = VStr s ->
  validateCountryData trim countryData = Ok tt
  <-> (s <> "" /\ trim s <> ""
       /\ (exists n, population countryData = VNum n
                     /\ n <> NInf
                     /\ forall q, n = Fin q -> Qneg q = false)
       /\ currency_code countryData <> VUndefined).
Proof.
  intros Hname.
  destruct (validateCountryData_text countryData s Hname) as (errors & ->).
  rewrite <- population_is_count.
  destruct (String.eqb_spec s "") as [Hs|Hs];
    destruct (String.eqb_spec (trim s) "") as [Hblank|Hblank];
    cbn [orb]; try (split; [discriminate|tauto]).
  destruct (is_missing (population countryData));
    destruct (not_a_count (population countryData));
    cbn [orb]; try (split; [discriminate|intros (_ & _ & [? ?] & _); discriminate]).
  destruct (currency_code countryData); cbn;
    (split;
     [ first [ discriminate
             | intros _; repeat split; auto; intros Hcode; discriminate Hcode ]
     | first [ reflexivity
             | intros (_ & _ & _ & Hcode); congruence ] ]).
Qed.

(** X18: a validation failure on country data whose name is a string is answered
    with 400, "Validation failed" and the failing fields as details. *)
Theorem validation_failure_answered_400 (countryData : CountryDraft)
    (s : string) (e : js_error) :
  name countryData = VStr s ->
  validateCountryData trim countryData = Throw e ->
  exists errors,
    errorHandler e
    = mkResponse 400
        (VObj (<[ "details" := VObj errors ]>
                 {[ "error" := VStr "Validation failed" ]})).
Proof.
  intros Hname Hrun.
  destruct (validateCountryData_text countryData s Hname) as (errors & Hcases).
  rewrite Hcases in Hrun.
  destruct (_ || _ || _); [|discriminate].
  injection Hrun as <-. exists errors. reflexivity.
Qed.

End ValidatorsFurther.

(** ** The handlers *)

Section HandlersFurther.

Variable trim : string -> string.
Variable toUpperCase : string -> string.
Variable sql_equal : value -> value -> bool.
Variable lower_equal : value -> value -> bool.
Variable order_by : string -> list CountryRow -> list CountryRow.
Variable parseFloat : value -> value.

Local Abbreviation getCountries' :=
  (getCountries trim toUpperCase sql_equal order_by parseFloat).
Local Abbreviation getCountry' := (getCountry trim lower_equal parseFloat).
Local Abbreviation deleteCountry' := (deleteCountry trim lower_equal).

Lemma getAllCountries_sort (select_fault : option js_error) (filters : Filters)
    (sort1 sort2 : value) (db : Database) :
  sort_clause sort1 = sort_clause sort2 ->
  getAllCountries sql_equal order_by parseFloat select_fault filters sort1 db
  = getAllCountries sql_equal order_by parseFloat select_fault filters sort2 db.
Proof. intros Hclause. unfold getAllCountries. now rewrite Hclause. Qed.

Lemma sort_clause_default (v : value) :
  is_valid_sort v = false -> sort_clause v = sort_clause VUndefined.
Proof.
  unfold is_valid_sort, validSorts, sort_clause. cbn [existsb].
  repeat (destruct (is_string v _); [discriminate|cbn [orb]]).
  reflexivity.
Qed.

Lemma validateQueryParams_sort (query : gmap string value) (sort : value) :
  validateQueryParams trim toUpperCase (<[ "sort" := sort ]> query)
  = match validateQueryParams trim toUpperCase (delete "sort" query) with
    | Ok params =>
        Ok (if truthy sort && is_valid_sort sort
            then <[ "sort" := sort ]> params
            else params)
    | Throw e => Throw e
    end.
Proof.
  unfold validateQueryParams.
  rewrite !lookup_insert_ne, !lookup_delete_ne by discriminate.
  rewrite lookup_insert_eq, lookup_delete_eq.
  destruct (if truthy (default VUndefined (query !! "region")) then _ else _)
    as [params1|e]; [|reflexivity].
  destruct (if truthy (default VUndefined (query !! "currency")) then _ else _)
    as [params2|e]; reflexivity.
Qed.

Lemma validateQueryParams_no_sort (query params : gmap string value) :
  validateQueryParams trim toUpperCase (delete "sort" query) = Ok params ->
  params !! "sort" = None.
Proof.
  unfold validateQueryParams. rewrite lookup_delete_eq. cbn [default truthy andb].
  destruct (truthy (default VUndefined (delete "sort" query !! "region")));
    [destruct (call_trim trim "query.region" _) as [r|e]; [|discriminate]|];
    (destruct (truthy (default VUndefined (delete "sort" query !! "currency")));
     [destruct (call_trim trim "query.currency" _) as [c|e']; [|discriminate]|]);
    intros [= <-];
    rewrite ?lookup_insert_ne, ?lookup_empty by discriminate; reflexivity.
Qed.

(** X19: GET /countries answers the same without a sort, with sort=name_asc and
    with a sort that is not one of the six known ones. *)
Theorem default_sort_is_name_asc (select_fault : option js_error)
    (query : gmap string value) (sort : value) (w : World) :
  is_valid_sort sort = false \/ sort = VStr "name_asc" ->
  getCountries' select_fault (<[ "sort" := sort ]> query) w
  = getCountries' select_fault (delete "sort" query) w.
Proof.
  intros Hsort. unfold getCountries. rewrite validateQueryParams_sort.
  destruct (validateQueryParams trim toUpperCase (delete "sort" query))
    as [params|e] eqn:Hparams; [|reflexivity].
  apply validateQueryParams_no_sort in Hparams.
  destruct Hsort as [Hinvalid | ->].
  - now rewrite Hinvalid, andb_false_r.
  - change (truthy (VStr "name_asc") && is_valid_sort (VStr "name_asc"))
      with true.
    cbn iota. unfold_st. cbn [fst snd].
    rewrite !lookup_insert_ne by discriminate.
    rewrite lookup_insert_eq, Hparams. unfold io_db.
    rewrite (getAllCountries_sort select_fault _
               (default VUndefined (Some (VStr "name_asc")))
               (default VUndefined None));
      reflexivity.
Qed.

(** X20: a region given twice arrives as an array; trimming it raises a
    TypeError, and the request is answered with 500 without reading the
    database.  The same holds for any truthy region that is not a
    string. *)
Theorem region_not_a_string_500 (select_fault : option js_error)
    (query : gmap string value) (region : value) (w : World) :
  query !! "region" = Some region ->
  truthy region = true ->
  (forall s, region <> VStr s) ->
  getCountries' select_fault query w
  = (Next (TypeError "query.region.trim is not a function"), w)
  /\ respond (Next (TypeError "query.region.trim is not a function"))
     = mkResponse 500 (VObj {[ "error" := VStr "Internal server error" ]}).
Proof.
  intros Hregion Htruthy Hnot. split; [|reflexivity].
  unfold getCountries, validateQueryParams. rewrite Hregion.
  cbn [default from_option]. unfold id. rewrite Htruthy.
  destruct region; try reflexivity. now destruct (Hnot s).
Qed.

Lemma getCountry_run (name : value) (w : World) :
  name_required trim name = Ok tt ->
  getCountry' None name w
  = match filter (fun row => name_matches lower_equal name row = true)
                 (countries (tables (database w))) with
    | [] => (Next country_not_found, w)
    | row :: _ => (Json (formatCountryResponse parseFloat row), w)
    end.
Proof.
  intros Hname. unfold getCountry. unfold_st. rewrite Hname.
  unfold io_db, getCountryByName, guarded. unfold_st. unfold read_db.
  cbn [fst snd].
  destruct w as [db n png]. cbn [database draws summary_png].
  destruct (filter _ (countries (tables db))) as [|row rest]; reflexivity.
Qed.

Lemma deleteCountry_run (name : value) (w : World) :
  name_required trim name = Ok tt ->
  deleteCountry' None name w
  = (if (0 <? length (filter (fun row =>
                                name_matches lower_equal name row = true)
                             (countries (tables (database w)))))%nat
     then SendEmpty 204
     else PassOn country_not_found,
     without_name lower_equal name w).
Proof.
  intros Hname. unfold deleteCountry. unfold_st. rewrite Hname.
  unfold io_db, deleteCountryByName, guarded. unfold_st.
  unfold read_db, modify_tables. cbn [fst snd].
  destruct (0 <? _)%nat; reflexivity.
Qed.

Lemma without_name_unchanged (name : value) (w : World) :
  Forall (fun row => name_matches lower_equal name row = false)
         (countries (tables (database w))) ->
  without_name lower_equal name w = w.
Proof.
  intros Hnone. unfold without_name. rewrite (filter_all _ _ Hnone).
  now destruct w as [[[rows meta] txn next now] n png].
Qed.

Lemma without_name_none (name : value) (w : World) :
  Forall (fun row => name_matches lower_equal name row = false)
         (countries (tables (database (without_name lower_equal name w)))).
Proof.
  apply Forall_forall. intros row Hin. cbn in Hin.
  now apply list_elem_of_filter in Hin as [Hrow _].
Qed.

Lemma no_match_filter (name : value) (rows : list CountryRow) :
  Forall (fun row => name_matches lower_equal name row = false) rows ->
  filter (fun row => name_matches lower_equal name row = true) rows = [].
Proof.
  intros Hnone. apply filter_none.
  eapply Forall_impl; [exact Hnone|]. cbn. intros row Hrow. congruence.
Qed.

(** X21: a missing or blank name is refused with 400 "Country name is required"
    by GET and DELETE /countries/:name before the database is asked, also
    when the database is down. *)
Theorem blank_name_400 (query_fault : option js_error) (name : value)
    (w : World) :
  truthy name = false \/ (exists s, name = VStr s /\ trim s = "") ->
  getCountry' query_fault name w = (Next name_is_required, w)
  /\ deleteCountry' query_fault name w = (PassOn name_is_required, w)
  /\ respond (Next name_is_required)
     = mkResponse 400 (VObj {[ "error" := VStr "Country name is required" ]}).
Proof.
  intros Hblank.
  assert (Hname : name_required trim name = Throw name_is_required).
  { unfold name_required.
    destruct Hblank as [-> | (s & -> & Htrim)]; [reflexivity|].
    cbn. rewrite Htrim. now destruct (negb _). }
  split; [|split; [|reflexivity]].
  - unfold getCountry. unfold_st. now rewrite Hname.
  - unfold deleteCountry. unfold_st. now rewrite Hname.
Qed.

(** X22: for a name no row has, GET and DELETE /countries/:name are answered
    with 404 "Country not found", and nothing changes. *)
Theorem unknown_country_404 (name : value) (w : World) :
  name_required trim name = Ok tt ->
  Forall (fun row => name_matches lower_equal name row = false)
         (countries (tables (database w))) ->
  getCountry' None name w = (Next country_not_found, w)
  /\ deleteCountry' None name w = (PassOn country_not_found, w)
  /\ respond (Next country_not_found)
     = mkResponse 404 (VObj {[ "error" := VStr "Country not found" ]}).
Proof.
  intros Hname Hnone. split; [|split; [|reflexivity]].
  - rewrite (getCountry_run name w Hname), (no_match_filter _ _ Hnone).
    reflexivity.
  - rewrite (deleteCountry_run name w Hname), (no_match_filter _ _ Hnone).
    now rewrite (without_name_unchanged name w Hnone).
Qed.

(** X23: after DELETE /countries/:name has answered 204, a GET and a second
    DELETE of the same name are answered with 404, and the second DELETE
    changes nothing. *)
Theorem deleted_country_is_gone (name : value) (w w1 : World) :
  deleteCountry' None name w = (SendEmpty 204, w1) ->
  getCountry' None name w1 = (Next country_not_found, w1)
  /\ deleteCountry' None name w1 = (PassOn country_not_found, w1).
Proof.
  intros Hdelete.
  assert (Hname : name_required trim name = Ok tt).
  { unfold deleteCountry in Hdelete. unfold_st in Hdelete.
    destruct (name_required trim name) as [[]|e]; [reflexivity|].
    discriminate. }
  rewrite (deleteCountry_run name w Hname) in Hdelete.
  injection Hdelete as _ <-.
  pose proof (without_name_none name w) as Hnone.
  split.
  - rewrite (getCountry_run name _ Hname), (no_match_filter _ _ Hnone).
    reflexivity.
  - rewrite (deleteCountry_run name _ Hname), (no_match_filter _ _ Hnone).
    now rewrite (without_name_unchanged name _ Hnone).
Qed.

End HandlersFurther.

(** ** A successful refresh *)

Lemma map_receiver_Ok (countries : value) (records : list value) :
  map_receiver countries = Ok records -> countries = VArr records.
Proof. destruct countries; cbn; congruence. Qed.

Lemma getRefreshMetadata_reads (faults : Faults) (db db' : Database)
    (r : outcome Metadata) :
  getRefreshMetadata faults db = (r, db') -> db' = db.
Proof.
  unfold getRefreshMetadata, guarded. unfold_st.
  destruct (select_metadata_fault faults); cbn; [congruence|].
  unfold read_db. destruct (filter _ _); cbn; congruence.
Qed.

Lemma getTopCountriesByGDP_reads
    (order_by : string -> list CountryRow -> list CountryRow)
    (faults : Faults) (limit : nat) (db db' : Database)
    (r : outcome (list CountryRow)) :
  getTopCountriesByGDP order_by faults limit db = (r, db') -> db' = db.
Proof.
  unfold getTopCountriesByGDP, guarded. unfold_st.
  destruct (select_top_fault faults); cbn; congruence.
Qed.

Lemma bulkUpsertCountries_Ok (collate : value -> string) (faults : Faults)
    (batch : list CountryDraft) (db db' : Database) (count : nat) :
  bulkUpsertCountries collate faults batch db = (Ok count, db') ->
  count = length batch.
Proof.
  unfold bulkUpsertCountries, guarded. unfold_st.
  destruct (getConnection_fault faults); cbn; [discriminate|].
  unfold st_try_catch, st_bind, st_throw, rollback.
  destruct (beginTransaction_fault faults); cbn; [discriminate|].
  destruct (for_of batch _ _) as [[[]|e] db2]; cbn; [|discriminate].
  destruct (commit_fault faults); cbn; [discriminate|]. congruence.
Qed.

Section RefreshFurther.

Variable StringToNumber : string -> number.
Variable Number_toString : number -> string.
Variable random : nat -> Q.
Variable collate : value -> string.
Variable order_by : string -> list CountryRow -> list CountryRow.

Local Abbreviation refreshCountries' :=
  (refreshCountries StringToNumber Number_toString random collate
     order_by).

(** The steps behind a refresh that reports success. *)
Lemma refresh_success_steps (env : Env) (w w1 : World) (body : value) :
  refreshCountries' env w = (Json body, w1) ->
  exists records exchangeRates drafts s1 db1 db2 metadata top,
    fetchCountries (axios_countries env) = Ok (VArr records)
    /\ fetchExchangeRates (axios_rates env) = Ok exchangeRates
    /\ processCountryData StringToNumber Number_toString random
         records (own_properties exchangeRates) (draws w) = (Ok drafts, s1)
    /\ bulkUpsertCountries collate (faults env) drafts (database w)
       = (Ok (length drafts), db1)
    /\ updateRefreshMetadata (faults env) db1 = (Ok tt, db2)
    /\ getRefreshMetadata (faults env) db2 = (Ok metadata, db2)
    /\ getTopCountriesByGDP order_by (faults env) 5 db2 = (Ok top, db2)
    /\ w1 = mkWorld db2 s1
              (Some (mkSummary (total_countries metadata) top
                               (last_refreshed_at metadata)))
    /\ body = object
        [ ("message", VStr "Countries data refreshed successfully");
          ("countries_processed",
            VNum (Fin (inject_Z (Z.of_nat (length drafts)))));
          ("last_refreshed_at", timestamp (last_refreshed_at metadata)) ].
Proof.
  unfold refreshCountries, refresh. unfold_st. unfold st_ret.
  destruct (fetchCountries (axios_countries env)) as [cs|e] eqn:Hcountries;
    destruct (fetchExchangeRates (axios_rates env)) as [rs|e'] eqn:Hrates;
    cbn [Promise_all]; try discriminate.
  destruct (map_receiver cs) as [records|e] eqn:Hrecords; [|discriminate].
  apply map_receiver_Ok in Hrecords. subst cs.
  unfold io_random.
  destruct (processCountryData _ _ _ records (own_properties rs) (draws w))
    as [[drafts|e] s1] eqn:Hprocess; [|discriminate].
  unfold io_db at 1. cbn [database draws summary_png].
  destruct (bulkUpsertCountries collate (faults env) drafts (database w))
    as [[count|e] db1] eqn:Hupsert; [|discriminate].
  pose proof (bulkUpsertCountries_Ok _ _ _ _ _ _ Hupsert) as ->.
  unfold io_db at 1. cbn [database draws summary_png].
  destruct (updateRefreshMetadata (faults env) db1)
    as [[[]|e] db2] eqn:Hupdate; [|discriminate].
  unfold io_db at 1. cbn [database draws summary_png].
  destruct (getRefreshMetadata (faults env) db2)
    as [[metadata|e] db3] eqn:Hread; [|discriminate].
  pose proof (getRefreshMetadata_reads _ _ _ _ Hread) as ->.
  unfold io_db at 1. cbn [database draws summary_png].
  destruct (getTopCountriesByGDP order_by (faults env) 5 db2)
    as [[top|e] db4] eqn:Htop; [|discriminate].
  pose proof (getTopCountriesByGDP_reads _ _ _ _ _ _ Htop) as ->.
  unfold generateSummaryImage.
  destruct (render_fault env); [discriminate|].
  cbn [database draws summary_png]. intros [= <- <-].
  exists records, rs, drafts, s1, db1, db2, metadata, top.
  repeat split; auto.
Qed.

(** X24: a refresh that reports success reports as countries_processed the
    number of records the countries source returned, whatever was already
    in the table. *)
Theorem refresh_reports_batch_size (env : Env) (w w1 : World) (body : value) :
  refreshCountries' env w = (Json body, w1) ->
  exists records,
    fetchCountries (axios_countries env) = Ok (VArr records)
    /\ get body "countries_processed"
       = Ok (VNum (Fin (inject_Z (Z.of_nat (length records))))).
Proof.
  intros Hrun.
  destruct (refresh_success_steps env w w1 body Hrun)
    as (records & rs & drafts & s1 & db1 & db2 & metadata & top
        & Hfetch & _ & Hprocess & _ & _ & _ & _ & _ & ->).
  exists records. split; [exact Hfetch|].
  rewrite <- (map_M_length _ _ _ _ _ Hprocess).
  unfold object. cbn [get list_to_map foldr fst snd uncurry].
  rewrite lookup_insert_ne by discriminate. now rewrite lookup_insert_eq.
Qed.

(** X25: after a refresh that reports success, GET /status answers with the
    refresh time the refresh reported, and GET /countries/image serves an
    image drawn for that time and for the total that the status reports. *)
Theorem status_and_image_after_refresh (env : Env) (w w1 : World)
    (body : value) :
  refreshCountries' env w = (Json body, w1) ->
  exists status_body image,
    getStatus (faults env) w1 = (Json status_body, w1)
    /\ get status_body "last_refreshed_at" = get body "last_refreshed_at"
    /\ getSummaryImage w1 = SendFile image
    /\ Ok (timestamp (summary_last_refreshed_at image))
       = get body "last_refreshed_at"
    /\ Ok (VNum (Fin (inject_Z (Z.of_nat (summary_total_countries image)))))
       = get status_body "total_countries".
Proof.
  intros Hrun.
  destruct (refresh_success_steps env w w1 body Hrun)
    as (records & rs & drafts & s1 & db1 & db2 & metadata & top
        & _ & _ & _ & _ & _ & Hread & _ & -> & ->).
  eexists _, _. split.
  { unfold getStatus, io_db. unfold_st. cbn [database draws summary_png].
    rewrite Hread. reflexivity. }
  unfold object. cbn [get list_to_map foldr fst snd uncurry getSummaryImage
                      summary_png summary_last_refreshed_at
                      summary_total_countries].
  repeat split;
    repeat (rewrite lookup_insert_ne by discriminate);
    rewrite ?lookup_insert_eq; reflexivity.
Qed.

End RefreshFurther.

(** ** Escaping names for the image *)

Lemma append_cons (a : Ascii.ascii) (s t : string) :
  String a s ++ t = String a (s ++ t).
Proof. reflexivity. Qed.

Lemma append_nil (t : string) : "" ++ t = t.
Proof. reflexivity. Qed.

Lemma append_assoc (s t u : string) : (s ++ t) ++ u = s ++ (t ++ u).
Proof.
  induction s as [|a s IH]; [reflexivity|].
  rewrite !append_cons. now rewrite IH.
Qed.

Lemma occurs_append (c : Ascii.ascii) (s t : string) :
  occurs c (s ++ t) = occurs c s || occurs c t.
Proof.
  induction s as [|a s IH]; [reflexivity|].
  rewrite append_cons. cbn [occurs]. rewrite IH. apply orb_assoc.
Qed.

Lemma replace_all_append (c : Ascii.ascii) (by_ s t : string) :
  replace_all c by_ (s ++ t) = replace_all c by_ s ++ replace_all c by_ t.
Proof.
  induction s as [|a s IH]; [reflexivity|].
  rewrite append_cons. cbn [replace_all]. rewrite IH.
  destruct (Ascii.eqb a c); [|reflexivity].
  now rewrite append_assoc.
Qed.

Lemma replace_all_removes (c : Ascii.ascii) (by_ s : string) :
  occurs c by_ = false -> occurs c (replace_all c by_ s) = false.
Proof.
  intros Hby. induction s as [|a s IH]; [reflexivity|]. cbn [replace_all].
  destruct (Ascii.eqb a c) eqn:Ha.
  - now rewrite occurs_append, Hby, IH.
  - cbn [occurs]. now rewrite Ha, IH.
Qed.

Lemma replace_all_keeps_out (c d : Ascii.ascii) (by_ s : string) :
  occurs d by_ = false -> occurs d s = false ->
  occurs d (replace_all c by_ s) = false.
Proof.
  intros Hby. induction s as [|a s IH]; [reflexivity|]. cbn [occurs replace_all].
  intros Hs. apply orb_false_iff in Hs as [Ha Hs].
  destruct (Ascii.eqb a c).
  - now rewrite occurs_append, Hby, IH.
  - cbn [occurs]. now rewrite Ha, IH.
Qed.

Lemma replace_all_absent (c : Ascii.ascii) (by_ s : string) :
  occurs c s = false -> replace_all c by_ s = s.
Proof.
  induction s as [|a s IH]; [reflexivity|]. cbn [occurs replace_all].
  intros Hs. apply orb_false_iff in Hs as [-> Hs]. now rewrite IH.
Qed.

(** X26: an escaped name contains no [<], no [>], no double quote and no
    apostrophe. *)
Theorem escapeXml_no_markup (s t : string) :
  escapeXml (VStr s) = Ok t ->
  occurs less_than t = false
  /\ occurs greater_than t = false
  /\ occurs double_quote t = false
  /\ occurs apostrophe t = false.
Proof.
  unfold escapeXml. cbn [truthy].
  destruct (String.eqb_spec s "") as [->|_]; cbn [negb].
  { intros [= <-]. repeat split; reflexivity. }
  intros [= <-]. unfold replace_five.
  set (s1 := replace_all ampersand "&amp;" s).
  assert (H2 : occurs less_than (replace_all less_than "&lt;" s1) = false)
    by (now apply replace_all_removes).
  set (s2 := replace_all less_than "&lt;" s1) in *.
  assert (H3 : occurs greater_than (replace_all greater_than "&gt;" s2) = false)
    by (now apply replace_all_removes).
  assert (H3' : occurs less_than (replace_all greater_than "&gt;" s2) = false)
    by (now apply replace_all_keeps_out).
  set (s3 := replace_all greater_than "&gt;" s2) in *.
  assert (H4 : occurs double_quote (replace_all double_quote "&quot;" s3)
               = false)
    by (now apply replace_all_removes).
  assert (H4' : occurs less_than (replace_all double_quote "&quot;" s3) = false)
    by (now apply replace_all_keeps_out).
  assert (H4'' : occurs greater_than (replace_all double_quote "&quot;" s3)
                 = false)
    by (now apply replace_all_keeps_out).
  set (s4 := replace_all double_quote "&quot;" s3) in *.
  repeat split.
  - now apply replace_all_keeps_out.
  - now apply replace_all_keeps_out.
  - now apply replace_all_keeps_out.
  - now apply replace_all_removes.
Qed.

(** X27: a name without any of the five characters is handed back unchanged. *)
Theorem escapeXml_plain (s : string) :
  occurs ampersand s = false ->
  occurs less_than s = false ->
  occurs greater_than s = false ->
  occurs double_quote s = false ->
  occurs apostrophe s = false ->
  escapeXml (VStr s) = Ok s.
Proof.
  intros Hamp Hlt Hgt Hquot Hapos. unfold escapeXml. cbn [truthy].
  destruct (String.eqb_spec s "") as [->|_]; cbn [negb]; [reflexivity|].
  unfold replace_five.
  now rewrite (replace_all_absent _ _ _ Hamp), (replace_all_absent _ _ _ Hlt),
    (replace_all_absent _ _ _ Hgt), (replace_all_absent _ _ _ Hquot),
    (replace_all_absent _ _ _ Hapos).
Qed.

Lemma escaped_cases (a : Ascii.ascii) :
  (a = ampersand /\ escaped a = "&amp;")
  \/ (a = less_than /\ escaped a = "&lt;")
  \/ (a = greater_than /\ escaped a = "&gt;")
  \/ (a = double_quote /\ escaped a = "&quot;")
  \/ (a = apostrophe /\ escaped a = "&apos;")
  \/ (a <> ampersand /\ Ascii.eqb a ampersand = false
      /\ Ascii.eqb a less_than = false /\ Ascii.eqb a greater_than = false
      /\ Ascii.eqb a double_quote = false /\ Ascii.eqb a apostrophe = false
      /\ escaped a = String a "").
Proof.
  unfold escaped.
  destruct (Ascii.eqb_spec a ampersand) as [->|Hamp]; [auto|].
  destruct (Ascii.eqb_spec a less_than) as [->|Hlt]; [auto|].
  destruct (Ascii.eqb_spec a greater_than) as [->|Hgt]; [auto 6|].
  destruct (Ascii.eqb_spec a double_quote) as [->|Hquot]; [auto 8|].
  destruct (Ascii.eqb_spec a apostrophe) as [->|Hapos]; [auto 10|].
  repeat right. repeat split; auto.
Qed.

(** The five replacements act character by character. *)
Lemma replace_five_cons (a : Ascii.ascii) (s : string) :
  replace_five (String a s) = escaped a ++ replace_five s.
Proof.
  unfold replace_five. cbn [replace_all].
  destruct (escaped_cases a)
    as [[-> ->] | [[-> ->] | [[-> ->] | [[-> ->] | [[-> ->]
        | (_ & Hamp & Hlt & Hgt & Hquot & Hapos & ->)]]]]].
  - change (Ascii.eqb ampersand ampersand) with true. cbn iota.
    now rewrite !replace_all_append.
  - change (Ascii.eqb less_than ampersand) with false. cbn iota.
    cbn [replace_all].
    change (Ascii.eqb less_than less_than) with true. cbn iota.
    now rewrite !replace_all_append.
  - change (Ascii.eqb greater_than ampersand) with false. cbn iota.
    cbn [replace_all].
    change (Ascii.eqb greater_than less_than) with false. cbn iota.
    cbn [replace_all].
    change (Ascii.eqb greater_than greater_than) with true. cbn iota.
    now rewrite !replace_all_append.
  - change (Ascii.eqb double_quote ampersand) with false. cbn iota.
    cbn [replace_all].
    change (Ascii.eqb double_quote less_than) with false. cbn iota.
    cbn [replace_all].
    change (Ascii.eqb double_quote greater_than) with false. cbn iota.
    cbn [replace_all].
    change (Ascii.eqb double_quote double_quote) with true. cbn iota.
    now rewrite !replace_all_append.
  - change (Ascii.eqb apostrophe ampersand) with false. cbn iota.
    cbn [replace_all].
    change (Ascii.eqb apostrophe less_than) with false. cbn iota.
    cbn [replace_all].
    change (Ascii.eqb apostrophe greater_than) with false. cbn iota.
    cbn [replace_all].
    change (Ascii.eqb apostrophe double_quote) with false. cbn iota.
    cbn [replace_all].
    change (Ascii.eqb apostrophe apostrophe) with true. cbn iota.
    reflexivity.
  - rewrite Hamp. cbn [replace_all]. rewrite Hlt. cbn [replace_all].
    rewrite Hgt. cbn [replace_all]. rewrite Hquot. cbn [replace_all].
    rewrite Hapos. reflexivity.
Qed.

Ltac open_strings H :=
  repeat rewrite append_cons in H; repeat rewrite append_nil in H.

Lemma replace_five_injective (s1 : string) :
  forall s2, replace_five s1 = replace_five s2 -> s1 = s2.
Proof.
  induction s1 as [|a1 s1 IH]; intros [|a2 s2] Hsame.
  - reflexivity.
  - rewrite replace_five_cons in Hsame. exfalso.
    destruct (escaped_cases a2)
      as [[_ He] | [[_ He] | [[_ He] | [[_ He] | [[_ He]
          | (_ & _ & _ & _ & _ & _ & He)]]]]];
      rewrite He in Hsame; discriminate Hsame.
  - rewrite replace_five_cons in Hsame. exfalso.
    destruct (escaped_cases a1)
      as [[_ He] | [[_ He] | [[_ He] | [[_ He] | [[_ He]
          | (_ & _ & _ & _ & _ & _ & He)]]]]];
      rewrite He in Hsame; discriminate Hsame.
  - rewrite !replace_five_cons in Hsame.
    destruct (escaped_cases a1)
      as [[-> He1] | [[-> He1] | [[-> He1] | [[-> He1] | [[-> He1]
          | (Hne1 & _ & _ & _ & _ & _ & He1)]]]]];
      destruct (escaped_cases a2)
        as [[-> He2] | [[-> He2] | [[-> He2] | [[-> He2] | [[-> He2]
            | (Hne2 & _ & _ & _ & _ & _ & He2)]]]]];
      rewrite ?He1, ?He2 in Hsame; open_strings Hsame;
      try discriminate Hsame;
      try (injection Hsame as Htail; f_equal; now apply IH);
      try (injection Hsame as Hhead Htail; exfalso;
           first [ apply Hne1; exact Hhead
                 | apply Hne2; symmetry; exact Hhead ]).
    injection Hsame as -> Htail. f_equal. now apply IH.
Qed.

(** X28: two names that differ are escaped to two strings that differ. *)
Theorem escapeXml_injective (s1 s2 t : string) :
  escapeXml (VStr s1) = Ok t -> escapeXml (VStr s2) = Ok t -> s1 = s2.
Proof.
  unfold escapeXml. cbn [truthy].
  assert (Hempty : forall s, replace_five s = "" -> s = "").
  { intros s Hs. apply replace_five_injective. exact Hs. }
  destruct (String.eqb_spec s1 "") as [->|H1];
    destruct (String.eqb_spec s2 "") as [->|H2]; cbn [negb];
    intros Ht1 Ht2; rewrite <- Ht2 in Ht1.
  - reflexivity.
  - symmetry. apply Hempty. congruence.
  - apply Hempty. congruence.
  - apply replace_five_injective. congruence.
Qed.

(** ** The further properties on the sample data *)

Lemma draws_at_most_one_per_record_witness :
  (0 <= 1 <= 0 + length [nigeria; atlantis; bouvet_island])%nat.
Proof.
  apply (draws_at_most_one_per_record unparsed unprinted (draws_of 0)
           [nigeria; atlantis; bouvet_island] sample_rates 0 1
           (fst (processCountryData unparsed unprinted (draws_of 0)
                   [nigeria; atlantis; bouvet_island] sample_rates 0))).
  vm_compute. reflexivity.
Defined.

Lemma drafts_have_shape_witness :
  exists drafts s',
    processCountryData unparsed unprinted (draws_of 0)
      [nigeria; atlantis; ruritania; bouvet_island] sample_rates 0
    = (Ok drafts, s')
    /\ Forall draft_shape drafts.
Proof.
  eexists _, _. split; [vm_compute; reflexivity|].
  eapply (drafts_have_shape unparsed unprinted (draws_of 0)
            [nigeria; atlantis; ruritania; bouvet_island] sample_rates 0).
  vm_compute. reflexivity.
Defined.

Lemma one_draft_per_record_witness :
  exists drafts s',
    processCountryData unparsed unprinted (draws_of 0)
      [nigeria; blank_record] sample_rates 0 = (Ok drafts, s')
    /\ length drafts = 2%nat
    /\ forall i country,
         [nigeria; blank_record] !! i = Some country ->
         exists d, drafts !! i = Some d
                   /\ name d = js_or (field country "name") (VStr "").
Proof.
  eexists _, _. split; [vm_compute; reflexivity|].
  eapply (one_draft_per_record unparsed unprinted (draws_of 0)
            [nigeria; blank_record] sample_rates 0).
  vm_compute. reflexivity.
Defined.


Lemma bulkUpsert_keeps_names_unique_witness :
  NoDup (map (fun row => collate_ci (name (row_data row)))
           (countries (tables (snd (bulkUpsertCountries collate_ci no_faults
                                      [nigeria_draft; wakanda_census_draft]
                                      sample_database))))).
Proof.
  apply (bulkUpsert_keeps_names_unique collate_ci no_faults
           [nigeria_draft; wakanda_census_draft] sample_database).
  - reflexivity.
  - cbn. apply NoDup_singleton.
Defined.

Lemma bulkUpsert_keeps_rows_witness :
  rows_kept (countries (tables sample_database))
    (countries (tables (snd (bulkUpsertCountries collate_ci rejects_nameless
                               [wakanda_census_draft; nameless_draft]
                               sample_database)))).
Proof.
  apply (bulkUpsert_keeps_rows collate_ci rejects_nameless
           [wakanda_census_draft; nameless_draft] sample_database).
  reflexivity.
Defined.

Lemma metadata_update_then_read_witness :
  exists db1,
    updateRefreshMetadata no_faults two_rows_database = (Ok tt, db1)
    /\ countries (tables db1) = countries (tables two_rows_database)
    /\ getRefreshMetadata no_faults db1
       = (Ok (mkMetadata 2 (Some 100%nat)), db1).
Proof.
  apply (metadata_update_then_read no_faults two_rows_database);
    try reflexivity.
  apply Exists_cons_hd. reflexivity.
Defined.

Lemma metadata_without_row_witness :
  exists db1,
    updateRefreshMetadata no_faults stray_metadata_database = (Ok tt, db1)
    /\ tables db1 = tables stray_metadata_database
    /\ getRefreshMetadata no_faults db1 = (Ok (mkMetadata 0 None), db1).
Proof.
  apply (metadata_without_row no_faults stray_metadata_database);
    try reflexivity.
  repeat constructor. cbn. lia.
Defined.

Lemma top_countries_have_estimates_witness :
  two_rows_database = two_rows_database
  /\ length [nigeria_row] <= 5
  /\ Forall (fun row => row ∈ countries (tables two_rows_database)
                        /\ is_not_null (estimated_gdp (row_data row)) = true)
            [nigeria_row].
Proof.
  apply (top_countries_have_estimates unordered (fun _ _ _ H => H) no_faults 5
           two_rows_database two_rows_database [nigeria_row]).
  vm_compute. reflexivity.
Defined.

Lemma status_after_creation_witness :
  exists db1,
    createTables no_schema_faults empty_database = (Ok tt, db1)
    /\ getRefreshMetadata no_faults db1
       = (Ok (mkMetadata 0 (Some 100%nat)), db1).
Proof.
  apply (status_after_creation no_faults empty_database); reflexivity.
Defined.

Lemma fetch_failures_answered_503_witness :
  (exists e,
     fetchCountries (Throw network_error) = Throw e
     /\ errorHandler e
        = mkResponse 503
            (VObj (<[ "details" :=
                        VStr ("Could not fetch data from Countries API: "
                              ++ err_message network_error) ]>
                     {[ "error" := VStr "External data source unavailable" ]})))
  /\ (exists e,
        fetchExchangeRates (Throw network_error) = Throw e
        /\ errorHandler e
           = mkResponse 503
               (VObj (<[ "details" :=
                           VStr ("Could not fetch data from Exchange Rate API: "
                                 ++ err_message network_error) ]>
                        {[ "error" := VStr "External data source unavailable" ]}))).
Proof.
  apply (fetch_failures_answered_503 network_error). reflexivity.
Defined.

Lemma validateCountryData_accepts_witness :
  validateCountryData trim_spaces nigeria_draft = Ok tt
  <-> ("Nigeria" <> "" /\ trim_spaces "Nigeria" <> ""
       /\ (exists n, population nigeria_draft = VNum n
                     /\ n <> NInf
                     /\ forall q, n = Fin q -> Qneg q = false)
       /\ currency_code nigeria_draft <> VUndefined).
Proof.
  apply (validateCountryData_accepts trim_spaces nigeria_draft "Nigeria").
  reflexivity.
Defined.

Lemma validation_failure_answered_400_witness :
  exists errors,
    errorHandler
      (AppError "Validation failed" 400
         (object [ ("name", VStr "is required");
                   ("population", VStr "is required");
                   ("currency_code", VStr "is required") ]))
    = mkResponse 400
        (VObj (<[ "details" := VObj errors ]>
                 {[ "error" := VStr "Validation failed" ]})).
Proof.
  apply (validation_failure_answered_400 trim_spaces blank_named_draft " ").
  - reflexivity.
  - vm_compute. reflexivity.
Defined.

Lemma default_sort_is_name_asc_witness :
  getCountries trim_spaces uppercase equal_ci unordered (fun v => v) None
    (<[ "sort" := VStr "gdp" ]> (sort_query VNull)) two_rows_world
  = getCountries trim_spaces uppercase equal_ci unordered (fun v => v) None
      (delete "sort" (sort_query VNull)) two_rows_world.
Proof.
  apply (default_sort_is_name_asc trim_spaces uppercase equal_ci unordered
           (fun v => v) None (sort_query VNull) (VStr "gdp") two_rows_world).
  left. reflexivity.
Defined.

Lemma region_not_a_string_500_witness :
  getCountries trim_spaces uppercase equal_ci unordered (fun v => v) None
    repeated_region_query two_rows_world
  = (Next (TypeError "query.region.trim is not a function"), two_rows_world)
  /\ respond (Next (TypeError "query.region.trim is not a function"))
     = mkResponse 500 (VObj {[ "error" := VStr "Internal server error" ]}).
Proof.
  apply (region_not_a_string_500 trim_spaces uppercase equal_ci unordered
           (fun v => v) None repeated_region_query
           (VArr [VStr "Africa"; VStr "Asia"]) two_rows_world).
  - reflexivity.
  - reflexivity.
  - discriminate.
Defined.

Lemma blank_name_400_witness :
  getCountry trim_spaces equal_ci (fun v => v) (Some disk_full) (VStr " ")
    two_rows_world
  = (Next name_is_required, two_rows_world)
  /\ deleteCountry trim_spaces equal_ci (Some disk_full) (VStr " ")
       two_rows_world
     = (PassOn name_is_required, two_rows_world)
  /\ respond (Next name_is_required)
     = mkResponse 400 (VObj {[ "error" := VStr "Country name is required" ]}).
Proof.
  apply (blank_name_400 trim_spaces equal_ci (fun v => v) (Some disk_full)
           (VStr " ") two_rows_world).
  right. exists " ". split; reflexivity.
Defined.

Lemma unknown_country_404_witness :
  getCountry trim_spaces equal_ci (fun v => v) None (VStr "Atlantis")
    two_rows_world
  = (Next country_not_found, two_rows_world)
  /\ deleteCountry trim_spaces equal_ci None (VStr "Atlantis") two_rows_world
     = (PassOn country_not_found, two_rows_world)
  /\ respond (Next country_not_found)
     = mkResponse 404 (VObj {[ "error" := VStr "Country not found" ]}).
Proof.
  apply (unknown_country_404 trim_spaces equal_ci (fun v => v)
           (VStr "Atlantis") two_rows_world).
  - reflexivity.
  - repeat constructor.
Defined.

Lemma deleted_country_is_gone_witness :
  getCountry trim_spaces equal_ci (fun v => v) None (VStr "nigeria")
    (without_name equal_ci (VStr "nigeria") two_rows_world)
  = (Next country_not_found,
     without_name equal_ci (VStr "nigeria") two_rows_world)
  /\ deleteCountry trim_spaces equal_ci None (VStr "nigeria")
       (without_name equal_ci (VStr "nigeria") two_rows_world)
     = (PassOn country_not_found,
        without_name equal_ci (VStr "nigeria") two_rows_world).
Proof.
  apply (deleted_country_is_gone trim_spaces equal_ci (fun v => v)
           (VStr "nigeria") two_rows_world).
  vm_compute. reflexivity.
Defined.

Lemma refresh_reports_batch_size_witness :
  exists records,
    fetchCountries (axios_countries healthy_env) = Ok (VArr records)
    /\ get (body (respond (fst (refreshCountries unparsed unprinted (draws_of 0)
                                  collate_binary unordered healthy_env
                                  sample_world))))
           "countries_processed"
       = Ok (VNum (Fin (inject_Z (Z.of_nat (length records))))).
Proof.
  eapply (refresh_reports_batch_size unparsed unprinted (draws_of 0)
            collate_binary unordered healthy_env sample_world).
  vm_compute. reflexivity.
Defined.

Lemma status_and_image_after_refresh_witness :
  exists status_body image,
    let w1 := snd (refreshCountries unparsed unprinted (draws_of 0)
                     collate_binary unordered healthy_env sample_world) in
    let body := body (respond (fst (refreshCountries unparsed unprinted
                                      (draws_of 0) collate_binary unordered
                                      healthy_env sample_world))) in
    getStatus (faults healthy_env) w1 = (Json status_body, w1)
    /\ get status_body "last_refreshed_at" = get body "last_refreshed_at"
    /\ getSummaryImage w1 = SendFile image
    /\ Ok (timestamp (summary_last_refreshed_at image))
       = get body "last_refreshed_at"
    /\ Ok (VNum (Fin (inject_Z (Z.of_nat (summary_total_countries image)))))
       = get status_body "total_countries".
Proof.
  eapply (status_and_image_after_refresh unparsed unprinted (draws_of 0)
            collate_binary unordered healthy_env sample_world).
  vm_compute. reflexivity.
Defined.

Lemma escapeXml_no_markup_witness :
  occurs less_than "Trinidad &amp; Tobago &lt;&apos;T&amp;T&apos;&gt;" = false
  /\ occurs greater_than "Trinidad &amp; Tobago &lt;&apos;T&amp;T&apos;&gt;"
     = false
  /\ occurs double_quote "Trinidad &amp; Tobago &lt;&apos;T&amp;T&apos;&gt;"
     = false
  /\ occurs apostrophe "Trinidad &amp; Tobago &lt;&apos;T&amp;T&apos;&gt;"
     = false.
Proof.
  apply (escapeXml_no_markup "Trinidad & Tobago <'T&T'>").
  vm_compute. reflexivity.
Defined.

Lemma escapeXml_plain_witness : escapeXml (VStr "Nigeria") = Ok "Nigeria".
Proof. apply (escapeXml_plain "Nigeria"); reflexivity. Defined.

Lemma escapeXml_injective_witness : "A&B" = "A&B".
Proof.
  apply (escapeXml_injective "A&B" "A&B" "A&amp;B"); vm_compute; reflexivity.
Defined.

(** ** Listing with filters *)

Section Listing.

Variable sql_equal : value -> value -> bool.
Variable order_by : string -> list CountryRow -> list CountryRow.
Variable parseFloat : value -> value.

(** ORDER BY permutes the rows it is given. *)
Hypothesis order_by_permutes :
  forall clause rows, order_by clause rows ≡ₚ rows.

(** X29: the list of countries is the formatted rows that pass both filters, all
    of them and no other, each as often as it is stored; a filter that is
    not set, or set to the empty string, lets every row pass; the query
    changes nothing. *)
Theorem getAllCountries_filters (filters : Filters) (sort : value)
    (db : Database) :
  exists rows,
    getAllCountries sql_equal order_by parseFloat None filters sort db
    = (Ok (map (formatCountryResponse parseFloat) rows), db)
    /\ rows ≡ₚ filter (fun row => passes_filters sql_equal filters row = true)
                      (countries (tables db)).
Proof.
  unfold getAllCountries. eexists. split; [reflexivity|].
  rewrite order_by_permutes. unfold passes_filters.
  destruct (truthy (filter_region filters)),
           (truthy (filter_currency filters)); cbn [negb orb].
  - rewrite list_filter_filter. erewrite list_filter_iff; [reflexivity|].
    intros row. cbn. rewrite andb_true_iff. tauto.
  - erewrite list_filter_iff; [reflexivity|].
    intros row. cbn. now rewrite andb_true_r.
  - reflexivity.
  - rewrite filter_all; [reflexivity|].
    apply Forall_forall. intros row _. reflexivity.
Qed.

End Listing.

Lemma getAllCountries_filters_witness :
  exists rows,
    getAllCountries equal_ci unordered (fun v => v) None
      (mkFilters (VStr "africa") (VStr "")) VUndefined two_rows_database
    = (Ok (map (formatCountryResponse (fun v => v)) rows), two_rows_database)
    /\ rows ≡ₚ filter (fun row =>
                         passes_filters equal_ci
                           (mkFilters (VStr "africa") (VStr "")) row = true)
                      (countries (tables two_rows_database)).
Proof.
  apply (getAllCountries_filters equal_ci unordered (fun v => v)
           (fun clause rows => reflexivity rows)
           (mkFilters (VStr "africa") (VStr "")) VUndefined two_rows_database).
Defined.
